(** * invoice-parser: a shallow embedding of [src/index.ts]

    The program receives a spreadsheet, decodes it into a sparse object
    [file] (cell name -> cell value), validates its structure, reads the
    currency rates, extracts one record per admitted entry and computes
    the invoice totals.  This file embeds the functions of [src/index.ts]
    one by one, under their own names, together with the primitives of
    the JavaScript run time and of the zod library that they call, and
    then proves properties of them.

    Conventions of the embedding.
    - A JavaScript string is a [string]: a sequence of code units, here
      the code units below 256.
    - A JavaScript number that is a cell value or the result of
      arithmetic is an IEEE 754 binary64 value: a [spec_float] with
      [prec = 53] and [emax = 1024].  [parseFloat] and the conversion of
      a number to a string are written out ([number_of_decimal],
      [number_to_string]).
    - The results of [parseInt] are kept as mathematical integers
      ([None] is NaN).  They are the numbers of the program as long as
      their magnitude stays below [2^53], which holds for the row numbers
      of a sparse sheet ([isCellName]).
    - A plain object used as a dictionary is a finite map from property
      names, read with [get] (which falls back on [Object.prototype]) and
      written with [set].  The sheet itself, which the program enumerates
      with [Object.entries], is the list of its entries in enumeration
      order.
    - [throw] is the [Throw] case of the [result] type; the run-time
      errors of JavaScript are [TypeError].
    - The invoice records are objects that [calculateTotalInvoiceCurrency]
      updates in place: there, a heap holds the records and an array is a
      list of addresses. *)

From Stdlib Require Import ZArith Lia Bool.
From Stdlib Require Import Strings.String Strings.Ascii.
From Stdlib Require Import Numbers.DecimalString Numbers.DecimalPos.
From Stdlib Require Import Floats.SpecFloat.
From stdpp Require Import base option list gmap strings.

Open Scope Z_scope.
Open Scope string_scope.

(* ================================================================== *)
(** * The JavaScript run time *)
(* ================================================================== *)

Module JS.

(** ** Exceptions *)

Inductive exn : Type :=
| Error (message : string)   (* [throw new Error(message)] *)
| TypeError.                 (* raised by the run time itself *)

Inductive result (A : Type) : Type :=
| Ok (a : A)
| Throw (e : exn).
Arguments Ok {A} a.
Arguments Throw {A} e.

Definition bind {A B} (k : A -> result B) (r : result A) : result B :=
  match r with
  | Ok a => k a
  | Throw e => Throw e
  end.

(** [forEach] with a body that may throw, threading the mutated state. *)
Fixpoint forEach {A S} (body : S -> A -> result S) (l : list A) (s : S)
  : result S :=
  match l with
  | [] => Ok s
  | a :: l' => bind (forEach body l') (body s a)
  end.

(** ** Strings *)

Definition startsWith (s p : string) : bool := String.prefix p s.

Definition endsWith (s p : string) : bool :=
  let n := String.length s in
  let m := String.length p in
  (m <=? n)%nat && String.eqb (String.substring (n - m) m s) p.

(** [s.substring(1)] *)
Definition substring1 (s : string) : string :=
  match s with
  | EmptyString => EmptyString
  | String _ r => r
  end.

(** [s[i]], [undefined] when [i] is out of range *)
Definition index (s : string) (i : nat) : option ascii := String.get i s.

(** [s.charCodeAt(0)], NaN on the empty string *)
Definition charCodeAt0 (s : string) : option Z :=
  match s with
  | EmptyString => None
  | String c _ => Some (Z.of_N (N_of_ascii c))
  end.

Definition fromCharCode (c : ascii) : string := String c EmptyString.

(** [s.split(sep)] for a one-character separator: never empty. *)
Fixpoint split (sep : ascii) (s : string) : list string :=
  match s with
  | EmptyString => [EmptyString]
  | String c r =>
      if Ascii.eqb c sep then EmptyString :: split sep r
      else match split sep r with
           | h :: t => String c h :: t
           | [] => [String c EmptyString]
           end
  end.

Fixpoint join (sep : string) (l : list string) : string :=
  match l with
  | [] => EmptyString
  | [s] => s
  | s :: l' => String.append s (String.append sep (join sep l'))
  end.

Definition toUpperCase_char (c : ascii) : ascii :=
  let n := N_of_ascii c in
  if ((97 <=? n) && (n <=? 122))%N then ascii_of_N (n - 32) else c.

(** [s.toUpperCase()], exact on ASCII text. *)
Fixpoint toUpperCase (s : string) : string :=
  match s with
  | EmptyString => EmptyString
  | String c r => String (toUpperCase_char c) (toUpperCase r)
  end.

(** The spread of a string: one string per character. *)
Fixpoint chars (s : string) : list string :=
  match s with
  | EmptyString => []
  | String c r => fromCharCode c :: chars r
  end.

(** ** Integers in decimal *)

(** [`${n}`] for an integral number. *)
Definition Z_to_string (z : Z) : string :=
  NilEmpty.string_of_int (Z.to_int z).

Definition int_to_string (n : option Z) : string :=
  match n with
  | Some z => Z_to_string z
  | None => "NaN"
  end.

(** White space that [parseInt] and [parseFloat] skip. *)
Definition isWhiteSpace (c : ascii) : bool :=
  let n := N_of_ascii c in
  ((9 <=? n) && (n <=? 13) || (n =? 32) || (n =? 160))%N.

Fixpoint trimStart (s : string) : string :=
  match s with
  | String c r => if isWhiteSpace c then trimStart r else s
  | EmptyString => EmptyString
  end.

Definition digit_value (radix : Z) (c : ascii) : option Z :=
  let n := Z.of_N (N_of_ascii c) in
  let v := if ((48 <=? n) && (n <=? 57))%Z then Some (n - 48)
           else if ((97 <=? n) && (n <=? 122))%Z then Some (n - 87)
           else if ((65 <=? n) && (n <=? 90))%Z then Some (n - 55)
           else None in
  match v with
  | Some d => if (d <? radix)%Z then Some d else None
  | None => None
  end.

(** The value of the longest prefix of digits, after [acc]; the flag
    tells whether a digit was read. *)
Fixpoint digits_prefix (radix : Z) (s : string) (acc : Z) (seen : bool)
  : Z * bool :=
  match s with
  | EmptyString => (acc, seen)
  | String c r =>
      match digit_value radix c with
      | Some d => digits_prefix radix r (radix * acc + d) true
      | None => (acc, seen)
      end
  end.

Definition strip_sign (s : string) : bool * string :=
  match s with
  | String "-" r => (true, r)
  | String "+" r => (false, r)
  | _ => (false, s)
  end.

Definition strip_hex_prefix (s : string) : Z * string :=
  match s with
  | String "0" (String "x" r) => (16, r)
  | String "0" (String "X" r) => (16, r)
  | _ => (10, s)
  end.

(** [parseInt(s)] with no radix argument, as the integer the digits
    denote: the program's number as long as its magnitude stays below
    [2^53]. *)
Definition parseInt (s : string) : option Z :=
  let '(neg, s1) := strip_sign (trimStart s) in
  let '(radix, s2) := strip_hex_prefix s1 in
  match digits_prefix radix s2 0 false with
  | (v, true) => Some (if neg then - v else v)
  | (_, false) => None
  end.

(** Comparisons of numbers; every comparison with NaN is false, and
    [!==] on NaN is true. *)
Definition gt (a b : option Z) : bool :=
  match a, b with
  | Some x, Some y => (y <? x)%Z
  | _, _ => false
  end.

Definition strict_ne_int (a b : option Z) : bool :=
  match a, b with
  | Some x, Some y => negb (x =? y)%Z
  | _, _ => true
  end.

(** ** Numbers: IEEE 754 binary64 *)

Definition number : Type := spec_float.
Definition prec : Z := 53.
Definition emax : Z := 1024.
Definition NaN : number := S754_nan.

Definition number_of_Z (z : Z) : number := binary_normalize prec emax z 0 false.

(** The number that [parseInt] returned, as an operand of arithmetic. *)
Definition number_of_int (n : option Z) : number :=
  match n with
  | Some z => number_of_Z z
  | None => NaN
  end.

Definition mul (x y : number) : number := SFmul prec emax x y.
Definition ltb (x y : number) : bool := SFltb x y.
Definition number_eqb (x y : number) : bool := SFeqb x y.

Definition isNaN (x : number) : bool :=
  match x with
  | S754_nan => true
  | _ => false
  end.

(** [Number.isInteger] *)
Definition isInteger (x : number) : bool :=
  match x with
  | S754_zero _ => true
  | S754_finite _ m e =>
      if (0 <=? e)%Z then true else (Z.pos m mod 2 ^ (- e) =? 0)%Z
  | _ => false
  end.

(** [ToBoolean] of a number: zero and NaN are falsy. *)
Definition number_truthy (x : number) : bool :=
  match x with
  | S754_zero _ | S754_nan => false
  | _ => true
  end.

(** The binary64 number nearest to [m * 10^e10], for [0 <= m]; ties go
    to the even mantissa.  For a negative exponent the quotient is
    computed with 64 bits and the position of the remainder. *)
Definition number_of_decimal (neg : bool) (m e10 : Z) : number :=
  if (m <=? 0)%Z then S754_zero neg
  else if (0 <=? e10)%Z then
    if (400 <? e10)%Z then S754_infinity neg
    else binary_normalize prec emax ((if neg then Z.opp else id) (m * 10 ^ e10)) 0 false
  else if (e10 + Z.log2 m <? - 400)%Z then S754_zero neg
  else
    let den := 10 ^ (- e10) in
    let sh := Z.max 0 (64 + Z.log2 den - Z.log2 m) in
    let num := m * 2 ^ sh in
    let q := num / den in
    let r := num mod den in
    let loc := if (r =? 0)%Z then loc_Exact
               else loc_Inexact (Z.compare (2 * r) den) in
    binary_round_aux prec emax neg q (- sh) loc.

(** *** [Number::toString]: the shortest decimal that reads back *)

(** [num / den / 10^p] as a fraction *)
Definition scaled (num den p : Z) : Z * Z :=
  (num * 10 ^ Z.max 0 (- p), den * 10 ^ Z.max 0 p).

Definition below_pow10 (num den n : Z) : bool :=
  let '(a, b) := scaled num den n in (a <? b)%Z.

Fixpoint first_pow10_above (fuel : nat) (num den n : Z) : Z :=
  match fuel with
  | O => n
  | S fuel' =>
      if below_pow10 num den n then n
      else first_pow10_above fuel' num den (n + 1)
  end.

(** The [n] with [10^(n-1) <= num/den < 10^n]. *)
Definition decimal_magnitude (num den : Z) : Z :=
  let l := Z.log2 num - Z.log2 den in
  first_pow10_above 8 num den ((l - 1) * 1233 / 4096 - 1).

(** The digits [s] and the magnitude [n] of the shortest decimal
    [s * 10^(n-k)] with [k] digits that rounds to [x = num/den]. *)
Fixpoint shortest_digits (fuel : nat) (x : number) (num den n0 k : Z)
  : Z * Z :=
  let p := n0 - k in
  let '(a, b) := scaled num den p in
  let lo := a / b in
  let r := a mod b in
  let hi := lo + 1 in
  let ok_lo := number_eqb (number_of_decimal false lo p) x in
  let ok_hi := number_eqb (number_of_decimal false hi p) x in
  let pick s := if (s =? 10 ^ k)%Z then (s / 10, n0 + 1) else (s, n0) in
  if (r =? 0)%Z then pick lo
  else if ok_lo && ok_hi then
    match Z.compare (2 * r) b with
    | Lt => pick lo
    | Gt => pick hi
    | Eq => if Z.even lo then pick lo else pick hi
    end
  else if ok_lo then pick lo
  else if ok_hi then pick hi
  else match fuel with
       | O => pick lo
       | S fuel' => shortest_digits fuel' x num den n0 (k + 1)
       end.

Fixpoint zeros (n : nat) : string :=
  match n with
  | O => EmptyString
  | S n' => String "0" (zeros n')
  end.

Definition finite_to_string (m : positive) (e : Z) : string :=
  let x := binary_round prec emax false m e in
  let num := Z.pos m * 2 ^ Z.max 0 e in
  let den := 2 ^ Z.max 0 (- e) in
  let n0 := decimal_magnitude num den in
  let '(s, n) := shortest_digits 20 x num den n0 1 in
  let ds := Z_to_string s in
  let k := Z.of_nat (String.length ds) in
  if ((k <=? n) && (n <=? 21))%Z then
    String.append ds (zeros (Z.to_nat (n - k)))
  else if ((0 <? n) && (n <=? 21))%Z then
    String.append (String.substring 0 (Z.to_nat n) ds)
      (String "." (String.substring (Z.to_nat n) (Z.to_nat (k - n)) ds))
  else if ((-6 <? n) && (n <=? 0))%Z then
    String.append "0." (String.append (zeros (Z.to_nat (- n))) ds)
  else
    let ex := String.append (if (n - 1 <? 0)%Z then "e-" else "e+")
                (Z_to_string (Z.abs (n - 1))) in
    if (k =? 1)%Z then String.append ds ex
    else String.append (String.substring 0 1 ds)
           (String "." (String.append
              (String.substring 1 (Z.to_nat (k - 1)) ds) ex)).

Definition number_to_string (x : number) : string :=
  match x with
  | S754_nan => "NaN"
  | S754_zero _ => "0"
  | S754_infinity s => if s then "-Infinity" else "Infinity"
  | S754_finite s m e =>
      String.append (if s then "-" else EmptyString) (finite_to_string m e)
  end.

(** *** [parseFloat] *)

(** A run of decimal digits: its value after [acc], its length, the rest. *)
Fixpoint scan_digits (s : string) (acc : Z) (len : Z) : Z * Z * string :=
  match s with
  | EmptyString => (acc, len, s)
  | String c r =>
      match digit_value 10 c with
      | Some d => scan_digits r (10 * acc + d) (len + 1)
      | None => (acc, len, s)
      end
  end.

(** The exponent part [e[+-]digits], 0 when it is absent or incomplete. *)
Definition scan_exponent (s : string) : Z :=
  match s with
  | String c r =>
      if Ascii.eqb c "e" || Ascii.eqb c "E" then
        let '(neg, r') := strip_sign r in
        let '(v, len, _) := scan_digits r' 0 0 in
        if (len =? 0)%Z then 0 else if neg then - v else v
      else 0
  | EmptyString => 0
  end.

(** [parseFloat(s)]: the longest prefix that is a decimal literal. *)
Definition parseFloat (s : string) : number :=
  let '(neg, s1) := strip_sign (trimStart s) in
  if String.prefix "Infinity" s1 then S754_infinity neg
  else
    let '(ip, ilen, s2) := scan_digits s1 0 0 in
    let '(m, flen, s3) :=
      match s2 with
      | String "." r => let '(v, l, r') := scan_digits r ip 0 in (v, l, r')
      | _ => (ip, 0, s2)
      end in
    if ((ilen =? 0) && (flen =? 0))%Z then NaN
    else number_of_decimal neg m (scan_exponent s3 - flen).

(** ** Values *)

(** The value of a cell: a string or a number.  [undefined] is the
    [None] of [option value]. *)
Inductive value : Type :=
| VStr (s : string)
| VNum (n : number).

(** [ToBoolean] *)
Definition truthy (v : option value) : bool :=
  match v with
  | None => false
  | Some (VStr s) => negb (String.eqb s EmptyString)
  | Some (VNum n) => number_truthy n
  end.

(** [ToString] *)
Definition value_to_string (v : value) : string :=
  match v with
  | VStr s => s
  | VNum n => number_to_string n
  end.

Definition to_string (v : option value) : string :=
  match v with
  | Some v => value_to_string v
  | None => "undefined"
  end.

(** [v === s] for a string [s] *)
Definition is_string (v : value) (s : string) : bool :=
  match v with
  | VStr s' => String.eqb s' s
  | VNum _ => false
  end.

(** ** Plain objects as dictionaries *)

(** What every plain object inherits from [Object.prototype], with the
    text the member converts to (as printed by V8). *)
Definition native (name : string) : string :=
  String.append "function " (String.append name "() { [native code] }").

Definition Object_prototype : list (string * string) :=
  [ ("constructor", native "Object");
    ("__defineGetter__", native "__defineGetter__");
    ("__defineSetter__", native "__defineSetter__");
    ("hasOwnProperty", native "hasOwnProperty");
    ("__lookupGetter__", native "__lookupGetter__");
    ("__lookupSetter__", native "__lookupSetter__");
    ("isPrototypeOf", native "isPrototypeOf");
    ("propertyIsEnumerable", native "propertyIsEnumerable");
    ("toString", native "toString");
    ("valueOf", native "valueOf");
    ("__proto__", "[object Object]");
    ("toLocaleString", native "toLocaleString") ].

Fixpoint assoc {A} (l : list (string * A)) (k : string) : option A :=
  match l with
  | [] => None
  | (k', a) :: l' => if String.eqb k' k then Some a else assoc l' k
  end.

Inductive property (A : Type) : Type :=
| Own (a : A)
| Inherited (text : string)
| Undefined.
Arguments Own {A} a.
Arguments Inherited {A} text.
Arguments Undefined {A}.

(** [o[k]] *)
Definition get {A} (o : gmap string A) (k : string) : property A :=
  match o !! k with
  | Some a => Own a
  | None =>
      match assoc Object_prototype k with
      | Some text => Inherited text
      | None => Undefined
      end
  end.

(** [o[k] = a] for a value [a] that is not an object: the assignment to
    [__proto__] goes to the inherited setter, which ignores it. *)
Definition set {A} (o : gmap string A) (k : string) (a : A) : gmap string A :=
  if String.eqb k "__proto__" then o else <[k := a]> o.

End JS.

#[export] Instance result_ret : MRet JS.result := @JS.Ok.
#[export] Instance result_bind : MBind JS.result := @JS.bind.
#[export] Instance result_fmap : FMap JS.result :=
  fun A B f r => JS.bind (fun a => JS.Ok (f a)) r.

(* ================================================================== *)
(** * The zod schemas the program uses *)
(* ================================================================== *)

Module Zod.
Import JS.

Inductive StringCheck : Type :=
| CheckMax (n : nat)          (* [.max(n)] *)
| CheckLength (n : nat)       (* [.length(n)] *)
| CheckToUpperCase.           (* [.toUpperCase()] *)

Inductive NumberCheck : Type :=
| CheckInt                    (* [.int()] *)
| CheckGte (z : Z)            (* [.gte(z)] *)
| CheckLte (z : Z).           (* [.lte(z)] *)

Inductive ZodType : Type :=
| ZodString (checks : list StringCheck)     (* [z.string()...] *)
| ZodNumber (checks : list NumberCheck)     (* [z.number()...] *)
| ZodEnum (options : list string).          (* [z.enum([...])] *)

Definition parsedType (v : option value) : string :=
  match v with
  | None => "undefined"
  | Some (VStr _) => "string"
  | Some (VNum n) => if isNaN n then "nan" else "number"
  end.

Definition invalid_type (expected : string) (v : option value) : string :=
  match v with
  | None => "Required"
  | Some _ =>
      String.append "Expected "
        (String.append expected
           (String.append ", received " (parsedType v)))
  end.

Definition nat_to_string (n : nat) : string := Z_to_string (Z.of_nat n).

Definition quoted (s : string) : string :=
  String.append "'" (String.append s "'").

Definition joinValues (options : list string) : string :=
  join " | " (map quoted options).

Fixpoint check_string (checks : list StringCheck) (data : string)
  : list string :=
  match checks with
  | [] => []
  | CheckMax n :: cs =>
      ((if (n <? String.length data)%nat
       then [String.append "String must contain at most "
               (String.append (nat_to_string n) " character(s)")]
       else []) ++ check_string cs data)%list
  | CheckLength n :: cs =>
      ((if (String.length data =? n)%nat then []
       else [String.append "String must contain exactly "
               (String.append (nat_to_string n) " character(s)")])
       ++ check_string cs data)%list
  | CheckToUpperCase :: cs => check_string cs (toUpperCase data)
  end.

Definition check_number (data : number) (check : NumberCheck) : list string :=
  match check with
  | CheckInt =>
      if isInteger data then [] else ["Expected integer, received float"]
  | CheckGte z =>
      if ltb data (number_of_Z z)
      then [String.append "Number must be greater than or equal to "
              (Z_to_string z)]
      else []
  | CheckLte z =>
      if ltb (number_of_Z z) data
      then [String.append "Number must be less than or equal to "
              (Z_to_string z)]
      else []
  end.

(** [schema.safeParse(v)]: the messages of the issues found;
    [result.success] holds when there is none. *)
Definition safeParse (schema : ZodType) (v : option value) : list string :=
  match schema, v with
  | ZodString checks, Some (VStr s) => check_string checks s
  | ZodString _, _ => [invalid_type "string" v]
  | ZodNumber checks, Some (VNum n) =>
      if isNaN n then [invalid_type "number" v]
      else flat_map (check_number n) checks
  | ZodNumber _, _ => [invalid_type "number" v]
  | ZodEnum options, Some (VStr s) =>
      if existsb (String.eqb s) options then []
      else [String.append "Invalid enum value. Expected "
              (String.append (joinValues options)
                 (String.append ", received " (quoted s)))]
  | ZodEnum options, _ => [invalid_type (joinValues options) v]
  end.

End Zod.

(* ================================================================== *)
(** * The program: [src/index.ts] *)
(* ================================================================== *)

Import JS.

(** [type File]: the sheet, by its entries in the order of
    [Object.entries]. *)
Definition FileEntry : Type := string * value.
Definition File : Type := list FileEntry.

(** [file[cell]] *)
Definition file_get (file : File) (cell : string) : option value :=
  assoc file cell.

Definition mandatoryFields : list string :=
  [ "Customer"; "Cust No'"; "Project Type";
    "Quantity"; "Price Per Item"; "Item Price Currency";
    "Total Price"; "Invoice Currency"; "Status" ].

Definition invoiceDataFormat : list (string * Zod.ZodType) :=
  [ ("Customer", Zod.ZodString []);
    ("Cust No'", Zod.ZodNumber [Zod.CheckInt; Zod.CheckGte 10000; Zod.CheckLte 99999]);
    ("Project Type", Zod.ZodString [Zod.CheckMax 20]);
    ("Quantity", Zod.ZodNumber []);
    ("Price Per Item", Zod.ZodNumber []);
    ("Item Price Currency", Zod.ZodString [Zod.CheckToUpperCase; Zod.CheckLength 3]);
    ("Total Price", Zod.ZodNumber []);
    ("Invoice Currency", Zod.ZodString [Zod.CheckToUpperCase; Zod.CheckLength 3]);
    ("Status", Zod.ZodEnum ["Ready"; "Done"]) ].

Definition columnLetters : list string :=
  [ "A"; "B"; "C"; "D"; "E"; "F"; "G"; "H"; "I"; "J";
    "K"; "L"; "M"; "N"; "O"; "P"; "Q"; "R"; "S"; "T";
    "U"; "V"; "W"; "X"; "Y"; "Z" ].

Definition CHAR_OFFSET : Z := 65.

(** The text of an operand of [concat] or of a template that may be
    [undefined]. *)
Definition text_of (s : option string) : string :=
  match s with
  | Some s => s
  | None => "undefined"
  end.

Definition getRightCellIndex (cell : string) : result string :=
  match charCodeAt0 cell with
  | Some code =>
      let columnIndex := code - CHAR_OFFSET in
      if ((0 <=? columnIndex)
          && (columnIndex <? Z.of_nat (List.length columnLetters) - 1))%Z
      then Ok (String.append
                 (text_of (columnLetters !! Z.to_nat (columnIndex + 1)))
                 (text_of (fromCharCode <$> index cell 1)))
      else Throw (Error "Wrong column index")
  | None => Throw (Error "Wrong column index")
  end.

Definition monthsArray : gmap string string :=
  list_to_map
    [ ("Jan", "01"); ("Feb", "02"); ("Mar", "03"); ("Apr", "04");
      ("May", "05"); ("Jun", "06"); ("Jul", "07"); ("Aug", "08");
      ("Sep", "09"); ("Oct", "10"); ("Nov", "11"); ("Dec", "12") ].

(** The text of a property inside a template. *)
Definition property_text {A} (text : A -> string) (p : property A) : string :=
  match p with
  | Own a => text a
  | Inherited t => t
  | Undefined => "undefined"
  end.

Definition parseInvoicingDate (dateString : string) : string :=
  let dateArray := split " " dateString in
  let month := text_of (dateArray !! 0%nat) in
  let year := text_of (dateArray !! 1%nat) in
  String.append year
    (String.append "-" (property_text id (get monthsArray month))).

Definition fileToEntries (file : File) : list FileEntry := file.

Definition rowColFromString (cell : string) : option ascii * option Z :=
  (index cell 0, parseInt (substring1 cell)).

(** ** [parseCurrencyRates] *)

(** The filter of [rateCells]: string cells that end with "Rate". *)
Definition isRateCell (element : FileEntry) : bool :=
  match element.2 with
  | VStr s => endsWith s "Rate"
  | VNum _ => false
  end.

(** [file[rightCellIndex] || "No value"] *)
Definition rateValue (file : File) (rightCellIndex : string) : value :=
  match file_get file rightCellIndex with
  | Some v => if truthy (Some v) then v else VStr "No value"
  | None => VStr "No value"
  end.

(** The body of [rateCells.forEach]. *)
Definition recordRate (file : File) (currencyRates : gmap string value)
    (element : FileEntry) : result (gmap string value) :=
  let '(cellIndex, cellValue) := element in
  match cellValue with
  | VStr text =>
      let rateName := text_of (split " " text !! 0%nat) in
      rightCellIndex ← getRightCellIndex cellIndex;
      Ok (set currencyRates rateName (rateValue file rightCellIndex))
  | VNum _ => Throw TypeError
  end.

Definition parseCurrencyRates (file : File) : result (gmap string value) :=
  let rateCells := List.filter isRateCell (fileToEntries file) in
  forEach (recordRate file) rateCells ∅.

(** ** [parseInvoicesData] *)

(** A property of an invoice record: a cell value, [undefined], or the
    list of validation messages. *)
Inductive field : Type :=
| FUndefined
| FValue (v : value)
| FArray (l : list string).

Definition field_of (v : option value) : field :=
  match v with
  | Some v => FValue v
  | None => FUndefined
  end.

Definition field_text (f : field) : string :=
  match f with
  | FUndefined => "undefined"
  | FValue v => value_to_string v
  | FArray l => join "," l
  end.

Abbreviation record := (gmap string field).

(** [fileEntries.find(element => element[1] === marker)] *)
Definition findCell (marker : string) (fileEntries : list FileEntry)
  : option FileEntry :=
  List.find (fun element => is_string element.2 marker) fileEntries.

Definition col_eqb (a b : option ascii) : bool :=
  match a, b with
  | Some x, Some y => Ascii.eqb x y
  | None, None => true
  | _, _ => false
  end.

(** The loop that retrieves the column names: [columns] after it. *)
Definition columnNames (file : File) (headerRowIndex : option Z)
  : gmap string value :=
  foldl (fun columns letter =>
           let cellIndex := String.append letter (int_to_string headerRowIndex) in
           match file_get file cellIndex with
           | Some v => if truthy (Some v) then <[cellIndex := v]> columns
                       else columns
           | None => columns
           end)
        ∅ columnLetters.

(** The filter of [entriesToProcess]. *)
Definition toProcess (statusCol : option ascii) (statusRow : option Z)
    (invoiceNoCol : option ascii) (element : FileEntry) : bool :=
  let '(entryIndex, entryValue) := element in
  let '(valueCol, valueRow) := rowColFromString entryIndex in
  if gt valueRow statusRow then
    if col_eqb valueCol statusCol && is_string entryValue "Ready" then true
    else col_eqb valueCol invoiceNoCol
         && match entryValue with
            | VStr s => startsWith s "INV" && (String.length s =? 11)%nat
            | VNum _ => false
            end
  else false.

(** [mandatoryFields.has(columnName)]: the name when it is mandatory. *)
Definition mandatory (columnName : option value) : option string :=
  match columnName with
  | Some (VStr name) =>
      if existsb (String.eqb name) mandatoryFields then Some name else None
  | _ => None
  end.

(** [...(entry.validationErrors as string[] || [])] *)
Definition spreadErrors (entry : record) : result (list string) :=
  match get entry "validationErrors" with
  | Own (FArray l) => Ok l
  | Own (FValue (VStr s)) => Ok (chars s)
  | Own (FValue (VNum n)) => if number_truthy n then Throw TypeError else Ok []
  | Own FUndefined | Undefined => Ok []
  | Inherited _ => Throw TypeError
  end.

(** The body of the loop over the columns of one row, once the name of
    the column and the value of the cell are read: validate the value of
    a mandatory column, then store it under the name of the column. *)
Definition storeColumn (entry : record) (columnName cellValue : option value)
  : result record :=
  entry' ←
    match mandatory columnName with
    | Some name =>
        match assoc invoiceDataFormat name with
        | Some schema =>
            match Zod.safeParse schema cellValue with
            | [] => Ok entry
            | issues =>
                let validationErrorsArray :=
                  map (fun message =>
                         String.append name (String.append ": " message))
                      issues in
                previous ← spreadErrors entry;
                Ok (set entry "validationErrors"
                      (FArray (previous ++ validationErrorsArray)%list))
            end
        | None => Throw TypeError
        end
    | None => Ok entry
    end;
  Ok (set entry' (to_string columnName) (field_of cellValue)).

(** The body of the loop over the columns of one row. *)
Definition assembleColumn (file : File) (headerRowIndex : option Z)
    (columns : gmap string value) (row : option Z)
    (entry : record) (letter : string) : result record :=
  let cellIndex := String.append letter (int_to_string row) in
  let columnNameIndex := String.append letter (int_to_string headerRowIndex) in
  let columnName := columns !! columnNameIndex in
  let cellValue := file_get file cellIndex in
  storeColumn entry columnName cellValue.

(** The body of [rowsToProcess.forEach]: the record of one row. *)
Definition assembleRow (file : File) (headerRowIndex : option Z)
    (columns : gmap string value) (row : option Z) : result record :=
  forEach (assembleColumn file headerRowIndex columns row) columnLetters
    {[ "validationErrors" := FArray [] ]}.

(** [rowsToProcess], from the two anchors. *)
Definition rowsToProcess (file : File) (statusCol : option ascii)
    (statusRow : option Z) (invoiceNoCol : option ascii) : list (option Z) :=
  let entriesToProcess :=
    List.filter (toProcess statusCol statusRow invoiceNoCol)
      (fileToEntries file) in
  map (fun element => parseInt (substring1 element.1)) entriesToProcess.

(** The first part of [parseInvoicesData], up to the check of the header
    row: the column of "Status", the header row, the column of
    "Invoice #".  Reading [statusEntry[0]] of a missing entry is a
    [TypeError]. *)
Definition anchors (file : File)
  : result (option ascii * option Z * option ascii) :=
  let fileEntries := fileToEntries file in
  match findCell "Status" fileEntries, findCell "Invoice #" fileEntries with
  | Some statusEntry, Some invoiceNoEntry =>
      let statusCell := statusEntry.1 in
      let '(statusCol, statusRow) := rowColFromString statusCell in
      let invoiceNoCell := invoiceNoEntry.1 in
      let '(invoiceNoCol, invoiceNoRow) := rowColFromString invoiceNoCell in
      if strict_ne_int statusRow invoiceNoRow then Throw (Error "Broken table")
      else Ok (statusCol, statusRow, invoiceNoCol)
  | _, _ => Throw TypeError
  end.

Definition parseInvoicesData (file : File) : result (list record) :=
  '(statusCol, statusRow, invoiceNoCol) ← anchors file;
  let headerRowIndex := statusRow in
  let columns := columnNames file headerRowIndex in
  forEach (fun invoicesData row =>
             entry ← assembleRow file headerRowIndex columns row;
             Ok (invoicesData ++ [entry])%list)
          (rowsToProcess file statusCol statusRow invoiceNoCol) [].

(** ** [validateSheetStructure] *)

Definition validateSheetStructure (file : File) : result unit :=
  let fileEntries := fileToEntries file in
  match findCell "Status" fileEntries with
  | None => Throw (Error "No 'Status' cell in sheet")
  | Some _ =>
  match findCell "Invoice #" fileEntries with
  | None => Throw (Error "No 'Invoice #' cell in sheet")
  | Some _ =>
  match file_get file "A1" with
  | Some (VStr _) =>
      forEach (fun (_ : unit) mandatoryField =>
                 match findCell mandatoryField fileEntries with
                 | None => Throw (Error "Mandatory field is missing")
                 | Some _ => Ok tt
                 end)
              mandatoryFields tt
  | _ => Throw (Error "Wrong Invoice Date")
  end end end.

(** ** [calculateTotalInvoiceCurrency] *)

(** The body of [invoicesData.map]: the record after the assignment to
    "Invoice Total". *)
Definition withTotal (currencyRates : gmap string value)
    (invoiceData : record) : record :=
  let invoiceCurrency :=
    property_text field_text (get invoiceData "Invoice Currency") in
  match get currencyRates invoiceCurrency with
  | Undefined =>
      set invoiceData "Invoice Total" (FValue (VStr "No such currency defined"))
  | rate =>
      let totalPrice :=
        parseInt (property_text field_text (get invoiceData "Total Price")) in
      set invoiceData "Invoice Total"
        (FValue (VStr (number_to_string
                         (mul (number_of_int totalPrice)
                              (parseFloat (property_text value_to_string rate))))))
  end.

(** The records are objects that the function updates in place: [heap]
    holds the objects, an array of records is the list of their
    addresses.  The function returns a new array of the same objects. *)
Definition calculateTotalInvoiceCurrency (currencyRates : gmap string value)
    (heap : list record) (invoicesData : list nat) : list record * list nat :=
  (foldl (fun heap address => alter (withTotal currencyRates) address heap)
         heap invoicesData,
   invoicesData).

(** The records an array points to. *)
Definition contents (heap : list record) (invoicesData : list nat)
  : list record :=
  omap (fun address => heap !! address) invoicesData.

(** ** The request handler *)

Record output : Type := {
  InvoicingMonth : string;
  currencyRates : gmap string value;
  invoicesData : list record
}.

(** [app.post("/")] from the decoded sheet on.  [invoicingMonthParameter]
    is [req.body.invoicingMonth] when it is a string, [None] for any other
    value. *)
Definition handler (file : File) (invoicingMonthParameter : option string)
  : result output :=
  _ ← validateSheetStructure file;
  match file_get file "A1" with
  | Some (VStr dateString) =>
      let invoicingMonth := parseInvoicingDate dateString in
      if negb (bool_decide (Some invoicingMonth = invoicingMonthParameter))
      then Throw (Error "Invoicing month param dont match file invoicing month")
      else
        currencyRates ← parseCurrencyRates file;
        invoicesData ← parseInvoicesData file;
        let '(heap, invoicesData) :=
          calculateTotalInvoiceCurrency currencyRates invoicesData
            (seq 0 (List.length invoicesData)) in
        Ok {| InvoicingMonth := invoicingMonth;
              currencyRates := currencyRates;
              invoicesData := contents heap invoicesData |}
  | _ => Throw TypeError
  end.

(* ================================================================== *)
(** * Sheets as the decoder produces them *)
(* ================================================================== *)

(** The name of the cell in column [column] (one or more capital
    letters) and row [row]: "A1", "F12", "AB7". *)
Definition cellName (column : string) (row : Z) : string :=
  String.append column (Z_to_string row).

(** The cell in the one-letter column [c]. *)
Definition cell (c : ascii) (row : Z) : string :=
  cellName (fromCharCode c) row.

Definition isUpper (c : ascii) : bool :=
  let n := N_of_ascii c in ((65 <=? n) && (n <=? 90))%N.

Fixpoint allUpper (s : string) : bool :=
  match s with
  | EmptyString => true
  | String c r => isUpper c && allUpper r
  end.

(** The leading capital letters of a string, and the rest. *)
Fixpoint spanUpper (s : string) : string * string :=
  match s with
  | String c r =>
      if isUpper c then let '(col, rest) := spanUpper r in (String c col, rest)
      else (EmptyString, s)
  | EmptyString => (EmptyString, EmptyString)
  end.

(** The row a cell name designates: the number after the letters. *)
Definition rowOf (k : string) : option Z := parseInt (spanUpper k).2.

(** [Number.MAX_SAFE_INTEGER] *)
Definition MAX_SAFE_INTEGER : Z := 2 ^ 53 - 1.

(** [k] is the name of a cell: capital letters, then a positive row
    number in decimal without leading zeros, in the range where every
    integer is a number of the program. *)
Definition isCellName (k : string) : bool :=
  let '(column, rest) := spanUpper k in
  match parseInt rest with
  | Some row =>
      negb (String.eqb column EmptyString)
      && (0 <? row)%Z && (row <=? MAX_SAFE_INTEGER)%Z
      && String.eqb k (cellName column row)
  | None => false
  end.

(** A sparse sheet: an object (no property twice) whose properties are
    cells. *)
Definition sparseSheet (file : File) : Prop :=
  NoDup file.*1 /\ Forall (fun k => isCellName k = true) file.*1.

(** The sheet without the cell [k]. *)
Definition without (k : string) (file : File) : File :=
  List.filter (fun element => negb (String.eqb element.1 k)) file.

(** The property name under which the column [letter] is stored in a
    record, for the header row [headerRowIndex]. *)
Abbreviation columnKey file headerRowIndex letter :=
  (to_string (columnNames file headerRowIndex
                !! String.append letter (int_to_string headerRowIndex))).

(** The value of a decimal numeral read from the left, after [acc]. *)
Fixpoint uint_value (d : Decimal.uint) (acc : Z) : Z :=
  match d with
  | Decimal.Nil => acc
  | Decimal.D0 d => uint_value d (10 * acc)
  | Decimal.D1 d => uint_value d (10 * acc + 1)
  | Decimal.D2 d => uint_value d (10 * acc + 2)
  | Decimal.D3 d => uint_value d (10 * acc + 3)
  | Decimal.D4 d => uint_value d (10 * acc + 4)
  | Decimal.D5 d => uint_value d (10 * acc + 5)
  | Decimal.D6 d => uint_value d (10 * acc + 6)
  | Decimal.D7 d => uint_value d (10 * acc + 7)
  | Decimal.D8 d => uint_value d (10 * acc + 8)
  | Decimal.D9 d => uint_value d (10 * acc + 9)
  end.

(* ================================================================== *)
(** * Definitions used by the statements *)
(* ================================================================== *)

(** The text that [withTotal] assigns to "Invoice Total". *)
Definition totalText (currencyRates : gmap string value)
    (invoiceData : record) : string :=
  match get currencyRates
          (property_text field_text (get invoiceData "Invoice Currency")) with
  | Undefined => "No such currency defined"
  | rate =>
      number_to_string
        (mul (number_of_int
                (parseInt (property_text field_text
                             (get invoiceData "Total Price"))))
             (parseFloat (property_text value_to_string rate)))
  end.

(** The two conditions of admission, on the cells of a row. *)
Definition statusReady (file : File) (sc : ascii) (r : Z) : Prop :=
  file_get file (cell sc r) = Some (VStr "Ready").

Definition invoiceNumbered (file : File) (ic : ascii) (r : Z) : Prop :=
  exists s, file_get file (cell ic r) = Some (VStr s)
            /\ startsWith s "INV" = true /\ String.length s = 11%nat.

(** The messages that the column named [columnName] adds to the record
    of a row whose cell holds [cellValue]. *)
Definition columnMessages (columnName cellValue : option value)
  : list string :=
  match mandatory columnName with
  | Some name =>
      match assoc invoiceDataFormat name with
      | Some schema =>
          map (fun message => String.append name (String.append ": " message))
              (Zod.safeParse schema cellValue)
      | None => []
      end
  | None => []
  end.

(** [s.includes(sub)] *)
Fixpoint includes (s sub : string) : bool :=
  String.prefix sub s
  || match s with
     | EmptyString => false
     | String _ r => includes r sub
     end.

(* ================================================================== *)
(** * Sheets used as examples *)
(* ================================================================== *)

(** The number a decimal literal denotes. *)
Definition num (literal : string) : value := VNum (parseFloat literal).

(** The header row of the examples: row 5, columns A to J. *)
Definition headerCells : File :=
  [ ("A5", VStr "Customer"); ("B5", VStr "Cust No'");
    ("C5", VStr "Project Type"); ("D5", VStr "Quantity");
    ("E5", VStr "Status"); ("F5", VStr "Invoice #");
    ("G5", VStr "Price Per Item"); ("H5", VStr "Item Price Currency");
    ("I5", VStr "Total Price"); ("J5", VStr "Invoice Currency") ].

(** A row of data whose status is "Ready" and whose invoice number is
    well formed; the customer number 123 is not a 5-digit integer. *)
Definition dataCells (row : Z) : File :=
  [ (cell "A" row, VStr "Acme"); (cell "B" row, num "123");
    (cell "C" row, VStr "Build"); (cell "D" row, num "2");
    (cell "E" row, VStr "Ready"); (cell "F" row, VStr "INV00000001");
    (cell "G" row, num "50"); (cell "H" row, VStr "USD");
    (cell "I" row, num "100"); (cell "J" row, VStr "USD") ].

Definition topCells : File :=
  [ ("A1", VStr "Sep 2023"); ("A2", VStr "USD Rate"); ("B2", num "1.1") ].

(** The sheet of the end-to-end example, with one row of data. *)
Definition invoiceSheet : File :=
  (topCells ++ headerCells ++ dataCells 6)%list.

(** The same sheet with "Ready" in the status column above the header. *)
Definition sheetWithReadyAbove : File :=
  (topCells ++ [("E3", VStr "Ready")] ++ headerCells ++ dataCells 6)%list.

(** The same sheet with "Invoice #" one row above "Status". *)
Definition sheetWithSplitAnchors : File :=
  (topCells ++ [("F4", VStr "Invoice #")] ++ without "F5" headerCells
   ++ dataCells 6)%list.

(** The same sheet with a column named "validationErrors" and a second
    column named "Cust No'" further right. *)
Definition sheetWithClashingColumns : File :=
  (invoiceSheet
   ++ [ ("K5", VStr "validationErrors"); ("L5", VStr "Cust No'");
        ("L6", num "12345") ])%list.

(** The same sheet with a value in a column that has no header. *)
Definition sheetWithStrayCell : File :=
  (invoiceSheet ++ [ ("Z6", VStr "stray") ])%list.

(** The sheet without its "Customer" header. *)
Definition sheetWithoutCustomer : File := without "A5" invoiceSheet.

(** A sheet with nothing but the invoicing date. *)
Definition dateOnlySheet : File := [ ("A1", VStr "Sep 2023") ].

(** The sheet with a rate label in the last column: building the rate
    table throws. *)
Definition sheetWithRateInZ : File :=
  (invoiceSheet ++ [ ("Z2", VStr "EUR Rate") ])%list.

(** A rate label on a row with two digits; its neighbour is C12, and C1
    holds something else. *)
Definition sheetWithRateOnRow12 : File :=
  [ ("B12", VStr "USD Rate"); ("C12", num "1.1"); ("C1", VStr "Invoices") ].

(** Two rate labels whose right neighbours hold 0 and the empty string. *)
Definition sheetWithFalsyRates : File :=
  [ ("B2", VStr "USD Rate"); ("C2", VNum (number_of_Z 0));
    ("B3", VStr "EUR Rate"); ("C3", VStr EmptyString) ].

(** A rate table that holds the sentinel, and a record in that currency. *)
Definition ratesWithSentinel : gmap string value :=
  {[ "USD" := VStr "No value" ]}.

Definition invoiceInUSD : record :=
  {[ "Invoice Currency" := FValue (VStr "USD");
     "Total Price" := FValue (VNum (number_of_Z 100)) ]}.

(* ================================================================== *)
(** * Definitions used by the further properties *)
(* ================================================================== *)

(** The cell lies in one of the columns A to Y: its name starts with one
    of these letters. *)
Definition leftOfLastColumn (cell : string) : bool :=
  match cell with
  | String c _ => let n := N_of_ascii c in ((65 <=? n) && (n <=? 89))%N
  | EmptyString => false
  end.

(** The letter after [c] in the alphabet. *)
Definition nextLetter (c : ascii) : ascii := ascii_of_N (N_of_ascii c + 1).

(** A word: a string without a space. *)
Fixpoint noSpace (s : string) : bool :=
  match s with
  | EmptyString => true
  | String c r => negb (Ascii.eqb c " ") && noSpace r
  end.

(** The name under which a rate label files its rate: its first word. *)
Definition rateName (text : string) : string :=
  text_of (split " " text !! 0%nat).

(** The messages of a row, read off the sheet: those of its columns, from
    A to Z. *)
Definition rowMessages (file : File) (headerRow row : option Z) : list string :=
  flat_map (fun letter =>
              columnMessages
                (file_get file (String.append letter (int_to_string headerRow)))
                (file_get file (String.append letter (int_to_string row))))
           columnLetters.

(** Text on which [toUpperCase] maps character to character. *)
Definition isAscii (s : string) : bool :=
  forallb (fun c => (N_of_ascii c <? 128)%N) (list_ascii_of_string s).

(** The mantissa of the binary64 number of a positive integer below
    [2^53]: the integer shifted to 53 bits. *)
Definition mantissa (p : positive) : positive :=
  match (53 - Z.pos (digits2_pos p))%Z with
  | Z.pos d => Pos.iter xO p d
  | _ => p
  end.

(** Two labels for the same currency. *)
Definition sheetWithTwoRates : File :=
  [ ("A2", VStr "USD Rate"); ("B2", num "1.1");
    ("A3", VStr "USD Rate"); ("B3", num "1.2") ].

(** The example sheet whose row 6 has no customer. *)
Definition sheetWithoutCustomerName : File := without "A6" invoiceSheet.

(** A table that starts beyond column Z. *)
Definition sheetBeyondColumnZ : File :=
  [ ("AA5", VStr "Status"); ("AB5", VStr "Invoice #"); ("AA6", VStr "Ready") ].

Definition ratesInUSD : gmap string value := {[ "USD" := num "1.1" ]}.

Definition invoiceInEUR : record :=
  {[ "Invoice Currency" := FValue (VStr "EUR");
     "Total Price" := FValue (VNum (number_of_Z 100)) ]}.

(** A record whose currency is the name of a member of
    [Object.prototype]. *)
Definition invoiceInToString : record :=
  {[ "Invoice Currency" := FValue (VStr "toString");
     "Total Price" := FValue (VNum (number_of_Z 100)) ]}.

(** The example sheet with a column named "validationErrors" that holds
    a number, and a second column named "Cust No'" whose value fails. *)
Definition sheetWithNumberUnderValidationErrors : File :=
  (invoiceSheet
   ++ [ ("K5", VStr "validationErrors"); ("K6", num "7");
        ("L5", VStr "Cust No'"); ("L6", num "1") ])%list.

(** The example sheet with its two anchors moved beyond column Z, on the
    header row, and a status "Ready" below the first. *)
Definition sheetWithAnchorsBeyondZ : File :=
  (topCells
   ++ without "E5" (without "F5" headerCells)
   ++ [ ("AA5", VStr "Status"); ("AB5", VStr "Invoice #");
        ("AA6", VStr "Ready") ])%list.

(** A rate label on row 12 whose right neighbour holds 0, and the same
    label on row 2; C1 holds something else. *)
Definition sheetWithFalsyRateOnRow12 : File :=
  [ ("B12", VStr "USD Rate"); ("C12", VNum (number_of_Z 0));
    ("C1", VStr "Invoices") ].

Definition sheetWithFalsyRateOnRow2 : File :=
  [ ("B2", VStr "USD Rate"); ("C2", VNum (number_of_Z 0));
    ("C1", VStr "Invoices") ].

(* ================================================================== *)
(** * Properties *)
(* ================================================================== *)

(** ** The definitions at work *)

Example parseInt_examples :
  parseInt "12" = Some 12 /\ parseInt "12abc" = Some 12
  /\ parseInt " -0x1F" = Some (-31) /\ parseInt "A5" = None
  /\ parseInt "007" = Some 7 /\ parseInt "1e+21" = Some 1
  /\ parseInt "undefined" = None.
Proof. repeat split; reflexivity. Qed.

Example parseFloat_examples :
  parseFloat "1.1" = S754_finite false 4953959590107546 (-52)
  /\ parseFloat "  -12.5e3xyz" = S754_finite true 6871947673600000 (-39)
  /\ parseFloat ".5" = number_of_decimal false 5 (-1)
  /\ parseFloat "No value" = NaN /\ parseFloat "1e400" = S754_infinity false
  /\ parseFloat "-0" = S754_zero true.
Proof. repeat split; vm_compute; reflexivity. Qed.

Example number_to_string_examples :
  number_to_string (parseFloat "1.1") = "1.1"
  /\ number_to_string (mul (number_of_Z 100) (parseFloat "1.1"))
     = "110.00000000000001"
  /\ number_to_string (mul (parseFloat "0.1") (number_of_Z 3))
     = "0.30000000000000004"
  /\ number_to_string (number_of_Z 99999) = "99999"
  /\ number_to_string (parseFloat "1e21") = "1e+21"
  /\ number_to_string (parseFloat "123456789012345680000")
     = "123456789012345680000"
  /\ number_to_string (parseFloat "0.000001") = "0.000001"
  /\ number_to_string (parseFloat "1e-7") = "1e-7"
  /\ number_to_string (parseFloat "5e-324") = "5e-324"
  /\ number_to_string (parseFloat "-12.5") = "-12.5"
  /\ number_to_string (mul (S754_infinity false) (S754_zero false)) = "NaN".
Proof. repeat split; vm_compute; reflexivity. Qed.

Example string_examples :
  split " " "USD Rate" = ["USD"; "Rate"] /\ split " " "Rate" = ["Rate"]
  /\ split " " "a  b" = ["a"; EmptyString; "b"]
  /\ endsWith "USD Rate" "Rate" = true /\ endsWith "Rates" "Rate" = false
  /\ startsWith "INV00000001" "INV" = true
  /\ toUpperCase "usd" = "USD" /\ chars "ab" = ["a"; "b"].
Proof. repeat split; reflexivity. Qed.

Example object_examples :
  get (set (∅ : gmap string Z) "a" 1) "a" = Own 1
  /\ get (set (∅ : gmap string Z) "a" 1) "b" = Undefined
  /\ get (∅ : gmap string Z) "toString"
     = Inherited "function toString() { [native code] }"
  /\ set (∅ : gmap string Z) "__proto__" 1 = ∅.
Proof. repeat split; reflexivity. Qed.

Example safeParse_examples :
  Zod.safeParse (Zod.ZodNumber [Zod.CheckInt; Zod.CheckGte 10000; Zod.CheckLte 99999])
    (Some (VNum (parseFloat "123.5")))
  = [ "Expected integer, received float";
      "Number must be greater than or equal to 10000" ]
  /\ Zod.safeParse (Zod.ZodNumber []) (Some (VStr "12")) =
       [ "Expected number, received string" ]
  /\ Zod.safeParse (Zod.ZodString []) None = [ "Required" ]
  /\ Zod.safeParse (Zod.ZodString [Zod.CheckToUpperCase; Zod.CheckLength 3])
       (Some (VStr "usd")) = []
  /\ Zod.safeParse (Zod.ZodEnum ["Ready"; "Done"]) (Some (VStr "Open"))
     = [ "Invalid enum value. Expected 'Ready' | 'Done', received 'Open'" ].
Proof. repeat split; vm_compute; reflexivity. Qed.

Example getRightCellIndex_examples :
  getRightCellIndex "A1" = Ok "B1" /\ getRightCellIndex "Y7" = Ok "Z7"
  /\ getRightCellIndex "Z1" = Throw (Error "Wrong column index")
  /\ getRightCellIndex "a1" = Throw (Error "Wrong column index").
Proof. repeat split; reflexivity. Qed.

Example parseInvoicingDate_examples :
  parseInvoicingDate "Sep 2023" = "2023-09"
  /\ parseInvoicingDate "Sep" = "undefined-09"
  /\ parseInvoicingDate "Foo 2023" = "2023-undefined".
Proof. repeat split; vm_compute; reflexivity. Qed.

Example rowColFromString_examples :
  rowColFromString "E5" = (Some "E"%char, Some 5)
  /\ rowColFromString "F12" = (Some "F"%char, Some 12)
  /\ rowColFromString "AB7" = (Some "A"%char, None).
Proof. repeat split; reflexivity. Qed.

(** ** Decimal numerals *)

(** Evaluate the value of the digit in front of the goal. *)
Ltac eval_digit :=
  lazymatch goal with
  | |- context [digit_value 10 ?c] =>
      let v := eval vm_compute in (digit_value 10 c) in
      change (digit_value 10 c) with v
  end.

Lemma digits_prefix_uint d acc seen :
  digits_prefix 10 (NilEmpty.string_of_uint d) acc seen
  = (uint_value d acc, match d with Decimal.Nil => seen | _ => true end).
Proof.
  revert acc seen.
  induction d; intros acc seen;
    cbn [NilEmpty.string_of_uint digits_prefix uint_value];
    try reflexivity;
    eval_digit; cbv iota beta; rewrite IHd, ?Z.add_0_r; destruct d; reflexivity.
Qed.

Lemma uint_value_acc d acc :
  uint_value d (Z.pos acc) = Z.pos (Pos.of_uint_acc d acc).
Proof.
  revert acc.
  induction d; intros acc; cbn [uint_value Pos.of_uint_acc]; try reflexivity;
    rewrite <- IHd; f_equal; lia.
Qed.

Lemma uint_value_0 d : uint_value d 0 = Z.of_N (Pos.of_uint d).
Proof.
  induction d; cbn [uint_value Pos.of_uint]; rewrite ?Z.mul_0_r, ?Z.add_0_l;
    try reflexivity; try assumption; rewrite uint_value_acc; reflexivity.
Qed.

Lemma to_uint_nonnil p : Pos.to_uint p <> Decimal.Nil.
Proof.
  intros H. pose proof (DecimalPos.Unsigned.of_to p) as E.
  rewrite H in E. discriminate.
Qed.

(** A string of digits has no hex prefix. *)
Lemma strip_hex_prefix_uint d :
  strip_hex_prefix (NilEmpty.string_of_uint d)
  = (10, NilEmpty.string_of_uint d).
Proof.
  destruct d as [|d|d|d|d|d|d|d|d|d|d]; try reflexivity.
  destruct d; reflexivity.
Qed.

(** Nor has it a sign or leading white space. *)
Lemma parseInt_uint d :
  d <> Decimal.Nil ->
  parseInt (NilEmpty.string_of_uint d) = Some (uint_value d 0).
Proof.
  intros Hd. unfold parseInt.
  assert (Hs : strip_sign (trimStart (NilEmpty.string_of_uint d))
               = (false, NilEmpty.string_of_uint d)).
  { destruct d; try congruence; reflexivity. }
  rewrite Hs, strip_hex_prefix_uint, digits_prefix_uint.
  destruct d; congruence.
Qed.

(** [parseInt] reads back the decimal text of an integer. *)
Lemma parseInt_Z_to_string z : parseInt (Z_to_string z) = Some z.
Proof.
  destruct z as [|p|p]; [reflexivity| |].
  - unfold Z_to_string. cbn [Z.to_int NilEmpty.string_of_int].
    rewrite parseInt_uint by apply to_uint_nonnil.
    rewrite uint_value_0, DecimalPos.Unsigned.of_to. reflexivity.
  - unfold Z_to_string. cbn [Z.to_int NilEmpty.string_of_int].
    unfold parseInt. cbn [trimStart].
    change (isWhiteSpace "-") with false. cbv iota. cbn [strip_sign].
    rewrite strip_hex_prefix_uint, digits_prefix_uint.
    pose proof (to_uint_nonnil p).
    rewrite uint_value_0, DecimalPos.Unsigned.of_to.
    destruct (Pos.to_uint p); try congruence; reflexivity.
Qed.

(** ** Association lists and loops *)

Section Lists.
Context {A : Type}.

Lemma assoc_Some_In (l : list (string * A)) k a :
  assoc l k = Some a -> In (k, a) l.
Proof.
  induction l as [|[k' a'] l IH]; cbn; [discriminate|].
  destruct (String.eqb_spec k' k) as [->|Hne].
  - intros [= ->]. now left.
  - intros H. right. now apply IH.
Qed.

Lemma assoc_NoDup (l : list (string * A)) k a :
  NoDup l.*1 -> In (k, a) l -> assoc l k = Some a.
Proof.
  induction l as [|[k' a'] l IH]; cbn; [tauto|].
  intros Hnd [H|H].
  - injection H as -> ->. now rewrite String.eqb_refl.
  - apply NoDup_cons in Hnd as [Hk Hnd].
    destruct (String.eqb_spec k' k) as [->|Hne]; [|now apply IH].
    exfalso. apply Hk. apply list_elem_of_In.
    change k with ((k, a).1). now apply in_map.
Qed.

Lemma assoc_without_ne (file : list (string * A)) k k' :
  k' <> k ->
  assoc (List.filter (fun element => negb (String.eqb element.1 k)) file) k'
  = assoc file k'.
Proof.
  intros Hne. induction file as [|[k0 a0] file IH]; cbn; [reflexivity|].
  destruct (String.eqb_spec k0 k) as [->|Hk0]; cbn.
  - destruct (String.eqb_spec k k'); [congruence|assumption].
  - now rewrite IH.
Qed.

Lemma assoc_without_eq (file : list (string * A)) k :
  assoc (List.filter (fun element => negb (String.eqb element.1 k)) file) k
  = None.
Proof.
  induction file as [|[k0 a0] file IH]; cbn; [reflexivity|].
  destruct (String.eqb_spec k0 k) as [->|Hk0]; cbn; [assumption|].
  destruct (String.eqb_spec k0 k); [congruence|assumption].
Qed.
End Lists.

Section Loops.
Context {A S : Type}.
Implicit Types (body : S -> A -> result S).

Lemma forEach_app body l1 l2 s :
  forEach body (l1 ++ l2) s = forEach body l1 s ≫= forEach body l2.
Proof.
  revert s. induction l1 as [|a l1 IH]; intros s; cbn; [reflexivity|].
  destruct (body s a); cbn; [apply IH|reflexivity].
Qed.

Lemma forEach_ext body body' l s :
  (forall s a, In a l -> body s a = body' s a) ->
  forEach body l s = forEach body' l s.
Proof.
  revert s. induction l as [|a l IH]; intros s H; cbn; [reflexivity|].
  rewrite H by now left. destruct (body' s a); cbn; [|reflexivity].
  apply IH. intros; apply H; now right.
Qed.
End Loops.

(** ** Objects *)

Lemma get_insert_ne {A} (o : gmap string A) k k' a :
  k <> k' -> get (<[k := a]> o) k' = get o k'.
Proof. intros H. unfold get. now rewrite lookup_insert_ne. Qed.

Lemma get_Own {A} (o : gmap string A) k a : o !! k = Some a -> get o k = Own a.
Proof. intros H. unfold get. now rewrite H. Qed.

Lemma set_insert {A} (o : gmap string A) k a :
  k <> "__proto__" -> set o k a = <[k := a]> o.
Proof.
  intros H. unfold set. destruct (String.eqb_spec k "__proto__"); congruence.
Qed.

Lemma set_lookup_ne {A} (o : gmap string A) k k' a :
  k <> k' -> set o k a !! k' = o !! k'.
Proof.
  intros H. unfold set. destruct (String.eqb k "__proto__"); [reflexivity|].
  now apply lookup_insert_ne.
Qed.

(** ** The total calculator *)

Lemma withTotal_insert rates (rec : record) :
  withTotal rates rec
  = <["Invoice Total" := FValue (VStr (totalText rates rec))]> rec.
Proof.
  unfold withTotal, totalText.
  destruct (get rates _); reflexivity.
Qed.

Lemma totalText_insert rates (rec : record) x :
  totalText rates (<["Invoice Total" := x]> rec) = totalText rates rec.
Proof. unfold totalText. now rewrite !get_insert_ne. Qed.

Lemma withTotal_idempotent rates (rec : record) :
  withTotal rates (withTotal rates rec) = withTotal rates rec.
Proof.
  rewrite !withTotal_insert, totalText_insert. apply insert_insert_eq.
Qed.

(** What the loop of [calculateTotalInvoiceCurrency] leaves at an
    address: the record with its total when the array points to it, the
    record as it was otherwise. *)
Lemma calculate_lookup rates (invoicesData : list nat) (heap : list record) a :
  foldl (fun heap address => alter (withTotal rates) address heap)
        heap invoicesData !! a
  = (if bool_decide (a ∈ invoicesData) then withTotal rates else id)
      <$> heap !! a.
Proof.
  revert heap. induction invoicesData as [|x l IH]; intros heap; cbn [foldl].
  - rewrite bool_decide_eq_false_2 by apply not_elem_of_nil.
    now destruct (heap !! a).
  - rewrite IH. destruct (decide (x = a)) as [->|Hne].
    + rewrite list_lookup_alter_eq.
      rewrite (bool_decide_eq_true_2 (a ∈ a :: l)) by apply list_elem_of_here.
      destruct (heap !! a) as [rec|]; [|reflexivity]. cbn.
      case_bool_decide; cbn; [now rewrite withTotal_idempotent|reflexivity].
    + rewrite list_lookup_alter_ne by assumption.
      destruct (decide (a ∈ l)) as [Hin|Hout].
      * rewrite !bool_decide_eq_true_2; [reflexivity| |assumption].
        now apply list_elem_of_further.
      * rewrite !bool_decide_eq_false_2; [reflexivity| |assumption].
        intros [->|?]%elem_of_cons; congruence.
Qed.

(** C7: the total calculator is idempotent.  Applied a second time, to
    its own output (the same objects, already updated) and the same rate
    table, it returns the identical heap and the identical array, hence
    the identical records. *)
Theorem calculateTotalInvoiceCurrency_idempotent
    rates (heap : list record) (invoicesData : list nat) :
  let once := calculateTotalInvoiceCurrency rates heap invoicesData in
  let twice := calculateTotalInvoiceCurrency rates once.1 once.2 in
  twice = once /\ contents twice.1 twice.2 = contents once.1 once.2.
Proof.
  cbv zeta.
  assert (E : calculateTotalInvoiceCurrency rates
                (calculateTotalInvoiceCurrency rates heap invoicesData).1
                (calculateTotalInvoiceCurrency rates heap invoicesData).2
              = calculateTotalInvoiceCurrency rates heap invoicesData).
  { unfold calculateTotalInvoiceCurrency. cbn [fst snd]. f_equal.
    apply list_eq. intros a. rewrite !calculate_lookup.
    destruct (heap !! a) as [rec|]; [|reflexivity]. cbn.
    case_bool_decide; cbn; [now rewrite withTotal_idempotent|reflexivity]. }
  split; [exact E|now rewrite E].
Qed.

(** The array of all the objects of a heap points to the heap itself. *)
Lemma contents_seq (before heap : list record) :
  contents (before ++ heap)%list (seq (List.length before) (List.length heap))
  = heap.
Proof.
  revert before. induction heap as [|rec heap IH]; intros before; [reflexivity|].
  cbn [List.length seq]. unfold contents in *. cbn [omap list_omap].
  rewrite lookup_app_r by lia. rewrite Nat.sub_diag. cbn. f_equal.
  specialize (IH (before ++ [rec])%list). rewrite <- app_assoc, length_app in IH.
  cbn in IH. rewrite Nat.add_1_r in IH. exact IH.
Qed.

(** On the records of [parseInvoicesData], which no two entries of the
    array share, the calculator is a map over the list of records. *)
Lemma calculate_fresh rates (records : list record) :
  let result := calculateTotalInvoiceCurrency rates records
                  (seq 0 (List.length records)) in
  contents result.1 result.2 = map (withTotal rates) records.
Proof.
  cbv zeta. unfold calculateTotalInvoiceCurrency. cbn [fst snd].
  assert (E : foldl (fun heap address => alter (withTotal rates) address heap)
                records (seq 0 (List.length records))
              = map (withTotal rates) records).
  { apply list_eq. intros a. rewrite calculate_lookup, list_lookup_fmap.
    destruct (records !! a) as [rec|] eqn:Ha; [|reflexivity].
    rewrite bool_decide_eq_true_2; [reflexivity|].
    apply elem_of_seq. apply lookup_lt_Some in Ha. lia. }
  rewrite E. rewrite <- (length_map (withTotal rates)).
  apply (contents_seq []).
Qed.

(** C10: a currency that is in the rate table with a rate that does not
    read as a number gets the total "NaN", whatever the total price is:
    neither the sentinel for a missing currency nor a number. *)
Theorem unparseable_rate_gives_NaN
    rates (heap : list record) (invoicesData : list nat)
    address (invoiceData : record) currency rate :
  address ∈ invoicesData ->
  heap !! address = Some invoiceData ->
  invoiceData !! "Invoice Currency" = Some (FValue (VStr currency)) ->
  rates !! currency = Some rate ->
  parseFloat (value_to_string rate) = NaN ->
  exists invoiceData' : record,
    (calculateTotalInvoiceCurrency rates heap invoicesData).1 !! address
      = Some invoiceData'
    /\ invoiceData' !! "Invoice Total" = Some (FValue (VStr "NaN"))
    /\ invoiceData' = <["Invoice Total" := FValue (VStr "NaN")]> invoiceData.
Proof.
  intros Hin Hheap Hcur Hrate Hnan.
  assert (Htotal : totalText rates invoiceData = "NaN").
  { unfold totalText. rewrite (get_Own _ _ _ Hcur). cbn [property_text field_text value_to_string].
    rewrite (get_Own _ _ _ Hrate). cbn [property_text]. rewrite Hnan.
    unfold mul, NaN. now destruct (number_of_int _). }
  exists (withTotal rates invoiceData). unfold calculateTotalInvoiceCurrency. cbn [fst].
  rewrite calculate_lookup, Hheap, bool_decide_eq_true_2 by assumption.
  split; [reflexivity|]. rewrite withTotal_insert, Htotal.
  split; [apply lookup_insert_eq|reflexivity].
Qed.

Lemma unparseable_rate_gives_NaN_witness :
  exists invoiceData' : record,
    (calculateTotalInvoiceCurrency ratesWithSentinel [invoiceInUSD] [0%nat]).1
      !! 0%nat = Some invoiceData'
    /\ invoiceData' !! "Invoice Total" = Some (FValue (VStr "NaN"))
    /\ invoiceData' = <["Invoice Total" := FValue (VStr "NaN")]> invoiceInUSD.
Proof.
  apply (unparseable_rate_gives_NaN ratesWithSentinel [invoiceInUSD] [0%nat]
           0%nat invoiceInUSD "USD" (VStr "No value")).
  - apply list_elem_of_here.
  - reflexivity.
  - reflexivity.
  - reflexivity.
  - reflexivity.
Defined.

(** ** The rate table builder *)

Lemma filter_filter_implied {A} (P Q : A -> bool) (l : list A) :
  (forall x, In x l -> P x = true -> Q x = true) ->
  List.filter P (List.filter Q l) = List.filter P l.
Proof.
  induction l as [|x l IH]; intros H; cbn; [reflexivity|].
  destruct (Q x) eqn:HQ; cbn.
  - rewrite IH; [reflexivity|]. intros; apply H; [now right|assumption].
  - destruct (P x) eqn:HP.
    + rewrite H in HQ; [discriminate|now left|assumption].
    + apply IH. intros; apply H; [now right|assumption].
Qed.

(** A cell with a falsy value reads like an absent cell. *)
Lemma rateValue_without file k cell_ :
  truthy (file_get file k) = false ->
  rateValue (without k file) cell_ = rateValue file cell_.
Proof.
  intros Hfalsy. unfold rateValue, file_get, without in *.
  destruct (String.eqb_spec cell_ k) as [->|Hne].
  - rewrite assoc_without_eq. destruct (assoc file k); [|reflexivity].
    now rewrite Hfalsy.
  - now rewrite assoc_without_ne.
Qed.

Lemma falsy_not_rateCell k v :
  truthy (Some v) = false -> isRateCell (k, v) = false.
Proof.
  destruct v as [s|n]; cbn; [|reflexivity].
  destruct s; [reflexivity|discriminate].
Qed.

(** A falsy value (the number 0, or the empty string) in the cell that
    [getRightCellIndex] designates for a rate label is recorded as the
    sentinel "No value", and the builder behaves exactly as on the sheet
    without that cell.  On the rows 1 to 9 that cell is the right
    neighbour of the label. *)
Lemma falsy_rate_is_no_value
    (file : File) labelCell text rightCell v (rates : gmap string value) :
  NoDup file.*1 ->
  In (labelCell, VStr text) file ->
  endsWith text "Rate" = true ->
  getRightCellIndex labelCell = Ok rightCell ->
  file_get file rightCell = Some v ->
  truthy (Some v) = false ->
  recordRate file rates (labelCell, VStr text)
    = Ok (set rates (text_of (split " " text !! 0%nat)) (VStr "No value"))
  /\ recordRate (without rightCell file) rates (labelCell, VStr text)
     = recordRate file rates (labelCell, VStr text)
  /\ file_get (without rightCell file) rightCell = None
  /\ parseCurrencyRates (without rightCell file) = parseCurrencyRates file.
Proof.
  intros Hnd Hin Hrate Hright Hget Hfalsy.
  assert (Hfalsy' : truthy (file_get file rightCell) = false) by now rewrite Hget.
  assert (Hstep : forall rates element,
             recordRate (without rightCell file) rates element
             = recordRate file rates element).
  { intros rates' [k' [s|n]]; cbn [recordRate]; [|reflexivity].
    destruct (getRightCellIndex k'); cbn; [|reflexivity].
    now rewrite rateValue_without. }
  split; [|split; [apply Hstep|split]].
  - cbn [recordRate]. rewrite Hright. cbn. unfold rateValue.
    rewrite Hget, Hfalsy. reflexivity.
  - apply assoc_without_eq.
  - unfold parseCurrencyRates, fileToEntries, without.
    rewrite filter_filter_implied.
    + apply forEach_ext. intros; apply Hstep.
    + intros [k' v'] Hin' Hcell. cbn [fst].
      destruct (String.eqb_spec k' rightCell) as [->|]; [|reflexivity].
      apply (assoc_NoDup _ _ _ Hnd) in Hin'. unfold file_get in Hget.
      rewrite Hget in Hin'. injection Hin' as <-.
      now rewrite falsy_not_rateCell in Hcell.
Qed.

Lemma falsy_rate_is_no_value_example :
  recordRate sheetWithFalsyRates ∅ ("B2", VStr "USD Rate")
    = Ok (set ∅ (text_of (split " " "USD Rate" !! 0%nat)) (VStr "No value"))
  /\ recordRate (without "C2" sheetWithFalsyRates) ∅ ("B2", VStr "USD Rate")
     = recordRate sheetWithFalsyRates ∅ ("B2", VStr "USD Rate")
  /\ file_get (without "C2" sheetWithFalsyRates) "C2" = None
  /\ parseCurrencyRates (without "C2" sheetWithFalsyRates)
     = parseCurrencyRates sheetWithFalsyRates.
Proof.
  apply (falsy_rate_is_no_value sheetWithFalsyRates "B2" "USD Rate" "C2"
           (VNum (number_of_Z 0)) ∅).
  - apply (bool_decide_unpack _). vm_compute. exact I.
  - left. reflexivity.
  - reflexivity.
  - reflexivity.
  - reflexivity.
  - reflexivity.
Defined.

Example zero_and_empty_rates :
  parseCurrencyRates sheetWithFalsyRates
  = Ok {[ "USD" := VStr "No value"; "EUR" := VStr "No value" ]}.
Proof. vm_compute. reflexivity. Qed.

(** ** Cell names *)

Lemma parseInt_upper c s : isUpper c = true -> parseInt (String c s) = None.
Proof.
  destruct c as [[] [] [] [] [] [] [] []]; try discriminate; reflexivity.
Qed.

Lemma append_inj_l col x y : String.append col x = String.append col y -> x = y.
Proof. induction col; cbn; [tauto|]. intros [= H]. auto. Qed.

Lemma spanUpper_append k :
  k = String.append (spanUpper k).1 (spanUpper k).2
  /\ allUpper (spanUpper k).1 = true.
Proof.
  induction k as [|c k [IH1 IH2]]; cbn [spanUpper]; [easy|].
  destruct (isUpper c) eqn:Hc; [|easy].
  destruct (spanUpper k) as [col rest]; cbn [fst snd allUpper String.append] in *.
  rewrite Hc, IH2. split; [|reflexivity].
  change (String c k = String c (String.append col rest)). now rewrite <- IH1.
Qed.

(** A cell name is its column followed by its row in decimal. *)
Lemma isCellName_inv k :
  isCellName k = true ->
  exists column row,
    k = cellName column row /\ spanUpper k = (column, Z_to_string row)
    /\ column <> EmptyString /\ allUpper column = true /\ 0 < row <= MAX_SAFE_INTEGER.
Proof.
  unfold isCellName. destruct (spanUpper_append k) as [Happ Hup].
  destruct (spanUpper k) as [column rest]; cbn [fst snd] in *.
  destruct (parseInt rest) as [row|]; [|discriminate].
  intros H. apply andb_prop in H as [H Hname].
  apply andb_prop in H as [H Hmax]. apply andb_prop in H as [Hcolumn Hpos].
  apply String.eqb_eq in Hname. exists column, row.
  assert (rest = Z_to_string row) as ->.
  { apply (append_inj_l column). rewrite <- Happ. exact Hname. }
  repeat split; try assumption; try lia.
  intros ->. discriminate.
Qed.

Lemma cell_cons c row : cell c row = String c (Z_to_string row).
Proof. reflexivity. Qed.

Lemma cellName_cons c column row :
  cellName (String c column) row = String c (cellName column row).
Proof. reflexivity. Qed.

Lemma rowColFromString_cell c row :
  rowColFromString (cell c row) = (Some c, Some row).
Proof.
  rewrite cell_cons. unfold rowColFromString. cbn [substring1 index String.get].
  now rewrite parseInt_Z_to_string.
Qed.

Lemma rowOf_cellName k :
  isCellName k = true ->
  exists c row, index k 0 = Some c /\ rowOf k = Some row
    /\ ((rowColFromString k = (Some c, Some row) /\ k = cell c row)
        \/ rowColFromString k = (Some c, None)).
Proof.
  intros H. destruct (isCellName_inv k H) as (column & row & -> & Hspan & Hne & Hup & _).
  unfold rowOf. rewrite Hspan. cbn [snd]. rewrite parseInt_Z_to_string.
  destruct column as [|c [|c2 column]]; [congruence| |].
  - exists c, row. split; [reflexivity|]. split; [reflexivity|]. left.
    split; [apply rowColFromString_cell|reflexivity].
  - exists c, row. split; [reflexivity|]. split; [reflexivity|]. right.
    rewrite !cellName_cons. unfold rowColFromString.
    cbn [substring1 index String.get allUpper] in *.
    rewrite parseInt_upper; [reflexivity|].
    apply andb_prop in Hup as [_ Hup]. now apply andb_prop in Hup as [Hup _].
Qed.

Lemma findCell_In marker (file : File) element :
  findCell marker file = Some element ->
  In element file /\ element.2 = VStr marker.
Proof.
  intros H. apply List.find_some in H as [Hin H]. split; [assumption|].
  destruct element as [k [s|n]]; cbn in *; [|discriminate].
  apply String.eqb_eq in H. now subst.
Qed.

Lemma sparseSheet_cell (file : File) element :
  sparseSheet file -> In element file -> isCellName element.1 = true.
Proof.
  intros [_ Hall] Hin. rewrite List.Forall_forall in Hall. apply Hall.
  now apply in_map.
Qed.

(** C6: when the cell that holds "Status" and the cell that holds
    "Invoice #" lie on different rows of a sparse sheet, the record
    extractor throws "Broken table" and returns no record. *)
Theorem different_rows_broken_table (file : File) statusEntry invoiceNoEntry :
  sparseSheet file ->
  findCell "Status" (fileToEntries file) = Some statusEntry ->
  findCell "Invoice #" (fileToEntries file) = Some invoiceNoEntry ->
  rowOf statusEntry.1 <> rowOf invoiceNoEntry.1 ->
  parseInvoicesData file = Throw (Error "Broken table").
Proof.
  intros Hsheet Hs Hi Hrows.
  assert (Hanchors : anchors file = Throw (Error "Broken table")).
  { unfold anchors. rewrite Hs, Hi.
    apply findCell_In in Hs as [Hs _]. apply findCell_In in Hi as [Hi _].
    destruct (rowOf_cellName _ (sparseSheet_cell _ _ Hsheet Hs))
      as (c1 & r1 & _ & Hr1 & [[E1 _]|E1]);
    destruct (rowOf_cellName _ (sparseSheet_cell _ _ Hsheet Hi))
      as (c2 & r2 & _ & Hr2 & [[E2 _]|E2]);
      cbv zeta; rewrite E1, E2; cbn [strict_ne_int negb]; try reflexivity.
    destruct (Z.eqb_spec r1 r2); [|reflexivity]. congruence. }
  unfold parseInvoicesData. rewrite Hanchors. reflexivity.
Qed.

Lemma different_rows_broken_table_witness :
  parseInvoicesData sheetWithSplitAnchors = Throw (Error "Broken table").
Proof.
  apply (different_rows_broken_table sheetWithSplitAnchors
           ("E5", VStr "Status") ("F4", VStr "Invoice #")).
  - split.
    + apply (bool_decide_unpack _). vm_compute. exact I.
    + repeat (constructor; [vm_compute; reflexivity|]). constructor.
  - reflexivity.
  - reflexivity.
  - vm_compute. discriminate.
Defined.

(** ** The record extractor: admitted rows *)

(** What the first part of [parseInvoicesData] returns on a sparse sheet:
    two one-letter columns and a common row. *)
Lemma anchors_Ok (file : File) statusCol headerRow invoiceNoCol :
  sparseSheet file ->
  anchors file = Ok (statusCol, headerRow, invoiceNoCol) ->
  exists sc ic h sv iv,
    statusCol = Some sc /\ invoiceNoCol = Some ic /\ headerRow = Some h
    /\ findCell "Status" file = Some (cell sc h, sv)
    /\ findCell "Invoice #" file = Some (cell ic h, iv).
Proof.
  intros Hsheet. unfold anchors, fileToEntries.
  destruct (findCell "Status" file) as [[k1 v1]|] eqn:Hs; [|discriminate].
  destruct (findCell "Invoice #" file) as [[k2 v2]|] eqn:Hi; [|discriminate].
  destruct (findCell_In _ _ _ Hs) as [Hs' _].
  destruct (findCell_In _ _ _ Hi) as [Hi' _].
  destruct (rowOf_cellName _ (sparseSheet_cell _ _ Hsheet Hs'))
    as (c1 & r1 & _ & _ & [[E1 K1]|E1]);
  destruct (rowOf_cellName _ (sparseSheet_cell _ _ Hsheet Hi'))
    as (c2 & r2 & _ & _ & [[E2 K2]|E2]);
    cbn [fst] in *; cbv zeta; rewrite E1, E2; cbn [strict_ne_int negb];
    try discriminate.
  destruct (Z.eqb_spec r1 r2) as [<-|]; [|discriminate].
  cbn [negb]. intros [= <- <- <-]. subst k1 k2. exists c1, c2, r1, v1, v2. easy.
Qed.

(** A loop that pushes one result per element returns one result per
    element, in order. *)
Lemma collect_Ok {A B} (g : A -> result B) rows acc res :
  forEach (fun acc row => e ← g row; Ok (acc ++ [e])%list) rows acc = Ok res ->
  exists es, res = (acc ++ es)%list /\ Forall2 (fun row e => g row = Ok e) rows es.
Proof.
  revert acc. induction rows as [|row rows IH]; intros acc; cbn.
  - intros [= <-]. exists []. now rewrite app_nil_r.
  - destruct (g row) as [e|] eqn:He; cbn; [|discriminate].
    intros H. apply IH in H as (es & -> & H). exists (e :: es). split.
    + now rewrite <- app_assoc.
    + now constructor.
Qed.

Lemma collect_total {A B} (g : A -> result B) rows acc :
  (forall row, In row rows -> exists e, g row = Ok e) ->
  exists es,
    forEach (fun acc row => e ← g row; Ok (acc ++ [e])%list) rows acc
    = Ok (acc ++ es)%list
    /\ Forall2 (fun row e => g row = Ok e) rows es.
Proof.
  revert acc. induction rows as [|row rows IH]; intros acc Hg; cbn.
  - exists []. now rewrite app_nil_r.
  - destruct (Hg row) as [e He]; [now left|]. rewrite He. cbn.
    destruct (IH (acc ++ [e])%list) as (es & -> & H).
    { intros; apply Hg; now right. }
    exists (e :: es). split; [now rewrite <- app_assoc|now constructor].
Qed.

Lemma parseInvoicesData_anchored (file : File) statusCol headerRow invoiceNoCol :
  anchors file = Ok (statusCol, headerRow, invoiceNoCol) ->
  parseInvoicesData file
  = forEach (fun invoicesData row =>
               entry ← assembleRow file headerRow (columnNames file headerRow) row;
               Ok (invoicesData ++ [entry])%list)
            (rowsToProcess file statusCol headerRow invoiceNoCol) [].
Proof. intros H. unfold parseInvoicesData. rewrite H. reflexivity. Qed.

(** The rows of the entries that pass the filter of [entriesToProcess]. *)
Lemma rowsToProcess_In (file : File) statusCol statusRow invoiceNoCol row :
  In row (rowsToProcess file statusCol statusRow invoiceNoCol)
  <-> exists element,
        In element file
        /\ toProcess statusCol statusRow invoiceNoCol element = true
        /\ row = (rowColFromString element.1).2.
Proof.
  unfold rowsToProcess, fileToEntries. rewrite in_map_iff. split.
  - intros (element & <- & H). apply filter_In in H as [? ?].
    exists element. easy.
  - intros (element & ? & ? & ->). exists element. split; [reflexivity|].
    now apply filter_In.
Qed.

Lemma col_eqb_Some c c' : col_eqb (Some c) (Some c') = true <-> c = c'.
Proof. cbn. apply Ascii.eqb_eq. Qed.

(** The rows of the entries that pass the filter, on a sparse sheet
    whose anchors lie in the columns [sc] and [ic] of the row [h]: the
    rows below [h] whose status cell is "Ready" or whose invoice number
    cell is a string of length 11 that starts with "INV". *)
Lemma rowsToProcess_rows (file : File) sc ic h row :
  sparseSheet file ->
  In row (rowsToProcess file (Some sc) (Some h) (Some ic))
  <-> exists r, row = Some r /\ h < r
        /\ (statusReady file sc r \/ invoiceNumbered file ic r).
Proof.
  intros Hsheet. rewrite rowsToProcess_In. unfold statusReady, invoiceNumbered.
  split.
  - intros ([k v] & Hin & Hproc & ->). cbn [fst].
    unfold toProcess in Hproc.
    destruct (rowOf_cellName _ (sparseSheet_cell _ _ Hsheet Hin))
      as (c & r & _ & _ & [[E Hk]|E]); cbn [fst] in *; rewrite E in *;
      cbn [snd gt] in *; [|discriminate].
    destruct (Z.ltb_spec h r) as [Hlt|]; [|discriminate].
    exists r. split; [reflexivity|]. split; [assumption|]. subst k.
    destruct Hsheet as [Hnd _].
    destruct (col_eqb (Some c) (Some sc) && is_string v "Ready") eqn:Hready.
    + left. apply andb_prop in Hready as [Hc Hv].
      apply col_eqb_Some in Hc as ->. destruct v as [s|]; [|discriminate].
      apply String.eqb_eq in Hv as ->. now apply assoc_NoDup.
    + right. apply andb_prop in Hproc as [Hc Hv].
      apply col_eqb_Some in Hc as ->. destruct v as [s|]; [|discriminate].
      apply andb_prop in Hv as [Hpre Hlen]. apply Nat.eqb_eq in Hlen.
      exists s. split; [now apply assoc_NoDup|easy].
  - intros (r & -> & Hlt & [Hready|(s & Hget & Hpre & Hlen)]).
    + exists (cell sc r, VStr "Ready"). split; [now apply assoc_Some_In|].
      unfold toProcess. cbn [fst]. rewrite !rowColFromString_cell.
      cbn [fst snd gt].
      destruct (Z.ltb_spec h r); [|lia].
      cbn. rewrite Ascii.eqb_refl. easy.
    + exists (cell ic r, VStr s). split; [now apply assoc_Some_In|].
      unfold toProcess. cbn [fst]. rewrite !rowColFromString_cell.
      cbn [fst snd gt].
      destruct (Z.ltb_spec h r); [|lia].
      destruct (_ && _); [easy|]. split; [|reflexivity].
      cbn. rewrite Ascii.eqb_refl, Hpre, Hlen. reflexivity.
Qed.

(** Two anchors in one-letter columns of the same row are accepted. *)
Lemma anchors_cells (file : File) sc ic h sv iv :
  findCell "Status" file = Some (cell sc h, sv) ->
  findCell "Invoice #" file = Some (cell ic h, iv) ->
  anchors file = Ok (Some sc, Some h, Some ic).
Proof.
  intros Hs Hi. unfold anchors, fileToEntries. rewrite Hs, Hi. cbn [fst].
  rewrite !rowColFromString_cell. cbn [strict_ne_int].
  now rewrite Z.eqb_refl.
Qed.

(** ** The record extractor: assembly and validation *)

Lemma mandatory_Some columnName name :
  mandatory columnName = Some name ->
  columnName = Some (VStr name) /\ In name mandatoryFields.
Proof.
  unfold mandatory. destruct columnName as [[s|n]|]; try discriminate.
  destruct (existsb _ _) eqn:H; [|discriminate]. intros [= <-].
  split; [reflexivity|]. apply existsb_exists in H as (x & Hin & Hx).
  apply String.eqb_eq in Hx. now subst.
Qed.

Lemma mandatory_In name :
  In name mandatoryFields -> mandatory (Some (VStr name)) = Some name.
Proof.
  intros H. unfold mandatory.
  assert (existsb (String.eqb name) mandatoryFields = true) as ->; [|reflexivity].
  apply existsb_exists. exists name. split; [assumption|apply String.eqb_refl].
Qed.

(** Every mandatory field has a schema, and none is a reserved name. *)
Lemma mandatory_schema name :
  In name mandatoryFields ->
  (exists schema, assoc invoiceDataFormat name = Some schema)
  /\ name <> "validationErrors" /\ name <> "__proto__".
Proof.
  intros H. cbn in H.
  repeat (destruct H as [<-|H]; [split; [eexists; reflexivity|split; discriminate]|]).
  destruct H.
Qed.

Lemma assembleColumn_eq (file : File) headerRowIndex columns row
    (entry : record) letter :
  assembleColumn file headerRowIndex columns row entry letter
  = storeColumn entry
      (columns !! String.append letter (int_to_string headerRowIndex))
      (file_get file (String.append letter (int_to_string row))).
Proof. reflexivity. Qed.

(** One column: under a list of messages, the body of the loop does not
    throw, appends the messages of the column, stores the cell under the
    name of the column and touches nothing else. *)
Lemma storeColumn_spec (entry : record) columnName cellValue errors :
  entry !! "validationErrors" = Some (FArray errors) ->
  to_string columnName <> "validationErrors" ->
  exists entry' : record,
    storeColumn entry columnName cellValue = Ok entry'
    /\ entry' !! "validationErrors"
       = Some (FArray (errors ++ columnMessages columnName cellValue))
    /\ (forall k, k <> to_string columnName -> k <> "validationErrors" ->
                  entry' !! k = entry !! k)
    /\ (to_string columnName <> "__proto__" ->
        entry' !! to_string columnName = Some (field_of cellValue)).
Proof.
  intros Herr Hkey. unfold storeColumn, columnMessages.
  assert (Hfinish : forall (entry1 : record) errors1,
    entry1 !! "validationErrors" = Some (FArray errors1) ->
    (forall k, k <> "validationErrors" -> entry1 !! k = entry !! k) ->
    exists entry' : record,
      Ok (set entry1 (to_string columnName) (field_of cellValue)) = Ok entry'
      /\ entry' !! "validationErrors" = Some (FArray errors1)
      /\ (forall k, k <> to_string columnName -> k <> "validationErrors" ->
                    entry' !! k = entry !! k)
      /\ (to_string columnName <> "__proto__" ->
          entry' !! to_string columnName = Some (field_of cellValue))).
  { intros entry1 errors1 H1 Hsame. eexists. split; [reflexivity|].
    split; [|split].
    - rewrite set_lookup_ne by assumption. exact H1.
    - intros k Hk Hk'. rewrite set_lookup_ne by congruence. now apply Hsame.
    - intros Hp. rewrite set_insert by assumption. apply lookup_insert_eq. }
  destruct (mandatory columnName) as [name|] eqn:Hm.
  - apply mandatory_Some in Hm as [_ Hin].
    destruct (mandatory_schema name Hin) as [[schema ->] _].
    destruct (Zod.safeParse schema cellValue) as [|issue issues] eqn:Hparse.
    + cbn [mbind result_bind bind map]. rewrite app_nil_r. now apply Hfinish.
    + unfold spreadErrors. rewrite (get_Own _ _ _ Herr).
      cbn [mbind result_bind bind]. apply Hfinish.
      * rewrite set_insert by discriminate. apply lookup_insert_eq.
      * intros k Hk. now rewrite set_lookup_ne by congruence.
  - cbn [mbind result_bind bind]. rewrite app_nil_r. now apply Hfinish.
Qed.

(** Several columns in a row, for any layout [columns]. *)
Lemma assembleColumns_spec (file : File) headerRowIndex columns row
    letters (entry : record) errors :
  entry !! "validationErrors" = Some (FArray errors) ->
  (forall letter, In letter letters ->
     to_string (columns !! String.append letter (int_to_string headerRowIndex))
     <> "validationErrors") ->
  exists (entry' : record) errors',
    forEach (assembleColumn file headerRowIndex columns row) letters entry
    = Ok entry'
    /\ entry' !! "validationErrors" = Some (FArray (errors ++ errors'))
    /\ (forall k,
          (forall letter, In letter letters ->
             to_string (columns !! String.append letter (int_to_string headerRowIndex))
             <> k) ->
          k <> "validationErrors" -> entry' !! k = entry !! k).
Proof.
  revert entry errors. induction letters as [|letter letters IH];
    intros entry errors Herr Hkeys; cbn [forEach].
  - exists entry, []. rewrite app_nil_r. easy.
  - rewrite assembleColumn_eq.
    destruct (storeColumn_spec entry
                (columns !! String.append letter (int_to_string headerRowIndex))
                (file_get file (String.append letter (int_to_string row)))
                errors Herr)
      as (entry1 & -> & Herr1 & Hsame1 & _).
    { apply Hkeys. now left. }
    cbn [bind].
    destruct (IH entry1 _ Herr1) as (entry2 & errors2 & -> & Herr2 & Hsame2).
    { intros; apply Hkeys; now right. }
    eexists entry2, _. split; [reflexivity|]. split.
    + rewrite Herr2, <- app_assoc. reflexivity.
    + intros k Hk Hk'. rewrite Hsame2.
      * apply Hsame1; [|assumption].
        intros E. apply (Hk letter); [now left|]. now symmetry.
      * intros; apply Hk; now right.
      * assumption.
Qed.

(** Without a column named "validationErrors" no row fails to
    assemble. *)
Lemma assembleRow_total (file : File) headerRowIndex columns row :
  (forall letter, In letter columnLetters ->
     to_string (columns !! String.append letter (int_to_string headerRowIndex))
     <> "validationErrors") ->
  exists (rec : record) errors,
    assembleRow file headerRowIndex columns row = Ok rec
    /\ rec !! "validationErrors" = Some (FArray errors).
Proof.
  intros Hkeys. unfold assembleRow.
  destruct (assembleColumns_spec file headerRowIndex columns row columnLetters
              {[ "validationErrors" := FArray [] ]} [])
    as (rec & errors & H & Herr & _).
  - apply lookup_singleton_eq.
  - exact Hkeys.
  - exists rec, errors. split; [exact H|exact Herr].
Qed.

(** The record of a row keeps the messages and the raw value of a
    mandatory column, for any layout [columns] without a column named
    "validationErrors" and without a second column of that name further
    right. *)
Lemma assembleRow_field (file : File) headerRowIndex columns row
    before letter after name schema reason (rec : record) :
  (forall letter, In letter columnLetters ->
     to_string (columns !! String.append letter (int_to_string headerRowIndex))
     <> "validationErrors") ->
  columnLetters = (before ++ letter :: after)%list ->
  columns !! String.append letter (int_to_string headerRowIndex)
    = Some (VStr name) ->
  In name mandatoryFields ->
  assoc invoiceDataFormat name = Some schema ->
  (forall letter', In letter' after ->
     to_string (columns !! String.append letter' (int_to_string headerRowIndex))
     <> name) ->
  In reason
     (Zod.safeParse schema
        (file_get file (String.append letter (int_to_string row)))) ->
  assembleRow file headerRowIndex columns row = Ok rec ->
  exists errors,
    rec !! "validationErrors" = Some (FArray errors)
    /\ In (String.append name (String.append ": " reason)) errors
    /\ rec !! name
       = Some (field_of (file_get file (String.append letter (int_to_string row)))).
Proof.
  intros Hkeys Hletters Hname Hmand Hschema Hafter Hreason Hrec.
  unfold assembleRow in Hrec. rewrite Hletters in Hrec, Hkeys.
  rewrite forEach_app in Hrec. cbn [forEach] in Hrec.
  assert (Hkeys' : forall l, In l before \/ l = letter \/ In l after ->
     to_string (columns !! String.append l (int_to_string headerRowIndex))
     <> "validationErrors").
  { intros l Hl. apply Hkeys. apply in_app_iff. cbn.
    destruct Hl as [?|[->|?]]; auto. }
  destruct (assembleColumns_spec file headerRowIndex columns row before
              {[ "validationErrors" := FArray [] ]} [])
    as (entry1 & errors1 & E1 & Herr1 & _);
    [apply lookup_singleton_eq|intros; apply Hkeys'; tauto|].
  rewrite E1 in Hrec. cbn [mbind result_bind bind] in Hrec.
  rewrite assembleColumn_eq in Hrec.
  destruct (storeColumn_spec entry1
              (columns !! String.append letter (int_to_string headerRowIndex))
              (file_get file (String.append letter (int_to_string row)))
              _ Herr1)
    as (entry2 & E2 & Herr2 & _ & Hvalue2); [apply Hkeys'; tauto|].
  rewrite E2 in Hrec. cbn [bind] in Hrec.
  destruct (assembleColumns_spec file headerRowIndex columns row after entry2 _ Herr2)
    as (entry3 & errors3 & E3 & Herr3 & Hsame3); [intros; apply Hkeys'; tauto|].
  rewrite E3 in Hrec. injection Hrec as <-.
  destruct (mandatory_schema name Hmand) as (_ & Hne & Hproto).
  rewrite Hname in Herr3, Hvalue2. cbn [to_string value_to_string] in Hvalue2.
  eexists. split; [exact Herr3|]. split.
  - apply in_app_iff. left. apply in_app_iff. right.
    unfold columnMessages. rewrite (mandatory_In name Hmand), Hschema.
    apply in_map_iff. exists reason. easy.
  - rewrite Hsame3; [now apply Hvalue2| |assumption].
    intros l Hl. now apply Hafter.
Qed.

Lemma Forall2_In_left {A B} (P : A -> B -> Prop) l k x :
  Forall2 P l k -> In x l -> exists y, In y k /\ P x y.
Proof.
  induction 1 as [|a b l k Hab _ IH]; cbn; [tauto|].
  intros [->|Hin]; [exists b; tauto|].
  destruct (IH Hin) as (y & ? & ?). exists y. tauto.
Qed.

(** C3 (as the code has it): when no column is named "validationErrors"
    and no column further right has the same name, a mandatory field of
    an admitted row that fails its schema rule leaves its messages
    "<field>: <reason>" in the record's validationErrors, the record
    keeps the raw value under the field's name, and the batch returns one
    record per admitted entry. *)
Theorem validation_failure_is_recorded
    (file : File) statusCol headerRow invoiceNoCol
    row before letter after name schema reason :
  anchors file = Ok (statusCol, headerRow, invoiceNoCol) ->
  (forall letter, In letter columnLetters ->
                  columnKey file headerRow letter <> "validationErrors") ->
  In row (rowsToProcess file statusCol headerRow invoiceNoCol) ->
  columnLetters = (before ++ letter :: after)%list ->
  columnNames file headerRow !! String.append letter (int_to_string headerRow)
    = Some (VStr name) ->
  In name mandatoryFields ->
  assoc invoiceDataFormat name = Some schema ->
  (forall letter', In letter' after -> columnKey file headerRow letter' <> name) ->
  In reason
     (Zod.safeParse schema
        (file_get file (String.append letter (int_to_string row)))) ->
  exists (recs : list record) (rec : record) errors,
    parseInvoicesData file = Ok recs
    /\ Forall2 (fun row rec =>
                  assembleRow file headerRow (columnNames file headerRow) row
                  = Ok rec)
               (rowsToProcess file statusCol headerRow invoiceNoCol) recs
    /\ In rec recs
    /\ assembleRow file headerRow (columnNames file headerRow) row = Ok rec
    /\ rec !! "validationErrors" = Some (FArray errors)
    /\ In (String.append name (String.append ": " reason)) errors
    /\ rec !! name
       = Some (field_of (file_get file (String.append letter (int_to_string row)))).
Proof.
  intros Hanchors Hkeys Hrow Hletters Hname Hmand Hschema Hafter Hreason.
  (* the batch *)
  destruct (collect_total
              (assembleRow file headerRow (columnNames file headerRow))
              (rowsToProcess file statusCol headerRow invoiceNoCol) [])
    as (recs & Hbatch & Hall).
  { intros row' _.
    destruct (assembleRow_total file headerRow (columnNames file headerRow)
                row' Hkeys) as (rec & _ & H & _).
    now exists rec. }
  rewrite <- (parseInvoicesData_anchored _ _ _ _ Hanchors) in Hbatch.
  cbn [app] in Hbatch.
  (* the record of the row *)
  destruct (Forall2_In_left _ _ _ _ Hall Hrow) as (rec & Hin & Hrec).
  destruct (assembleRow_field file headerRow (columnNames file headerRow) row
              before letter after name schema reason rec
              Hkeys Hletters Hname Hmand Hschema Hafter Hreason Hrec)
    as (errors & Herr & Hmsg & Hvalue).
  exists recs, rec, errors. easy.
Qed.

(** ** Concrete sheets *)

Ltac sparse :=
  split; [apply (bool_decide_unpack _); vm_compute; exact I
         |repeat (constructor; [vm_compute; reflexivity|]); constructor].

Lemma invoiceSheet_sparse : sparseSheet invoiceSheet.
Proof. sparse. Qed.

(** The whole request on the example sheet: row 6 is admitted twice (by
    its status and by its invoice number), and 100 times 1.1 is
    110.00000000000001 in binary64. *)
Example invoiceSheet_response :
  (fun o =>
     (InvoicingMonth o, currencyRates o,
      map (fun rec : record =>
             (rec !! "Customer", rec !! "validationErrors", rec !! "Invoice Total"))
          (invoicesData o)))
    <$> handler invoiceSheet (Some "2023-09")
  = Ok ("2023-09", {[ "USD" := num "1.1" ]},
        [ (Some (FValue (VStr "Acme")),
           Some (FArray ["Cust No': Number must be greater than or equal to 10000"]),
           Some (FValue (VStr "110.00000000000001")));
          (Some (FValue (VStr "Acme")),
           Some (FArray ["Cust No': Number must be greater than or equal to 10000"]),
           Some (FValue (VStr "110.00000000000001"))) ]).
Proof. vm_compute. reflexivity. Qed.

(** C1, as stated, fails on the code.  On a sparse sheet accepted by
    structure validation, row 6 satisfies both conditions and gets two
    records, and row 3, whose status cell is "Ready" above the header row,
    gets none.  On a second such sheet, whose anchors lie on different
    rows, row 6 satisfies both conditions and no record is returned.  Nor
    is one returned on a third, whose anchors lie beyond column Z on the
    same row, and on a fourth, where a column named "validationErrors"
    holds a number: there the extractor raises a run-time error. *)
Lemma admitted_rows_counterexample :
  (sparseSheet sheetWithReadyAbove
   /\ validateSheetStructure sheetWithReadyAbove = Ok tt
   /\ anchors sheetWithReadyAbove = Ok (Some "E"%char, Some 5, Some "F"%char)
   /\ statusReady sheetWithReadyAbove "E" 6
   /\ invoiceNumbered sheetWithReadyAbove "F" 6
   /\ rowsToProcess sheetWithReadyAbove (Some "E"%char) (Some 5) (Some "F"%char)
      = [Some 6; Some 6]
   /\ List.length <$> parseInvoicesData sheetWithReadyAbove = Ok 2%nat
   /\ statusReady sheetWithReadyAbove "E" 3
   /\ ~ In (Some 3)
          (rowsToProcess sheetWithReadyAbove
             (Some "E"%char) (Some 5) (Some "F"%char)))
  /\ (sparseSheet sheetWithSplitAnchors
      /\ validateSheetStructure sheetWithSplitAnchors = Ok tt
      /\ statusReady sheetWithSplitAnchors "E" 6
      /\ invoiceNumbered sheetWithSplitAnchors "F" 6
      /\ parseInvoicesData sheetWithSplitAnchors = Throw (Error "Broken table"))
  /\ (sparseSheet sheetWithAnchorsBeyondZ
      /\ validateSheetStructure sheetWithAnchorsBeyondZ = Ok tt
      /\ findCell "Status" sheetWithAnchorsBeyondZ = Some ("AA5", VStr "Status")
      /\ findCell "Invoice #" sheetWithAnchorsBeyondZ
         = Some ("AB5", VStr "Invoice #")
      /\ file_get sheetWithAnchorsBeyondZ "AA6" = Some (VStr "Ready")
      /\ parseInvoicesData sheetWithAnchorsBeyondZ
         = Throw (Error "Broken table"))
  /\ (sparseSheet sheetWithNumberUnderValidationErrors
      /\ validateSheetStructure sheetWithNumberUnderValidationErrors = Ok tt
      /\ anchors sheetWithNumberUnderValidationErrors
         = Ok (Some "E"%char, Some 5, Some "F"%char)
      /\ statusReady sheetWithNumberUnderValidationErrors "E" 6
      /\ invoiceNumbered sheetWithNumberUnderValidationErrors "F" 6
      /\ parseInvoicesData sheetWithNumberUnderValidationErrors
         = Throw TypeError).
Proof.
  split; [|split; [|split]].
  - split; [sparse|].
    split; [vm_compute; reflexivity|].
    split; [vm_compute; reflexivity|].
    split; [vm_compute; reflexivity|].
    split; [exists "INV00000001"; vm_compute; auto|].
    split; [vm_compute; reflexivity|].
    split; [vm_compute; reflexivity|].
    split; [vm_compute; reflexivity|].
    vm_compute. intros [H|[H|[]]]; discriminate.
  - split; [sparse|].
    split; [vm_compute; reflexivity|].
    split; [vm_compute; reflexivity|].
    split; [exists "INV00000001"; vm_compute; auto|].
    vm_compute. reflexivity.
  - split; [sparse|]. repeat split; vm_compute; reflexivity.
  - split; [sparse|].
    split; [vm_compute; reflexivity|].
    split; [vm_compute; reflexivity|].
    split; [vm_compute; reflexivity|].
    split; [exists "INV00000001"; vm_compute; auto|].
    vm_compute. reflexivity.
Qed.

Lemma validation_failure_is_recorded_witness :
  exists (recs : list record) (rec : record) errors,
    parseInvoicesData invoiceSheet = Ok recs
    /\ Forall2 (fun row rec =>
                  assembleRow invoiceSheet (Some 5)
                    (columnNames invoiceSheet (Some 5)) row = Ok rec)
               (rowsToProcess invoiceSheet (Some "E"%char) (Some 5) (Some "F"%char))
               recs
    /\ In rec recs
    /\ assembleRow invoiceSheet (Some 5) (columnNames invoiceSheet (Some 5))
         (Some 6) = Ok rec
    /\ rec !! "validationErrors" = Some (FArray errors)
    /\ In "Cust No': Number must be greater than or equal to 10000" errors
    /\ rec !! "Cust No'"
       = Some (field_of (file_get invoiceSheet
                           (String.append "B" (int_to_string (Some 6))))).
Proof.
  apply (validation_failure_is_recorded invoiceSheet
           (Some "E"%char) (Some 5) (Some "F"%char) (Some 6)
           ["A"] "B"
           ["C"; "D"; "E"; "F"; "G"; "H"; "I"; "J"; "K"; "L"; "M"; "N"; "O";
            "P"; "Q"; "R"; "S"; "T"; "U"; "V"; "W"; "X"; "Y"; "Z"]
           "Cust No'"
           (Zod.ZodNumber [Zod.CheckInt; Zod.CheckGte 10000; Zod.CheckLte 99999])
           "Number must be greater than or equal to 10000").
  - vm_compute. reflexivity.
  - intros letter Hin. cbn in Hin.
    repeat (destruct Hin as [<-|Hin]; [vm_compute; discriminate|]).
    destruct Hin.
  - vm_compute. left. reflexivity.
  - reflexivity.
  - vm_compute. reflexivity.
  - vm_compute. tauto.
  - reflexivity.
  - intros letter Hin. cbn in Hin.
    repeat (destruct Hin as [<-|Hin]; [vm_compute; discriminate|]).
    destruct Hin.
  - vm_compute. left. reflexivity.
Defined.

(** C3, as stated, fails on the code: the customer number 123 of row 6
    fails its rule, yet the record has no list of messages left (the
    column named "validationErrors" has overwritten it) and holds under
    "Cust No'" the value of the second column of that name, not the raw
    value that failed. *)
Lemma validation_failure_is_recorded_counterexample :
  validateSheetStructure sheetWithClashingColumns = Ok tt
  /\ In (Some 6) (rowsToProcess sheetWithClashingColumns
                    (Some "E"%char) (Some 5) (Some "F"%char))
  /\ columnNames sheetWithClashingColumns (Some 5) !! "B5" = Some (VStr "Cust No'")
  /\ file_get sheetWithClashingColumns "B6" = Some (num "123")
  /\ Zod.safeParse
       (Zod.ZodNumber [Zod.CheckInt; Zod.CheckGte 10000; Zod.CheckLte 99999])
       (Some (num "123"))
     = ["Number must be greater than or equal to 10000"]
  /\ map (fun rec : record => (rec !! "validationErrors", rec !! "Cust No'"))
       <$> parseInvoicesData sheetWithClashingColumns
     = Ok [ (Some FUndefined, Some (FValue (num "12345")));
            (Some FUndefined, Some (FValue (num "12345"))) ].
Proof.
  split; [vm_compute; reflexivity|].
  split; [vm_compute; left; reflexivity|].
  split; [vm_compute; reflexivity|].
  split; [vm_compute; reflexivity|].
  split; [vm_compute; reflexivity|].
  vm_compute. reflexivity.
Qed.

(** ** Structure validation *)

Lemma findCell_None marker (file : File) :
  (forall k, ~ In (k, VStr marker) file) -> findCell marker file = None.
Proof.
  intros H. destruct (findCell marker file) as [[k v]|] eqn:E; [|reflexivity].
  apply findCell_In in E as [Hin Hv]. cbn in Hv. subst v.
  now apply H in Hin.
Qed.

(** The loop over the mandatory fields throws at the first field that no
    cell holds. *)
Lemma mandatory_loop_throws (file : File) fields field :
  In field fields ->
  findCell field (fileToEntries file) = None ->
  forEach (fun (_ : unit) mandatoryField =>
             match findCell mandatoryField (fileToEntries file) with
             | None => Throw (Error "Mandatory field is missing")
             | Some _ => Ok tt
             end)
          fields tt
  = Throw (Error "Mandatory field is missing").
Proof.
  intros Hin Hnone. induction fields as [|f fields IH]; [destruct Hin|].
  cbn [forEach]. destruct Hin as [->|Hin].
  - rewrite Hnone. reflexivity.
  - destruct (findCell f _); [|reflexivity]. cbn [bind]. now apply IH.
Qed.

(** C5 (as the code has it): a sheet in which a mandatory field name is
    the value of no cell fails structure validation; the error is
    "Mandatory field is missing", which does not name the field, unless
    the "Status" cell, the "Invoice #" cell or the textual date is missing
    too, in which case the error is that of the first of these checks. *)
Theorem missing_mandatory_field_fails (file : File) field :
  In field mandatoryFields ->
  (forall k, ~ In (k, VStr field) file) ->
  validateSheetStructure file
  = Throw (Error
      match findCell "Status" (fileToEntries file),
            findCell "Invoice #" (fileToEntries file),
            file_get file "A1" with
      | None, _, _ => "No 'Status' cell in sheet"
      | Some _, None, _ => "No 'Invoice #' cell in sheet"
      | Some _, Some _, Some (VStr _) => "Mandatory field is missing"
      | Some _, Some _, _ => "Wrong Invoice Date"
      end).
Proof.
  intros Hin Habsent. apply findCell_None in Habsent.
  unfold validateSheetStructure.
  destruct (findCell "Status" (fileToEntries file)); [|reflexivity].
  destruct (findCell "Invoice #" (fileToEntries file)); [|reflexivity].
  destruct (file_get file "A1") as [[dateString|n]|]; try reflexivity.
  now rewrite (mandatory_loop_throws file mandatoryFields field Hin Habsent).
Qed.

Lemma missing_mandatory_field_fails_witness :
  validateSheetStructure sheetWithoutCustomer
  = Throw (Error
      match findCell "Status" (fileToEntries sheetWithoutCustomer),
            findCell "Invoice #" (fileToEntries sheetWithoutCustomer),
            file_get sheetWithoutCustomer "A1" with
      | None, _, _ => "No 'Status' cell in sheet"
      | Some _, None, _ => "No 'Invoice #' cell in sheet"
      | Some _, Some _, Some (VStr _) => "Mandatory field is missing"
      | Some _, Some _, _ => "Wrong Invoice Date"
      end).
Proof.
  apply (missing_mandatory_field_fails sheetWithoutCustomer "Customer").
  - vm_compute. tauto.
  - intros k Hin. vm_compute in Hin.
    repeat (destruct Hin as [Hin|Hin]; [discriminate Hin|]). destruct Hin.
Defined.

(** C5, as stated, fails on the code: no cell of the sheet holds
    "Customer", and the error that structure validation throws does not
    name that field; on a sheet that also lacks the "Status" cell the
    error is not the one of the mandatory fields at all. *)
Lemma missing_mandatory_field_fails_counterexample :
  (forall k, file_get sheetWithoutCustomer k <> Some (VStr "Customer"))
  /\ validateSheetStructure sheetWithoutCustomer
     = Throw (Error "Mandatory field is missing")
  /\ includes "Mandatory field is missing" "Customer" = false
  /\ In "Customer" mandatoryFields
  /\ validateSheetStructure dateOnlySheet
     = Throw (Error "No 'Status' cell in sheet").
Proof.
  split.
  - intros k H. apply assoc_Some_In in H. vm_compute in H.
    repeat (destruct H as [H|H]; [discriminate H|]). destruct H.
  - repeat split; try (vm_compute; reflexivity). vm_compute. tauto.
Qed.

(** ** The request handler *)

(** C8 (as the code has it): once the sheet has passed structure
    validation, a caller's invoicing month that differs from the
    canonical form of the date in A1 makes the request throw the mismatch
    error; the rate table and the records are not looked at. *)
Theorem period_mismatch_is_fatal (file : File) dateString parameter :
  validateSheetStructure file = Ok tt ->
  file_get file "A1" = Some (VStr dateString) ->
  parameter <> Some (parseInvoicingDate dateString) ->
  handler file parameter
  = Throw (Error "Invoicing month param dont match file invoicing month").
Proof.
  intros Hvalid Hdate Hne. unfold handler. rewrite Hvalid.
  cbn [mbind result_bind bind]. rewrite Hdate.
  rewrite bool_decide_eq_false_2 by congruence. reflexivity.
Qed.

Lemma period_mismatch_is_fatal_witness :
  parseCurrencyRates sheetWithRateInZ = Throw (Error "Wrong column index")
  /\ handler sheetWithRateInZ (Some "2023-10")
     = Throw (Error "Invoicing month param dont match file invoicing month").
Proof.
  split; [vm_compute; reflexivity|].
  apply (period_mismatch_is_fatal sheetWithRateInZ "Sep 2023" (Some "2023-10")).
  - vm_compute. reflexivity.
  - reflexivity.
  - vm_compute. discriminate.
Defined.

(** C8, as stated, fails on the code: the date of the sheet is
    "2023-09", the caller asks for "2023-10", and the request fails with
    the error of structure validation, not with the mismatch error. *)
Lemma period_mismatch_is_fatal_counterexample :
  file_get dateOnlySheet "A1" = Some (VStr "Sep 2023")
  /\ parseInvoicingDate "Sep 2023" = "2023-09"
  /\ handler dateOnlySheet (Some "2023-10")
     = Throw (Error "No 'Status' cell in sheet").
Proof. repeat split; vm_compute; reflexivity. Qed.

(** ** Defects *)

(** C2 fails on the code: [getRightCellIndex] keeps one character of the
    row number, so the neighbour of B12 is taken to be C1, and the rate of
    the label in B12 is read from C1 instead of C12. *)
Theorem right_cell_of_two_digit_row :
  getRightCellIndex (cell "B" 12) = Ok (cell "C" 1)
  /\ cell "C" 1 <> cell "C" 12
  /\ file_get sheetWithRateOnRow12 (cell "C" 12) = Some (num "1.1")
  /\ parseCurrencyRates sheetWithRateOnRow12 = Ok {[ "USD" := VStr "Invoices" ]}.
Proof.
  split; [reflexivity|]. split; [discriminate|].
  split; vm_compute; reflexivity.
Qed.

(** C9 fails on the code: the label in B12 has the right neighbour C12,
    which holds the falsy value 0, yet the rate stored for it is not the
    sentinel "No value" but the text of C1, the cell that
    [getRightCellIndex] designates (the defect of C2).  The same label on
    row 2 gets the sentinel, as it does when its neighbour is absent. *)
Theorem falsy_neighbour_of_two_digit_row :
  file_get sheetWithFalsyRateOnRow12 (cell "B" 12) = Some (VStr "USD Rate")
  /\ file_get sheetWithFalsyRateOnRow12 (cell "C" 12)
     = Some (VNum (number_of_Z 0))
  /\ truthy (Some (VNum (number_of_Z 0))) = false
  /\ getRightCellIndex (cell "B" 12) = Ok (cell "C" 1)
  /\ parseCurrencyRates sheetWithFalsyRateOnRow12
     = Ok {[ "USD" := VStr "Invoices" ]}
  /\ parseCurrencyRates (without (cell "C" 12) sheetWithFalsyRateOnRow12)
     = Ok {[ "USD" := VStr "Invoices" ]}
  /\ parseCurrencyRates sheetWithFalsyRateOnRow2
     = Ok {[ "USD" := VStr "No value" ]}
  /\ parseCurrencyRates (without (cell "C" 2) sheetWithFalsyRateOnRow2)
     = Ok {[ "USD" := VStr "No value" ]}.
Proof. repeat split; vm_compute; reflexivity. Qed.

(** On rows 1 to 9 the neighbour is the right one. *)
Lemma right_cell_of_one_digit_row (i : nat) letter next (row : Z) :
  columnLetters !! i = Some (fromCharCode letter) ->
  columnLetters !! S i = Some (fromCharCode next) ->
  1 <= row <= 9 ->
  getRightCellIndex (cell letter row) = Ok (cell next row).
Proof.
  intros Hi Hn Hrow.
  assert (Hr : row = 1 \/ row = 2 \/ row = 3 \/ row = 4 \/ row = 5
               \/ row = 6 \/ row = 7 \/ row = 8 \/ row = 9) by lia.
  do 26 (destruct i as [|i];
         [first [discriminate Hn
                |injection Hi as <-; injection Hn as <-;
                 intuition (subst; reflexivity)]|]).
  destruct i; discriminate.
Qed.

(** C4 fails on the code: column Z has no header, and the record of row 6
    holds the value of its cell under the key "undefined". *)
Theorem headerless_column_is_stored :
  file_get sheetWithStrayCell (cell "Z" 5) = None
  /\ columnNames sheetWithStrayCell (Some 5) !! cell "Z" 5 = None
  /\ file_get sheetWithStrayCell (cell "Z" 6) = Some (VStr "stray")
  /\ map (fun rec : record => rec !! "undefined")
       <$> parseInvoicesData sheetWithStrayCell
     = Ok [ Some (FValue (VStr "stray")); Some (FValue (VStr "stray")) ]
  /\ map (fun rec : record => rec !! "undefined")
       <$> parseInvoicesData invoiceSheet
     = Ok [ Some FUndefined; Some FUndefined ].
Proof. repeat split; vm_compute; reflexivity. Qed.

(* ================================================================== *)
(** * Further properties *)
(* ================================================================== *)

(** ** [getRightCellIndex] *)

Lemma getRightCellIndex_cons c rest :
  getRightCellIndex (String c rest)
  = if leftOfLastColumn (String c rest)
    then Ok (String (nextLetter c) (text_of (fromCharCode <$> index rest 0)))
    else Throw (Error "Wrong column index").
Proof.
  destruct c as [[] [] [] [] [] [] [] []]; reflexivity.
Qed.

(** X1: [getRightCellIndex] throws exactly on the cell names that do not
    start with one of the letters A to Y (the empty name, column Z, lower
    case, digits), and "Wrong column index" is the only error it throws. *)
Theorem getRightCellIndex_throws_iff cell :
  (getRightCellIndex cell = Throw (Error "Wrong column index")
   <-> leftOfLastColumn cell = false)
  /\ (forall e, getRightCellIndex cell = Throw e -> e = Error "Wrong column index").
Proof.
  destruct cell as [|c rest].
  - split; [split; reflexivity|]. intros e [= <-]. reflexivity.
  - rewrite getRightCellIndex_cons.
    destruct (leftOfLastColumn (String c rest)); split;
      try (split; [reflexivity || discriminate|discriminate || reflexivity]);
      intros e; [discriminate|]. intros [= <-]. reflexivity.
Qed.

Lemma one_char_parseInt d z : parseInt (String d EmptyString) = Some z -> z <= 9.
Proof.
  destruct d as [[] [] [] [] [] [] [] []]; vm_compute; intros [= <-]; discriminate.
Qed.

(** X2: for a cell in the columns A to Y, [getRightCellIndex] returns the
    name of the cell to its right exactly when the row number has one
    digit: from row 10 on the result is another cell. *)
Theorem right_neighbour_iff_one_digit_row c row :
  leftOfLastColumn (cell c row) = true ->
  0 < row ->
  getRightCellIndex (cell c row) = Ok (cell (nextLetter c) row) <-> row <= 9.
Proof.
  intros Hc Hrow. rewrite !cell_cons in *. rewrite getRightCellIndex_cons, Hc.
  split.
  - intros [= H]. pose proof (parseInt_Z_to_string row) as Hp.
    destruct (Z_to_string row) as [|d [|d' s]]; cbn in H.
    + discriminate.
    + now apply one_char_parseInt in Hp.
    + discriminate.
  - intros Hle.
    assert (Hr : row = 1 \/ row = 2 \/ row = 3 \/ row = 4 \/ row = 5
                 \/ row = 6 \/ row = 7 \/ row = 8 \/ row = 9) by lia.
    intuition (subst; reflexivity).
Qed.

Lemma right_neighbour_iff_one_digit_row_witness :
  (getRightCellIndex (cell "B" 7) = Ok (cell (nextLetter "B") 7) <-> 7 <= 9)
  /\ (getRightCellIndex (cell "B" 12) = Ok (cell (nextLetter "B") 12) <-> 12 <= 9).
Proof.
  split.
  - apply (right_neighbour_iff_one_digit_row "B" 7); [reflexivity|lia].
  - apply (right_neighbour_iff_one_digit_row "B" 12); [reflexivity|lia].
Defined.

(** ** [rowColFromString] *)

(** X3: for a row number that is a safe integer, [rowColFromString]
    returns the first letter of the column and, for a one-letter column,
    the row number; for a column of two or more letters (beyond Z) the
    row is NaN. *)
Theorem rowColFromString_cellName column row :
  column <> EmptyString -> allUpper column = true ->
  Z.abs row <= MAX_SAFE_INTEGER ->
  rowColFromString (cellName column row)
  = (index column 0,
     if (String.length column =? 1)%nat then Some row else None).
Proof.
  intros Hne Hup _. destruct column as [|c [|c2 column]]; [congruence| |].
  - apply rowColFromString_cell.
  - rewrite !cellName_cons. unfold rowColFromString.
    cbn [substring1 index String.get allUpper String.length Nat.eqb] in *.
    rewrite parseInt_upper; [reflexivity|].
    apply andb_prop in Hup as [_ Hup]. now apply andb_prop in Hup as [Hup _].
Qed.

Lemma rowColFromString_cellName_witness :
  rowColFromString (cellName "AB" 7) = (index "AB" 0, None)
  /\ rowColFromString (cellName "E" 5) = (index "E" 0, Some 5).
Proof.
  split.
  - apply (rowColFromString_cellName "AB" 7);
      [discriminate|reflexivity|vm_compute; discriminate].
  - apply (rowColFromString_cellName "E" 5);
      [discriminate|reflexivity|vm_compute; discriminate].
Defined.

(** ** [parseInvoicingDate] *)

Lemma split_noSpace s : noSpace s = true -> split " " s = [s].
Proof.
  induction s as [|c s IH]; cbn [noSpace split]; [reflexivity|].
  intros H. apply andb_prop in H as [Hc Hs].
  apply negb_true_iff in Hc. rewrite Hc, IH by assumption. reflexivity.
Qed.

Lemma split_append a b :
  noSpace a = true ->
  split " " (String.append a (String " " b)) = a :: split " " b.
Proof.
  induction a as [|c a IH]; intros H.
  - reflexivity.
  - cbn [noSpace] in H. apply andb_prop in H as [Hc Ha].
    apply negb_true_iff in Hc.
    change (String.append (String c a) (String " " b))
      with (String c (String.append a (String " " b))).
    cbn [split]. rewrite Hc, IH by assumption. reflexivity.
Qed.

Lemma split_first_word year more :
  noSpace year = true ->
  split " " (join " " (year :: more)) !! 0%nat = Some year.
Proof.
  intros H. destruct more as [|w ws].
  - cbn [join]. now rewrite split_noSpace.
  - change (join " " (year :: w :: ws))
      with (String.append year (String " " (join " " (w :: ws)))).
    now rewrite split_append.
Qed.

Lemma parseInvoicingDate_words month year more :
  noSpace month = true -> noSpace year = true ->
  parseInvoicingDate (join " " (month :: year :: more))
  = String.append year
      (String.append "-" (property_text id (get monthsArray month))).
Proof.
  intros Hm Hy. unfold parseInvoicingDate.
  change (join " " (month :: year :: more))
    with (String.append month (String " " (join " " (year :: more)))).
  rewrite split_append by assumption.
  change ((month :: split " " (join " " (year :: more))) !! 1%nat)
    with (split " " (join " " (year :: more)) !! 0%nat).
  rewrite split_first_word by assumption. reflexivity.
Qed.

(** The twelve entries of [monthsArray]. *)
Lemma month_cases month number :
  monthsArray !! month = Some number ->
  In (month, number)
    [ ("Jan", "01"); ("Feb", "02"); ("Mar", "03"); ("Apr", "04");
      ("May", "05"); ("Jun", "06"); ("Jul", "07"); ("Aug", "08");
      ("Sep", "09"); ("Oct", "10"); ("Nov", "11"); ("Dec", "12") ].
Proof.
  intros H. unfold monthsArray in H. apply elem_of_list_to_map_2 in H.
  now apply list_elem_of_In.
Qed.

Lemma month_noSpace month number :
  monthsArray !! month = Some number -> noSpace month = true.
Proof.
  intros H. apply month_cases in H. cbn in H.
  repeat (destruct H as [[= <- <-]|H]; [reflexivity|]). destruct H.
Qed.

(** X4: for a date made of one of the twelve month abbreviations, a
    space and a year, [parseInvoicingDate] returns the year, a hyphen and
    the two-digit number of the month; further words are ignored. *)
Theorem parseInvoicingDate_canonical month number year more :
  monthsArray !! month = Some number ->
  noSpace year = true ->
  parseInvoicingDate (join " " (month :: year :: more))
  = String.append year (String.append "-" number).
Proof.
  intros Hmonth Hyear.
  rewrite parseInvoicingDate_words
    by (assumption || exact (month_noSpace _ _ Hmonth)).
  now rewrite (get_Own _ _ _ Hmonth).
Qed.

Lemma parseInvoicingDate_canonical_witness :
  parseInvoicingDate (join " " ["Sep"; "2023"; "draft"])
  = String.append "2023" (String.append "-" "09").
Proof.
  apply (parseInvoicingDate_canonical "Sep" "09" "2023" ["draft"]); reflexivity.
Defined.

(** X5: the month is not validated: a first word that is none of the
    twelve abbreviations (nor the name of a member of [Object.prototype])
    gives the year followed by "-undefined". *)
Theorem parseInvoicingDate_unknown_month month year more :
  noSpace month = true -> noSpace year = true ->
  monthsArray !! month = None ->
  assoc Object_prototype month = None ->
  parseInvoicingDate (join " " (month :: year :: more))
  = String.append year "-undefined".
Proof.
  intros Hm Hy Hnone Hproto. rewrite parseInvoicingDate_words by assumption.
  unfold get. now rewrite Hnone, Hproto.
Qed.

Lemma parseInvoicingDate_unknown_month_witness :
  parseInvoicingDate (join " " ["sep"; "2023"]) = String.append "2023" "-undefined".
Proof.
  apply (parseInvoicingDate_unknown_month "sep" "2023" []); reflexivity.
Defined.

Lemma length_append a b :
  String.length (String.append a b) = (String.length a + String.length b)%nat.
Proof.
  induction a as [|c a IH]; [reflexivity|].
  change (String.append (String c a) b) with (String c (String.append a b)).
  cbn [String.length]. now rewrite IH.
Qed.

Lemma append_inj_length a1 b1 a2 b2 :
  String.length b1 = String.length b2 ->
  String.append a1 b1 = String.append a2 b2 -> a1 = a2 /\ b1 = b2.
Proof.
  intros Hlen. revert a2. induction a1 as [|c a1 IH]; intros [|c2 a2] H.
  - easy.
  - exfalso. apply (f_equal String.length) in H.
    change (String.append EmptyString b1) with b1 in H.
    change (String.append (String c2 a2) b2)
      with (String c2 (String.append a2 b2)) in H.
    cbn [String.length] in H. rewrite length_append in H. lia.
  - exfalso. apply (f_equal String.length) in H.
    change (String.append EmptyString b2) with b2 in H.
    change (String.append (String c a1) b1)
      with (String c (String.append a1 b1)) in H.
    cbn [String.length] in H. rewrite length_append in H. lia.
  - change (String c (String.append a1 b1) = String c2 (String.append a2 b2)) in H.
    injection H as -> H. apply IH in H as [-> ->]. easy.
Qed.

(** X6: two well-formed dates that differ in the month or in the year
    have different canonical forms. *)
Theorem parseInvoicingDate_distinguishes month1 number1 year1 month2 number2 year2 :
  monthsArray !! month1 = Some number1 ->
  monthsArray !! month2 = Some number2 ->
  noSpace year1 = true -> noSpace year2 = true ->
  (month1, year1) <> (month2, year2) ->
  parseInvoicingDate (join " " [month1; year1])
  <> parseInvoicingDate (join " " [month2; year2]).
Proof.
  intros H1 H2 Hy1 Hy2 Hne E. apply Hne.
  rewrite !parseInvoicingDate_words in E
    by (assumption || exact (month_noSpace _ _ H1)
        || exact (month_noSpace _ _ H2)).
  rewrite (get_Own _ _ _ H1), (get_Own _ _ _ H2) in E.
  cbn [property_text id] in E.
  apply month_cases in H1, H2.
  apply append_inj_length in E as [-> E].
  - f_equal. cbn in H1, H2.
    repeat (destruct H1 as [[= <- <-]|H1];
            [repeat (destruct H2 as [[= <- <-]|H2];
                     [reflexivity || discriminate E|]);
             destruct H2|]).
    destruct H1.
  - cbn in H1, H2.
    repeat (destruct H1 as [[= <- <-]|H1];
            [repeat (destruct H2 as [[= <- <-]|H2]; [reflexivity|]);
             destruct H2|]).
    destruct H1.
Qed.

Lemma parseInvoicingDate_distinguishes_witness :
  parseInvoicingDate (join " " ["Sep"; "2023"])
  <> parseInvoicingDate (join " " ["Oct"; "2023"]).
Proof.
  apply (parseInvoicingDate_distinguishes "Sep" "09" "2023" "Oct" "10" "2023");
    try reflexivity.
  discriminate.
Defined.

(** ** [validateSheetStructure] *)

Lemma findCell_Some_iff marker (file : File) :
  (exists element, findCell marker file = Some element)
  <-> exists k, In (k, VStr marker) file.
Proof.
  split.
  - intros [[k v] H]. apply findCell_In in H as [Hin Hv]. cbn in Hv. subst v.
    now exists k.
  - intros [k Hin]. destruct (findCell marker file) as [element|] eqn:E.
    + now exists element.
    + exfalso. unfold findCell in E.
      apply (List.find_none _ _ E) in Hin. cbn in Hin.
      now rewrite String.eqb_refl in Hin.
Qed.

Lemma mandatory_loop_Ok (file : File) fields :
  forEach (fun (_ : unit) mandatoryField =>
             match findCell mandatoryField (fileToEntries file) with
             | None => Throw (Error "Mandatory field is missing")
             | Some _ => Ok tt
             end)
          fields tt = Ok tt
  <-> forall name, In name fields -> exists k, In (k, VStr name) file.
Proof.
  induction fields as [|f fields IH]; cbn [forEach].
  - split; [intros _ name []|reflexivity].
  - destruct (findCell f (fileToEntries file)) as [element|] eqn:E; cbn [bind].
    + rewrite IH. split.
      * intros H name [<-|Hin]; [|now apply H].
        apply findCell_Some_iff. now exists element.
      * intros H name Hin. apply H. now right.
    + split; [discriminate|]. intros H. exfalso.
      destruct (proj2 (findCell_Some_iff f file)) as [element E'].
      * apply H. now left.
      * unfold fileToEntries in E. congruence.
Qed.

(** X7: structure validation accepts a sheet exactly when "Invoice #"
    and each of the nine mandatory field names (among them "Status") is
    the value of some cell, wherever it lies, and the cell A1 holds a
    string. *)
Theorem validateSheetStructure_Ok_iff (file : File) :
  validateSheetStructure file = Ok tt
  <-> (forall name, In name ("Invoice #" :: mandatoryFields) ->
         exists k, In (k, VStr name) file)
      /\ exists dateString, file_get file "A1" = Some (VStr dateString).
Proof.
  unfold validateSheetStructure. split.
  - destruct (findCell "Status" (fileToEntries file)); [|discriminate].
    destruct (findCell "Invoice #" (fileToEntries file)) as [inv|] eqn:Ei;
      [|discriminate].
    destruct (file_get file "A1") as [[dateString|n]|]; try discriminate.
    intros H0. pose proof (proj1 (mandatory_loop_Ok file mandatoryFields) H0) as H.
    split; [|now exists dateString].
    intros name [<-|Hin]; [|now apply H].
    apply findCell_Some_iff. now exists inv.
  - intros [Hall [dateString ->]]. unfold fileToEntries.
    destruct (proj2 (findCell_Some_iff "Status" file)) as [st ->].
    { apply Hall. cbn. tauto. }
    destruct (proj2 (findCell_Some_iff "Invoice #" file)) as [inv ->].
    { apply Hall. now left. }
    apply (proj2 (mandatory_loop_Ok file mandatoryFields)).
    intros name Hin. apply Hall. now right.
Qed.

(** ** [parseCurrencyRates] *)

Lemma recordRate_label (file : File) rates k text :
  recordRate file rates (k, VStr text)
  = if leftOfLastColumn k
    then match getRightCellIndex k with
         | Ok rightCell => Ok (set rates (rateName text) (rateValue file rightCell))
         | Throw e => Throw e
         end
    else Throw (Error "Wrong column index").
Proof.
  cbn [recordRate]. destruct k as [|c rest]; [reflexivity|].
  rewrite getRightCellIndex_cons. now destruct (leftOfLastColumn _).
Qed.

Lemma leftOfLastColumn_Ok k :
  leftOfLastColumn k = true -> exists rightCell, getRightCellIndex k = Ok rightCell.
Proof.
  destruct k as [|c rest]; [discriminate|]. rewrite getRightCellIndex_cons.
  intros ->. eauto.
Qed.

Lemma isRateCell_inv element :
  isRateCell element = true ->
  exists k text, element = (k, VStr text) /\ endsWith text "Rate" = true.
Proof.
  destruct element as [k [text|n]]; cbn; [|discriminate]. eauto.
Qed.

(** The loop over the rate labels: it throws at the first label outside
    the columns A to Y, and runs to its end without one. *)
Lemma rate_loop (file : File) labels rates :
  Forall (fun element => isRateCell element = true) labels ->
  (forEach (recordRate file) labels rates = Throw (Error "Wrong column index")
   /\ Exists (fun element => leftOfLastColumn element.1 = false) labels)
  \/ ((exists rates', forEach (recordRate file) labels rates = Ok rates')
      /\ Forall (fun element => leftOfLastColumn element.1 = true) labels).
Proof.
  intros Hall. revert rates.
  induction Hall as [|element labels Hrate _ IH]; intros rates.
  - right. split; [now exists rates|constructor].
  - destruct (isRateCell_inv _ Hrate) as (k & text & -> & _).
    cbn [forEach]. rewrite recordRate_label.
    destruct (leftOfLastColumn k) eqn:Hk.
    + destruct (leftOfLastColumn_Ok k Hk) as [rightCell ->]. cbn [bind].
      destruct (IH (set rates (rateName text) (rateValue file rightCell)))
        as [[-> H]|[H H']].
      * left. split; [reflexivity|now apply Exists_cons_tl].
      * right. split; [exact H|now constructor].
    + left. split; [reflexivity|]. now apply Exists_cons_hd.
Qed.

Lemma rateCells_Forall (file : File) :
  Forall (fun element => isRateCell element = true)
    (List.filter isRateCell (fileToEntries file)).
Proof. apply List.Forall_forall. intros x H. now apply filter_In in H. Qed.

(** X8: the rate table builder throws exactly when some rate label (a
    string cell that ends with "Rate") lies outside the columns A to Y,
    and "Wrong column index" is the only error it throws; otherwise it
    returns a table. *)
Theorem parseCurrencyRates_throws_iff (file : File) :
  (parseCurrencyRates file = Throw (Error "Wrong column index")
   <-> exists k text,
         In (k, VStr text) file /\ endsWith text "Rate" = true
         /\ leftOfLastColumn k = false)
  /\ (forall e, parseCurrencyRates file = Throw e
                -> e = Error "Wrong column index").
Proof.
  unfold parseCurrencyRates.
  destruct (rate_loop file _ ∅ (rateCells_Forall file)) as [[E H]|[[rates E] H]];
    rewrite E.
  - split; [|now intros e [= <-]]. split; [intros _|reflexivity].
    apply List.Exists_exists in H as (element & Hin & Hk).
    apply filter_In in Hin as [Hin Hrate].
    destruct (isRateCell_inv _ Hrate) as (k & text & -> & Hends).
    now exists k, text.
  - split; [|discriminate]. split; [discriminate|].
    intros (k & text & Hin & Hends & Hk). exfalso.
    rewrite List.Forall_forall in H.
    specialize (H (k, VStr text)). cbn in H. rewrite H in Hk; [discriminate|].
    apply filter_In. split; [exact Hin|exact Hends].
Qed.






(** A loop over labels of other names leaves the entry of [name] alone. *)
Lemma rate_loop_other (file : File) labels rates rates' name :
  Forall (fun element => isRateCell element = true) labels ->
  (forall k text, In (k, VStr text) labels -> rateName text <> name) ->
  forEach (recordRate file) labels rates = Ok rates' ->
  rates' !! name = rates !! name.
Proof.
  intros Hall. revert rates.
  induction Hall as [|element labels Hrate _ IH]; intros rates Hother;
    cbn [forEach].
  - now intros [= <-].
  - destruct (isRateCell_inv _ Hrate) as (k & text & -> & _).
    rewrite recordRate_label. destruct (leftOfLastColumn k); [|discriminate].
    destruct (getRightCellIndex k) as [rightCell|]; [|discriminate].
    cbn [bind]. intros Hloop.
    rewrite (IH _ (fun k' text' H => Hother k' text' (or_intror H)) Hloop).
    apply set_lookup_ne. apply (Hother k text). now left.
Qed.

Lemma filter_app_cons {A} (P : A -> bool) l1 x l2 :
  P x = true ->
  List.filter P (l1 ++ x :: l2) = (List.filter P l1 ++ x :: List.filter P l2)%list.
Proof. intros H. rewrite List.filter_app. cbn. now rewrite H. Qed.

(** X10: when several labels have the same first word, the last one in
    the order of the sheet decides the rate of that name. *)
Theorem last_rate_label_wins (file before after : File) k text rightCell rates :
  file = (before ++ (k, VStr text) :: after)%list ->
  endsWith text "Rate" = true ->
  rateName text <> "__proto__" ->
  (forall k' text', In (k', VStr text') after ->
                    endsWith text' "Rate" = true ->
                    rateName text' <> rateName text) ->
  getRightCellIndex k = Ok rightCell ->
  parseCurrencyRates file = Ok rates ->
  rates !! rateName text = Some (rateValue file rightCell).
Proof.
  intros Hfile Hends Hproto Hafter Hright. unfold parseCurrencyRates, fileToEntries.
  replace (List.filter isRateCell file)
    with (List.filter isRateCell before
          ++ (k, VStr text) :: List.filter isRateCell after)%list
    by (rewrite Hfile; symmetry; now apply filter_app_cons).
  rewrite forEach_app.
  destruct (forEach (recordRate file) (List.filter isRateCell before) ∅)
    as [rates1|]; [|discriminate].
  cbn [mbind result_bind bind forEach recordRate]. rewrite Hright.
  cbn [mbind result_bind bind].
  intros Hloop.
  rewrite (rate_loop_other file _ _ _ (rateName text) (rateCells_Forall after)
             (fun k' text' H => Hafter k' text' (proj1 (proj1 (filter_In _ _ _) H))
                                  (proj2 (proj1 (filter_In _ _ _) H)))
             Hloop).
  rewrite set_insert by assumption. apply lookup_insert_eq.
Qed.

Lemma last_rate_label_wins_witness :
  ({[ "USD" := num "1.2" ]} : gmap string value) !! rateName "USD Rate"
  = Some (rateValue sheetWithTwoRates "B3").
Proof.
  apply (last_rate_label_wins sheetWithTwoRates
           [ ("A2", VStr "USD Rate"); ("B2", num "1.1") ]
           [ ("B3", num "1.2") ] "A3" "USD Rate" "B3").
  - reflexivity.
  - reflexivity.
  - vm_compute. discriminate.
  - intros k' text' Hin. cbn in Hin. destruct Hin as [Hin|[]]. discriminate Hin.
  - reflexivity.
  - vm_compute. reflexivity.
Defined.

(** ** [parseInvoicesData] *)

(** *** The text of a number never starts with the letter v *)

Lemma string_of_uint_head d :
  d <> Decimal.Nil ->
  exists c r, NilEmpty.string_of_uint d = String c r
              /\ Ascii.eqb c "v" = false.
Proof.
  destruct d; intros H; try congruence; cbn [NilEmpty.string_of_uint];
    eexists _, _; (split; [reflexivity|reflexivity]).
Qed.

Lemma Z_to_string_head z :
  exists c r, Z_to_string z = String c r /\ Ascii.eqb c "v" = false.
Proof.
  destruct z as [|p|p]; unfold Z_to_string; cbn [Z.to_int NilEmpty.string_of_int].
  - eexists _, _. split; reflexivity.
  - apply string_of_uint_head, to_uint_nonnil.
  - eexists _, _. split; reflexivity.
Qed.

Lemma prefix_v_append c r s :
  Ascii.eqb c "v" = false ->
  String.prefix "v" (String.append (String c r) s) = false.
Proof.
  intros H. change (String.append (String c r) s) with (String c (String.append r s)).
  cbn [String.prefix]. rewrite Ascii.eqb_sym in H.
  destruct (ascii_dec "v" c) as [<-|Hne]; [discriminate|reflexivity].
Qed.

Lemma finite_to_string_head m e : String.prefix "v" (finite_to_string m e) = false.
Proof.
  unfold finite_to_string. cbv zeta.
  destruct (shortest_digits _ _ _ _ _ _) as [s n].
  destruct (Z_to_string_head s) as (c & r & -> & Hc).
  repeat lazymatch goal with
         | |- String.prefix "v" (if ?b then _ else _) = false => destruct b eqn:?
         end.
  - now apply prefix_v_append.
  - destruct (Z.to_nat n) as [|k] eqn:Hk.
    + lazymatch goal with
      | H : (0 <? n)%Z && _ = true |- _ => apply andb_prop in H as [Hn _]
      end.
      apply Z.ltb_lt in Hn. lia.
    + cbn [String.substring]. now apply prefix_v_append.
  - reflexivity.
  - now apply prefix_v_append.
  - cbn [String.substring]. destruct r; now apply prefix_v_append.
Qed.

Lemma number_to_string_head n : String.prefix "v" (number_to_string n) = false.
Proof.
  destruct n as [s|s| |s m e]; try reflexivity.
  - now destruct s.
  - cbn [number_to_string]. destruct s; [reflexivity|].
    change (String.append EmptyString (finite_to_string m e))
      with (finite_to_string m e).
    apply finite_to_string_head.
Qed.

Lemma to_string_validationErrors (v : option value) :
  to_string v = "validationErrors" -> v = Some (VStr "validationErrors").
Proof.
  destruct v as [[s|n]|]; cbn [to_string value_to_string].
  - now intros ->.
  - intros H. pose proof (number_to_string_head n) as Hn. rewrite H in Hn.
    discriminate.
  - discriminate.
Qed.

(** *** The column layout *)

Lemma columnNames_loop (file : File) headerRowIndex letters
    (columns : gmap string value) k v :
  foldl (fun columns letter =>
           let cellIndex := String.append letter (int_to_string headerRowIndex) in
           match file_get file cellIndex with
           | Some v => if truthy (Some v) then <[cellIndex := v]> columns
                       else columns
           | None => columns
           end)
        columns letters !! k = Some v ->
  columns !! k = Some v
  \/ (file_get file k = Some v /\ truthy (Some v) = true
      /\ exists letter, In letter letters
           /\ k = String.append letter (int_to_string headerRowIndex)).
Proof.
  revert columns. induction letters as [|letter letters IH]; intros columns;
    cbn [foldl]; [now left|].
  intros H. apply IH in H as [H|(Hget & Htruthy & letter' & Hin & ->)].
  - cbv zeta in H.
    destruct (file_get file (String.append letter (int_to_string headerRowIndex)))
      as [v'|] eqn:Hget; [|now left].
    destruct (truthy (Some v')) eqn:Htruthy; [|now left].
    destruct (decide (String.append letter (int_to_string headerRowIndex) = k))
      as [<-|Hne].
    + rewrite lookup_insert_eq in H. injection H as ->. right.
      split; [exact Hget|]. split; [exact Htruthy|]. exists letter.
      split; [now left|reflexivity].
    + rewrite lookup_insert_ne in H by assumption. now left.
  - right. split; [exact Hget|]. split; [exact Htruthy|]. exists letter'.
    split; [now right|reflexivity].
Qed.

Lemma columnNames_loop_found (file : File) headerRowIndex letters
    (columns : gmap string value) letter v :
  columns !! String.append letter (int_to_string headerRowIndex) = Some v
  \/ In letter letters ->
  file_get file (String.append letter (int_to_string headerRowIndex)) = Some v ->
  truthy (Some v) = true ->
  foldl (fun columns letter =>
           let cellIndex := String.append letter (int_to_string headerRowIndex) in
           match file_get file cellIndex with
           | Some v => if truthy (Some v) then <[cellIndex := v]> columns
                       else columns
           | None => columns
           end)
        columns letters
    !! String.append letter (int_to_string headerRowIndex) = Some v.
Proof.
  intros H Hget Htruthy. revert columns H.
  induction letters as [|a letters IH]; intros columns H; cbn [foldl].
  - destruct H as [H|[]]. exact H.
  - apply IH. cbv zeta.
    destruct (decide (String.append a (int_to_string headerRowIndex)
                      = String.append letter (int_to_string headerRowIndex)))
      as [E|Hne].
    + left. rewrite E, Hget, Htruthy. apply lookup_insert_eq.
    + destruct H as [H|[->|H]]; [|congruence|now right].
      left.
      destruct (file_get file (String.append a (int_to_string headerRowIndex)))
        as [va|]; [|exact H].
      destruct (truthy (Some va)); [|exact H].
      now rewrite lookup_insert_ne.
Qed.

(** The layout holds the truthy cells of the header row. *)
Lemma columnNames_lookup (file : File) headerRowIndex k v :
  columnNames file headerRowIndex !! k = Some v ->
  file_get file k = Some v /\ truthy (Some v) = true.
Proof.
  unfold columnNames. intros H.
  apply columnNames_loop in H as [H|(Hget & Htruthy & _)].
  - rewrite lookup_empty in H. discriminate.
  - easy.
Qed.

Lemma columnNames_found (file : File) headerRowIndex letter v :
  In letter columnLetters ->
  file_get file (String.append letter (int_to_string headerRowIndex)) = Some v ->
  truthy (Some v) = true ->
  columnNames file headerRowIndex
    !! String.append letter (int_to_string headerRowIndex) = Some v.
Proof.
  intros Hin Hget Htruthy. unfold columnNames.
  apply columnNames_loop_found; [now right|assumption|assumption].
Qed.

Lemma columnKey_not_validationErrors (file : File) headerRowIndex letter :
  (forall k, ~ In (k, VStr "validationErrors") file) ->
  columnKey file headerRowIndex letter <> "validationErrors".
Proof.
  intros Hnone E. apply to_string_validationErrors in E.
  apply columnNames_lookup in E as [E _]. apply assoc_Some_In in E.
  now apply Hnone in E.
Qed.

(** *** The extractor after validation *)

Lemma validated_anchors (file : File) :
  validateSheetStructure file = Ok tt ->
  exists statusEntry invoiceNoEntry dateString,
    findCell "Status" file = Some statusEntry
    /\ findCell "Invoice #" file = Some invoiceNoEntry
    /\ file_get file "A1" = Some (VStr dateString).
Proof.
  unfold validateSheetStructure, fileToEntries.
  destruct (findCell "Status" file) as [statusEntry|]; [|discriminate].
  destruct (findCell "Invoice #" file) as [invoiceNoEntry|]; [|discriminate].
  destruct (file_get file "A1") as [[dateString|n]|]; try discriminate.
  intros _. now exists statusEntry, invoiceNoEntry, dateString.
Qed.

Lemma anchors_found (file : File) statusEntry invoiceNoEntry :
  findCell "Status" file = Some statusEntry ->
  findCell "Invoice #" file = Some invoiceNoEntry ->
  anchors file = Throw (Error "Broken table")
  \/ exists statusCol headerRow invoiceNoCol,
       anchors file = Ok (statusCol, headerRow, invoiceNoCol).
Proof.
  intros Hs Hi. unfold anchors, fileToEntries. rewrite Hs, Hi.
  destruct (rowColFromString statusEntry.1) as [statusCol statusRow].
  destruct (rowColFromString invoiceNoEntry.1) as [invoiceNoCol invoiceNoRow].
  destruct (strict_ne_int statusRow invoiceNoRow); [now left|].
  right. now exists statusCol, statusRow, invoiceNoCol.
Qed.

(** Without a cell that holds the text "validationErrors" every row
    assembles. *)
Lemma extractor_total (file : File) statusCol headerRow invoiceNoCol :
  (forall k, ~ In (k, VStr "validationErrors") file) ->
  anchors file = Ok (statusCol, headerRow, invoiceNoCol) ->
  exists recs,
    parseInvoicesData file = Ok recs
    /\ Forall2 (fun row rec =>
                  assembleRow file headerRow (columnNames file headerRow) row
                  = Ok rec)
               (rowsToProcess file statusCol headerRow invoiceNoCol) recs.
Proof.
  intros Hnone Hanchors.
  destruct (collect_total
              (assembleRow file headerRow (columnNames file headerRow))
              (rowsToProcess file statusCol headerRow invoiceNoCol) [])
    as (recs & Hbatch & Hall).
  { intros row _.
    destruct (assembleRow_total file headerRow (columnNames file headerRow) row)
      as (rec & _ & H & _).
    - intros letter _. now apply columnKey_not_validationErrors.
    - now exists rec. }
  rewrite <- (parseInvoicesData_anchored _ _ _ _ Hanchors) in Hbatch.
  exists recs. split; [exact Hbatch|exact Hall].
Qed.

(** No cell of a concrete sheet holds a given text. *)
Ltac no_such_cell :=
  let k := fresh "k" in
  let Hin := fresh "Hin" in
  intros k Hin; vm_compute in Hin;
  repeat (destruct Hin as [Hin|Hin]; [discriminate Hin|]); destruct Hin.

(** C1 (as the code has it): on a sparse sheet whose "Status" and
    "Invoice #" cells lie in one-letter columns of the same row (the
    header row) and in which no cell holds the text "validationErrors",
    the extractor returns its records, one per admitted entry, and the
    rows that get a record are exactly the rows below the header row
    whose status cell is "Ready" or whose invoice number cell is a string
    of length 11 that starts with "INV": every such row gets a record,
    and every record returned is the record of such a row. *)
Theorem admitted_rows (file : File) sc ic h sv iv :
  sparseSheet file ->
  findCell "Status" file = Some (cell sc h, sv) ->
  findCell "Invoice #" file = Some (cell ic h, iv) ->
  (forall k, ~ In (k, VStr "validationErrors") file) ->
  exists recs,
    parseInvoicesData file = Ok recs
    /\ Forall2 (fun row rec =>
                  assembleRow file (Some h) (columnNames file (Some h)) row
                  = Ok rec)
               (rowsToProcess file (Some sc) (Some h) (Some ic)) recs
    /\ (forall row,
          In row (rowsToProcess file (Some sc) (Some h) (Some ic))
          <-> exists r, row = Some r /\ h < r
                /\ (statusReady file sc r \/ invoiceNumbered file ic r))
    /\ (forall r,
          h < r -> statusReady file sc r \/ invoiceNumbered file ic r ->
          exists rec,
            In rec recs
            /\ assembleRow file (Some h) (columnNames file (Some h)) (Some r)
               = Ok rec)
    /\ (forall rec,
          In rec recs ->
          exists r,
            h < r /\ (statusReady file sc r \/ invoiceNumbered file ic r)
            /\ assembleRow file (Some h) (columnNames file (Some h)) (Some r)
               = Ok rec).
Proof.
  intros Hsheet Hs Hi Hnone.
  pose proof (anchors_cells file sc ic h sv iv Hs Hi) as Hanchors.
  destruct (extractor_total file _ _ _ Hnone Hanchors) as (recs & Hrecs & Hall).
  exists recs. split; [exact Hrecs|]. split; [exact Hall|].
  split; [intros row; now apply rowsToProcess_rows|]. split.
  - intros r Hlt Hrow.
    destruct (Forall2_In_left _ _ _ (Some r) Hall) as (rec & Hin & Hrec).
    { apply rowsToProcess_rows; [exact Hsheet|]. now exists r. }
    now exists rec.
  - intros rec Hin. apply Forall2_flip in Hall.
    destruct (Forall2_In_left _ _ _ rec Hall Hin) as (row & Hrow & Hrec).
    apply rowsToProcess_rows in Hrow as (r & -> & Hlt & Hr); [|exact Hsheet].
    now exists r.
Qed.

Lemma admitted_rows_witness :
  exists recs,
    parseInvoicesData invoiceSheet = Ok recs
    /\ Forall2 (fun row rec =>
                  assembleRow invoiceSheet (Some 5)
                    (columnNames invoiceSheet (Some 5)) row = Ok rec)
               (rowsToProcess invoiceSheet (Some "E"%char) (Some 5) (Some "F"%char))
               recs
    /\ (forall row,
          In row (rowsToProcess invoiceSheet (Some "E"%char) (Some 5) (Some "F"%char))
          <-> exists r, row = Some r /\ 5 < r
                /\ (statusReady invoiceSheet "E" r \/ invoiceNumbered invoiceSheet "F" r))
    /\ (forall r,
          5 < r ->
          statusReady invoiceSheet "E" r \/ invoiceNumbered invoiceSheet "F" r ->
          exists rec,
            In rec recs
            /\ assembleRow invoiceSheet (Some 5)
                 (columnNames invoiceSheet (Some 5)) (Some r) = Ok rec)
    /\ (forall rec,
          In rec recs ->
          exists r,
            5 < r
            /\ (statusReady invoiceSheet "E" r \/ invoiceNumbered invoiceSheet "F" r)
            /\ assembleRow invoiceSheet (Some 5)
                 (columnNames invoiceSheet (Some 5)) (Some r) = Ok rec).
Proof.
  apply (admitted_rows invoiceSheet "E" "F" 5 (VStr "Status") (VStr "Invoice #")).
  - exact invoiceSheet_sparse.
  - reflexivity.
  - reflexivity.
  - no_such_cell.
Defined.

(** X11: on a sheet that has passed structure validation and in which
    no cell holds the text "validationErrors", the record extractor
    returns records or throws "Broken table": it raises no run-time
    error. *)
Theorem validated_sheet_extracts_or_broken_table (file : File) :
  validateSheetStructure file = Ok tt ->
  (forall k, ~ In (k, VStr "validationErrors") file) ->
  parseInvoicesData file = Throw (Error "Broken table")
  \/ exists recs, parseInvoicesData file = Ok recs.
Proof.
  intros Hvalid Hnone.
  destruct (validated_anchors file Hvalid) as (st & inv & _ & Hs & Hi & _).
  destruct (anchors_found file st inv Hs Hi)
    as [Hanchors|(statusCol & headerRow & invoiceNoCol & Hanchors)].
  - left. unfold parseInvoicesData. rewrite Hanchors. reflexivity.
  - right. destruct (extractor_total file _ _ _ Hnone Hanchors) as (recs & H & _).
    now exists recs.
Qed.

Lemma validated_sheet_extracts_or_broken_table_witness :
  (parseInvoicesData sheetWithSplitAnchors = Throw (Error "Broken table")
   \/ exists recs, parseInvoicesData sheetWithSplitAnchors = Ok recs)
  /\ (parseInvoicesData invoiceSheet = Throw (Error "Broken table")
      \/ exists recs, parseInvoicesData invoiceSheet = Ok recs).
Proof.
  split.
  - apply (validated_sheet_extracts_or_broken_table sheetWithSplitAnchors).
    + vm_compute. reflexivity.
    + no_such_cell.
  - apply (validated_sheet_extracts_or_broken_table invoiceSheet).
    + vm_compute. reflexivity.
    + no_such_cell.
Defined.

(** X26: the extractor relies on the two anchors: on a sheet without a
    cell that holds "Status", or without one that holds "Invoice #", it
    raises a run-time error instead of an error of its own. *)
Theorem extractor_needs_anchors (file : File) :
  (forall k, ~ In (k, VStr "Status") file)
  \/ (forall k, ~ In (k, VStr "Invoice #") file) ->
  parseInvoicesData file = Throw TypeError.
Proof.
  intros H.
  assert (Hanchors : anchors file = Throw TypeError).
  { unfold anchors, fileToEntries. destruct H as [H|H].
    - now rewrite (findCell_None _ _ H).
    - rewrite (findCell_None _ _ H). now destruct (findCell "Status" file). }
  unfold parseInvoicesData. rewrite Hanchors. reflexivity.
Qed.

Lemma extractor_needs_anchors_witness :
  parseInvoicesData dateOnlySheet = Throw TypeError.
Proof.
  apply (extractor_needs_anchors dateOnlySheet). left. no_such_cell.
Defined.

(** *** One record per admitted entry *)

Lemma two_positions {A} (l : list A) x y :
  In x l -> In y l -> x <> y ->
  exists i j, i <> j /\ l !! i = Some x /\ l !! j = Some y.
Proof.
  intros Hx Hy Hne. apply list_elem_of_In, list_elem_of_lookup in Hx as [i Hi].
  apply list_elem_of_In, list_elem_of_lookup in Hy as [j Hj].
  exists i, j. split; [|easy]. intros ->. congruence.
Qed.

Lemma lookup_map {A B} (f : A -> B) (l : list A) n :
  map f l !! n = f <$> l !! n.
Proof.
  revert n. induction l as [|a l IH]; intros [|n]; cbn; try reflexivity.
  apply IH.
Qed.

(** X12: the extractor emits one record per admitted cell, not per row.
    On a sparse sheet whose "Status" and "Invoice #" cells lie in
    one-letter columns of the same row and in which no cell holds the text
    "validationErrors", a row below the header whose status is "Ready" and
    whose invoice number is well formed gets two records, at two
    positions of the result, both the record of that row. *)
Theorem doubly_admitted_row_gets_two_records
    (file : File) sc ic h sv iv r :
  sparseSheet file ->
  findCell "Status" file = Some (cell sc h, sv) ->
  findCell "Invoice #" file = Some (cell ic h, iv) ->
  (forall k, ~ In (k, VStr "validationErrors") file) ->
  h < r ->
  statusReady file sc r ->
  invoiceNumbered file ic r ->
  exists recs i j (rec : record),
    parseInvoicesData file = Ok recs
    /\ i <> j /\ recs !! i = Some rec /\ recs !! j = Some rec
    /\ assembleRow file (Some h) (columnNames file (Some h)) (Some r) = Ok rec.
Proof.
  intros _ Hstatus Hinvoice Hnone Hlt Hready (s & Hnumber & Hprefix & Hlength).
  pose proof (anchors_cells file sc ic h sv iv Hstatus Hinvoice) as Hanchors.
  destruct (extractor_total file _ _ _ Hnone Hanchors) as (recs & Hrecs & Hall).
  unfold statusReady in Hready.
  apply assoc_Some_In in Hready, Hnumber.
  assert (Hp1 : toProcess (Some sc) (Some h) (Some ic) (cell sc r, VStr "Ready")
                = true).
  { unfold toProcess. rewrite rowColFromString_cell. cbn [gt].
    destruct (Z.ltb_spec h r); [|lia]. cbn. now rewrite Ascii.eqb_refl. }
  assert (Hp2 : toProcess (Some sc) (Some h) (Some ic) (cell ic r, VStr s) = true).
  { unfold toProcess. rewrite rowColFromString_cell. cbn [gt].
    destruct (Z.ltb_spec h r); [|lia].
    destruct (_ && _); [reflexivity|].
    cbn. now rewrite Ascii.eqb_refl, Hprefix, Hlength. }
  destruct (two_positions
              (List.filter (toProcess (Some sc) (Some h) (Some ic)) file)
              (cell sc r, VStr "Ready") (cell ic r, VStr s))
    as (i & j & Hij & Hi & Hj).
  { now apply filter_In. }
  { now apply filter_In. }
  { intros [= _ <-]. discriminate Hprefix. }
  assert (Hrow : forall n k v,
             List.filter (toProcess (Some sc) (Some h) (Some ic)) file !! n
             = Some (cell k r, v) ->
             rowsToProcess file (Some sc) (Some h) (Some ic) !! n = Some (Some r)).
  { intros n k v Hn. unfold rowsToProcess, fileToEntries. cbv zeta.
    rewrite lookup_map. refine (eq_trans (f_equal (fmap _) Hn) _).
    cbn [fmap option_fmap option_map fst].
    rewrite cell_cons. cbn [substring1]. now rewrite parseInt_Z_to_string. }
  destruct (Forall2_lookup_l _ _ _ i _ Hall (Hrow _ _ _ Hi)) as (rec & Hreci & Hrec).
  destruct (Forall2_lookup_l _ _ _ j _ Hall (Hrow _ _ _ Hj)) as (rec' & Hrecj & Hrec').
  assert (rec' = rec) as -> by congruence.
  now exists recs, i, j, rec.
Qed.

Lemma doubly_admitted_row_gets_two_records_witness :
  exists recs i j (rec : record),
    parseInvoicesData invoiceSheet = Ok recs
    /\ i <> j /\ recs !! i = Some rec /\ recs !! j = Some rec
    /\ assembleRow invoiceSheet (Some 5) (columnNames invoiceSheet (Some 5))
         (Some 6) = Ok rec.
Proof.
  apply (doubly_admitted_row_gets_two_records invoiceSheet "E" "F" 5
           (VStr "Status") (VStr "Invoice #") 6).
  - exact invoiceSheet_sparse.
  - reflexivity.
  - reflexivity.
  - no_such_cell.
  - lia.
  - vm_compute. reflexivity.
  - exists "INV00000001". vm_compute. auto.
Defined.

(** *** The keys and the values of a record *)

(** The exact list of messages of several columns in a row. *)
Lemma assembleColumns_errors (file : File) headerRowIndex columns row
    letters (entry : record) errors :
  entry !! "validationErrors" = Some (FArray errors) ->
  (forall letter, In letter letters ->
     to_string (columns !! String.append letter (int_to_string headerRowIndex))
     <> "validationErrors") ->
  exists entry' : record,
    forEach (assembleColumn file headerRowIndex columns row) letters entry
    = Ok entry'
    /\ entry' !! "validationErrors"
       = Some (FArray
           (errors ++
            flat_map (fun letter =>
                        columnMessages
                          (columns !! String.append letter (int_to_string headerRowIndex))
                          (file_get file (String.append letter (int_to_string row))))
                     letters)).
Proof.
  revert entry errors. induction letters as [|letter letters IH];
    intros entry errors Herr Hkeys; cbn [forEach flat_map].
  - exists entry. now rewrite app_nil_r.
  - rewrite assembleColumn_eq.
    destruct (storeColumn_spec entry
                (columns !! String.append letter (int_to_string headerRowIndex))
                (file_get file (String.append letter (int_to_string row)))
                errors Herr)
      as (entry1 & -> & Herr1 & _).
    { apply Hkeys. now left. }
    cbn [bind].
    destruct (IH entry1 _ Herr1) as (entry2 & -> & Herr2).
    { intros; apply Hkeys; now right. }
    exists entry2. split; [reflexivity|]. now rewrite Herr2, <- app_assoc.
Qed.

(** The value a column leaves in the record of a row, for any layout
    [columns]: the cell of the row, unless a column further right is
    stored under the same name. *)
Lemma assembleRow_value (file : File) headerRowIndex columns row
    before letter after (rec : record) :
  (forall letter, In letter columnLetters ->
     to_string (columns !! String.append letter (int_to_string headerRowIndex))
     <> "validationErrors") ->
  columnLetters = (before ++ letter :: after)%list ->
  to_string (columns !! String.append letter (int_to_string headerRowIndex))
    <> "__proto__" ->
  (forall letter', In letter' after ->
     to_string (columns !! String.append letter' (int_to_string headerRowIndex))
     <> to_string (columns !! String.append letter (int_to_string headerRowIndex))) ->
  assembleRow file headerRowIndex columns row = Ok rec ->
  rec !! to_string (columns !! String.append letter (int_to_string headerRowIndex))
  = Some (field_of (file_get file (String.append letter (int_to_string row)))).
Proof.
  intros Hkeys Hletters Hproto Hafter Hrec.
  unfold assembleRow in Hrec. rewrite Hletters in Hrec, Hkeys.
  rewrite forEach_app in Hrec. cbn [forEach] in Hrec.
  assert (Hkeys' : forall l, In l before \/ l = letter \/ In l after ->
     to_string (columns !! String.append l (int_to_string headerRowIndex))
     <> "validationErrors").
  { intros l Hl. apply Hkeys. apply in_app_iff. cbn.
    destruct Hl as [?|[->|?]]; auto. }
  destruct (assembleColumns_spec file headerRowIndex columns row before
              {[ "validationErrors" := FArray [] ]} [])
    as (entry1 & errors1 & E1 & Herr1 & _);
    [apply lookup_singleton_eq|intros; apply Hkeys'; tauto|].
  rewrite E1 in Hrec. cbn [mbind result_bind bind] in Hrec.
  rewrite assembleColumn_eq in Hrec.
  destruct (storeColumn_spec entry1
              (columns !! String.append letter (int_to_string headerRowIndex))
              (file_get file (String.append letter (int_to_string row)))
              _ Herr1)
    as (entry2 & E2 & Herr2 & _ & Hvalue2); [apply Hkeys'; tauto|].
  rewrite E2 in Hrec. cbn [bind] in Hrec.
  destruct (assembleColumns_spec file headerRowIndex columns row after entry2 _ Herr2)
    as (entry3 & errors3 & E3 & Herr3 & Hsame3); [intros; apply Hkeys'; tauto|].
  rewrite E3 in Hrec. injection Hrec as <-.
  rewrite Hsame3; [now apply Hvalue2|exact Hafter|].
  apply Hkeys'. tauto.
Qed.

(** The keys of the record of a row, for any layout [columns]. *)
Lemma assembleRow_keys (file : File) headerRowIndex columns row (rec : record) k :
  (forall letter, In letter columnLetters ->
     to_string (columns !! String.append letter (int_to_string headerRowIndex))
     <> "validationErrors") ->
  assembleRow file headerRowIndex columns row = Ok rec ->
  is_Some (rec !! "validationErrors")
  /\ (is_Some (rec !! k) ->
      k = "validationErrors"
      \/ exists letter, In letter columnLetters
           /\ k = to_string (columns !! String.append letter
                                          (int_to_string headerRowIndex))).
Proof.
  intros Hkeys Hrec. unfold assembleRow in Hrec.
  destruct (assembleColumns_spec file headerRowIndex columns row columnLetters
              {[ "validationErrors" := FArray [] ]} [])
    as (rec' & errors & E & Herr & Hsame);
    [apply lookup_singleton_eq|exact Hkeys|].
  rewrite E in Hrec. injection Hrec as <-. split; [now rewrite Herr|].
  intros Hk. destruct (decide (k = "validationErrors")) as [->|Hne]; [now left|].
  right.
  destruct (decide (Exists
              (fun letter =>
                 to_string (columns !! String.append letter
                                         (int_to_string headerRowIndex)) = k)
              columnLetters)) as [Hex|Hall].
  - apply List.Exists_exists in Hex as (letter & Hin & Hletter).
    exists letter. split; [exact Hin|now symmetry].
  - exfalso. rewrite <- List.Forall_Exists_neg, List.Forall_forall in Hall.
    rewrite (Hsame k Hall Hne), lookup_singleton_ne in Hk by congruence.
    now destruct Hk.
Qed.

Lemma Forall2_weaken {A B} (P Q : A -> B -> Prop) l k :
  (forall x y, In x l -> P x y -> Q x y) -> Forall2 P l k -> Forall2 Q l k.
Proof.
  intros H HP. induction HP as [|x y l k Hxy _ IH]; constructor.
  - apply H; [now left|exact Hxy].
  - apply IH. intros x' y' Hin. apply H. now right.
Qed.

Lemma Forall2_Forall_right {A B} (P : A -> B -> Prop) (Q : B -> Prop) l k :
  (forall x y, P x y -> Q y) -> Forall2 P l k -> Forall Q k.
Proof. intros H HP. induction HP; constructor; eauto. Qed.

(** The layout of a sheet without a cell that holds "validationErrors". *)
Lemma layout_keys (file : File) headerRow :
  (forall k, ~ In (k, VStr "validationErrors") file) ->
  forall letter, In letter columnLetters ->
    columnKey file headerRow letter <> "validationErrors".
Proof. intros Hnone letter _. now apply columnKey_not_validationErrors. Qed.

(** X13: every record has the key "validationErrors"; its other keys
    are "undefined" and the texts of the truthy cells of the header row in
    the columns A to Z, nothing else. *)
Theorem record_keys (file : File) statusCol headerRow invoiceNoCol :
  (forall k, ~ In (k, VStr "validationErrors") file) ->
  anchors file = Ok (statusCol, headerRow, invoiceNoCol) ->
  exists recs,
    parseInvoicesData file = Ok recs
    /\ Forall (fun rec : record =>
                 is_Some (rec !! "validationErrors")
                 /\ forall k, is_Some (rec !! k) ->
                      k = "validationErrors" \/ k = "undefined"
                      \/ exists letter v,
                           In letter columnLetters
                           /\ file_get file
                                (String.append letter (int_to_string headerRow))
                              = Some v
                           /\ truthy (Some v) = true
                           /\ k = value_to_string v)
              recs.
Proof.
  intros Hnone Hanchors.
  destruct (extractor_total file _ _ _ Hnone Hanchors) as (recs & Hrecs & Hall).
  exists recs. split; [exact Hrecs|].
  eapply Forall2_Forall_right; [|exact Hall].
  intros row rec Hrec. cbv beta in Hrec. split.
  - apply (assembleRow_keys file headerRow _ row rec EmptyString
             (layout_keys file headerRow Hnone) Hrec).
  - intros k Hk.
    destruct (proj2 (assembleRow_keys file headerRow _ row rec k
                (layout_keys file headerRow Hnone) Hrec) Hk)
      as [->|(letter & Hin & ->)]; [now left|].
    right.
    destruct (columnNames file headerRow
                !! String.append letter (int_to_string headerRow))
      as [v|] eqn:Hv; [|now left].
    right. apply columnNames_lookup in Hv as [Hget Htruthy].
    now exists letter, v.
Qed.

Lemma record_keys_witness :
  exists recs,
    parseInvoicesData invoiceSheet = Ok recs
    /\ Forall (fun rec : record =>
                 is_Some (rec !! "validationErrors")
                 /\ forall k, is_Some (rec !! k) ->
                      k = "validationErrors" \/ k = "undefined"
                      \/ exists letter v,
                           In letter columnLetters
                           /\ file_get invoiceSheet
                                (String.append letter (int_to_string (Some 5)))
                              = Some v
                           /\ truthy (Some v) = true
                           /\ k = value_to_string v)
              recs.
Proof.
  apply (record_keys invoiceSheet (Some "E"%char) (Some 5) (Some "F"%char)).
  - no_such_cell.
  - vm_compute. reflexivity.
Defined.

(** X14: under the name of a column, mandatory or not, the record of a
    row holds the raw value of the cell of that row in that column
    ([undefined] for an empty cell), provided no column further right is
    stored under the same name. *)
Theorem record_holds_raw_cells
    (file : File) statusCol headerRow invoiceNoCol before letter after :
  (forall k, ~ In (k, VStr "validationErrors") file) ->
  anchors file = Ok (statusCol, headerRow, invoiceNoCol) ->
  columnLetters = (before ++ letter :: after)%list ->
  columnKey file headerRow letter <> "__proto__" ->
  (forall letter', In letter' after ->
     columnKey file headerRow letter' <> columnKey file headerRow letter) ->
  exists recs,
    parseInvoicesData file = Ok recs
    /\ Forall2 (fun row (rec : record) =>
                  rec !! columnKey file headerRow letter
                  = Some (field_of
                            (file_get file
                               (String.append letter (int_to_string row)))))
               (rowsToProcess file statusCol headerRow invoiceNoCol) recs.
Proof.
  intros Hnone Hanchors Hletters Hproto Hafter.
  destruct (extractor_total file _ _ _ Hnone Hanchors) as (recs & Hrecs & Hall).
  exists recs. split; [exact Hrecs|].
  eapply Forall2_weaken; [|exact Hall].
  intros row rec _ Hrec. cbv beta in Hrec.
  apply (assembleRow_value file headerRow _ row before letter after rec
           (layout_keys file headerRow Hnone) Hletters Hproto Hafter Hrec).
Qed.

(** The columns of a concrete sheet that are stored under other names. *)
Ltac other_letters :=
  let letter := fresh "letter" in
  let Hin := fresh "Hin" in
  intros letter Hin; cbn in Hin;
  repeat (destruct Hin as [<-|Hin]; [vm_compute; discriminate|]);
  destruct Hin.

Lemma record_holds_raw_cells_witness :
  exists recs,
    parseInvoicesData invoiceSheet = Ok recs
    /\ Forall2 (fun row (rec : record) =>
                  rec !! columnKey invoiceSheet (Some 5) "F"
                  = Some (field_of
                            (file_get invoiceSheet
                               (String.append "F" (int_to_string row)))))
               (rowsToProcess invoiceSheet (Some "E"%char) (Some 5) (Some "F"%char))
               recs.
Proof.
  apply (record_holds_raw_cells invoiceSheet
           (Some "E"%char) (Some 5) (Some "F"%char)
           ["A"; "B"; "C"; "D"; "E"] "F"
           ["G"; "H"; "I"; "J"; "K"; "L"; "M"; "N"; "O"; "P"; "Q"; "R"; "S";
            "T"; "U"; "V"; "W"; "X"; "Y"; "Z"]).
  - no_such_cell.
  - vm_compute. reflexivity.
  - reflexivity.
  - vm_compute. discriminate.
  - other_letters.
Defined.

(** In the messages of a column the layout may be read off the sheet. *)
Lemma columnMessages_layout (file : File) headerRowIndex letter cellValue :
  In letter columnLetters ->
  columnMessages
    (columnNames file headerRowIndex
       !! String.append letter (int_to_string headerRowIndex)) cellValue
  = columnMessages
      (file_get file (String.append letter (int_to_string headerRowIndex)))
      cellValue.
Proof.
  intros Hin. unfold columnMessages.
  destruct (file_get file (String.append letter (int_to_string headerRowIndex)))
    as [v|] eqn:Hget.
  - destruct (truthy (Some v)) eqn:Htruthy.
    + now rewrite (columnNames_found file headerRowIndex letter v Hin Hget Htruthy).
    + destruct (columnNames file headerRowIndex !! _) as [v'|] eqn:Hv.
      * apply columnNames_lookup in Hv as [Hget' Htruthy']. congruence.
      * destruct v as [[|c s]|n]; [reflexivity|discriminate|reflexivity].
  - destruct (columnNames file headerRowIndex !! _) as [v'|] eqn:Hv; [|reflexivity].
    apply columnNames_lookup in Hv as [Hget' _]. congruence.
Qed.

Lemma flat_map_ext_In {A B} (f g : A -> list B) l :
  (forall a, In a l -> f a = g a) -> flat_map f l = flat_map g l.
Proof.
  induction l as [|a l IH]; intros H; cbn; [reflexivity|].
  rewrite H by now left. f_equal. apply IH. intros; apply H; now right.
Qed.

Lemma assembleRow_errors (file : File) headerRow columns row (rec : record) :
  (forall letter, In letter columnLetters ->
     to_string (columns !! String.append letter (int_to_string headerRow))
     <> "validationErrors") ->
  (forall letter cellValue, In letter columnLetters ->
     columnMessages
       (columns !! String.append letter (int_to_string headerRow)) cellValue
     = columnMessages
         (file_get file (String.append letter (int_to_string headerRow)))
         cellValue) ->
  assembleRow file headerRow columns row = Ok rec ->
  rec !! "validationErrors" = Some (FArray (rowMessages file headerRow row)).
Proof.
  intros Hkeys Hlayout Hrec. unfold assembleRow in Hrec.
  destruct (assembleColumns_errors file headerRow columns
              row columnLetters {[ "validationErrors" := FArray [] ]} [])
    as (rec' & E & Herr); [apply lookup_singleton_eq|exact Hkeys|].
  rewrite E in Hrec. injection Hrec as <-. rewrite Herr. cbn [app].
  unfold rowMessages. do 2 f_equal. apply flat_map_ext_In.
  intros letter Hin. now apply Hlayout.
Qed.

Lemma layout_messages (file : File) headerRow :
  forall letter cellValue, In letter columnLetters ->
    columnMessages
      (columnNames file headerRow
         !! String.append letter (int_to_string headerRow)) cellValue
    = columnMessages
        (file_get file (String.append letter (int_to_string headerRow)))
        cellValue.
Proof. intros letter cellValue Hin. now apply columnMessages_layout. Qed.

(** X15: the validationErrors of the record of a row are exactly the
    messages of its mandatory columns, in the order of the columns from A
    to Z, each prefixed with the name of the column, and nothing else. *)
Theorem validationErrors_are_the_column_messages
    (file : File) statusCol headerRow invoiceNoCol :
  (forall k, ~ In (k, VStr "validationErrors") file) ->
  anchors file = Ok (statusCol, headerRow, invoiceNoCol) ->
  exists recs,
    parseInvoicesData file = Ok recs
    /\ Forall2 (fun row (rec : record) =>
                  rec !! "validationErrors"
                  = Some (FArray (rowMessages file headerRow row)))
               (rowsToProcess file statusCol headerRow invoiceNoCol) recs.
Proof.
  intros Hnone Hanchors.
  destruct (extractor_total file _ _ _ Hnone Hanchors) as (recs & Hrecs & Hall).
  exists recs. split; [exact Hrecs|].
  eapply Forall2_weaken; [|exact Hall].
  intros row rec _ Hrec. cbv beta in Hrec.
  exact (assembleRow_errors file headerRow _ row rec
           (layout_keys file headerRow Hnone) (layout_messages file headerRow)
           Hrec).
Qed.

Lemma validationErrors_are_the_column_messages_witness :
  exists recs,
    parseInvoicesData invoiceSheet = Ok recs
    /\ Forall2 (fun row (rec : record) =>
                  rec !! "validationErrors"
                  = Some (FArray (rowMessages invoiceSheet (Some 5) row)))
               (rowsToProcess invoiceSheet (Some "E"%char) (Some 5) (Some "F"%char))
               recs.
Proof.
  apply (validationErrors_are_the_column_messages invoiceSheet
           (Some "E"%char) (Some 5) (Some "F"%char)).
  - no_such_cell.
  - vm_compute. reflexivity.
Defined.

Lemma required_message name :
  In name mandatoryFields ->
  columnMessages (Some (VStr name)) None
  = [String.append name ": Required"].
Proof.
  intros H. cbn in H.
  repeat (destruct H as [<-|H]; [reflexivity|]). destruct H.
Qed.

(** X16: when no cell holds the text "validationErrors", an admitted row
    with an empty cell in a mandatory column gets the message
    "<column>: Required". *)
Theorem empty_mandatory_cell_is_required
    (file : File) statusCol headerRow invoiceNoCol row letter name :
  (forall k, ~ In (k, VStr "validationErrors") file) ->
  anchors file = Ok (statusCol, headerRow, invoiceNoCol) ->
  In row (rowsToProcess file statusCol headerRow invoiceNoCol) ->
  In letter columnLetters ->
  file_get file (String.append letter (int_to_string headerRow))
    = Some (VStr name) ->
  In name mandatoryFields ->
  file_get file (String.append letter (int_to_string row)) = None ->
  exists recs (rec : record) errors,
    parseInvoicesData file = Ok recs
    /\ In rec recs
    /\ assembleRow file headerRow (columnNames file headerRow) row = Ok rec
    /\ rec !! "validationErrors" = Some (FArray errors)
    /\ In (String.append name ": Required") errors.
Proof.
  intros Hnone Hanchors Hrow Hletter Hname Hmand Hempty.
  destruct (extractor_total file _ _ _ Hnone Hanchors) as (recs & Hrecs & Hall).
  destruct (Forall2_In_left _ _ _ _ Hall Hrow) as (rec & Hin & Hrec).
  exists recs, rec, (rowMessages file headerRow row).
  split; [exact Hrecs|]. split; [exact Hin|]. split; [exact Hrec|].
  split.
  { exact (assembleRow_errors file headerRow _ row rec
             (layout_keys file headerRow Hnone) (layout_messages file headerRow)
             Hrec). }
  unfold rowMessages. apply in_flat_map. exists letter. split; [exact Hletter|].
  rewrite Hname, Hempty, (required_message name Hmand). now left.
Qed.

Lemma empty_mandatory_cell_is_required_witness :
  exists recs (rec : record) errors,
    parseInvoicesData sheetWithoutCustomerName = Ok recs
    /\ In rec recs
    /\ assembleRow sheetWithoutCustomerName (Some 5)
         (columnNames sheetWithoutCustomerName (Some 5)) (Some 6) = Ok rec
    /\ rec !! "validationErrors" = Some (FArray errors)
    /\ In (String.append "Customer" ": Required") errors.
Proof.
  apply (empty_mandatory_cell_is_required sheetWithoutCustomerName
           (Some "E"%char) (Some 5) (Some "F"%char) (Some 6) "A" "Customer").
  - no_such_cell.
  - vm_compute. reflexivity.
  - vm_compute. left. reflexivity.
  - left. reflexivity.
  - reflexivity.
  - left. reflexivity.
  - reflexivity.
Defined.

(** X17: when the "Status" cell or the "Invoice #" cell lies in a column
    of two or more letters (beyond Z), its row reads as NaN and the
    extractor throws "Broken table", even if both lie on the same row. *)
Theorem anchor_beyond_column_Z_breaks_table
    (file : File) statusEntry invoiceNoEntry column row :
  findCell "Status" file = Some statusEntry ->
  findCell "Invoice #" file = Some invoiceNoEntry ->
  allUpper column = true ->
  (2 <= String.length column)%nat ->
  statusEntry.1 = cellName column row \/ invoiceNoEntry.1 = cellName column row ->
  parseInvoicesData file = Throw (Error "Broken table").
Proof.
  intros Hs Hi Hup Hlen Hcell.
  assert (Hrow : (rowColFromString (cellName column row)).2 = None).
  { destruct column as [|c [|c2 column]]; cbn in Hlen; try lia.
    rewrite !cellName_cons. unfold rowColFromString. cbn [snd substring1].
    apply parseInt_upper. cbn [allUpper] in Hup.
    apply andb_prop in Hup as [_ Hup]. now apply andb_prop in Hup as [Hup _]. }
  assert (Hanchors : anchors file = Throw (Error "Broken table")).
  { unfold anchors, fileToEntries. rewrite Hs, Hi.
    destruct (rowColFromString statusEntry.1) as [statusCol statusRow] eqn:E1.
    destruct (rowColFromString invoiceNoEntry.1) as [invoiceNoCol invoiceNoRow] eqn:E2.
    destruct Hcell as [Hcell|Hcell]; rewrite Hcell in *.
    - rewrite E1 in Hrow. cbn in Hrow. subst statusRow. reflexivity.
    - rewrite E2 in Hrow. cbn in Hrow. subst invoiceNoRow.
      now destruct statusRow. }
  unfold parseInvoicesData. rewrite Hanchors. reflexivity.
Qed.

Lemma anchor_beyond_column_Z_breaks_table_witness :
  parseInvoicesData sheetBeyondColumnZ = Throw (Error "Broken table").
Proof.
  apply (anchor_beyond_column_Z_breaks_table sheetBeyondColumnZ
           ("AA5", VStr "Status") ("AB5", VStr "Invoice #") "AA" 5).
  - reflexivity.
  - reflexivity.
  - reflexivity.
  - cbn. lia.
  - left. reflexivity.
Defined.

(** ** The rules of [invoiceDataFormat] *)

(** *** Integers as binary64 numbers *)

Lemma digits2_pos_log2 p : Z.pos (digits2_pos p) = Z.log2 (Z.pos p) + 1.
Proof.
  induction p as [p IH|p IH|]; cbn [digits2_pos]; [| |reflexivity];
    rewrite Pos2Z.inj_succ, IH; destruct p; cbn; lia.
Qed.

Lemma digits2_pos_bounds p :
  2 ^ (Z.pos (digits2_pos p) - 1) <= Z.pos p < 2 ^ Z.pos (digits2_pos p).
Proof.
  rewrite digits2_pos_log2.
  replace (Z.log2 (Z.pos p) + 1 - 1) with (Z.log2 (Z.pos p)) by lia.
  replace (Z.log2 (Z.pos p) + 1) with (Z.succ (Z.log2 (Z.pos p))) by lia.
  apply Z.log2_spec. lia.
Qed.

Lemma iter_xO_value p d : Z.pos (Pos.iter xO p d) = Z.pos p * 2 ^ Z.pos d.
Proof.
  induction d as [|d IH] using Pos.peano_ind.
  - cbn [Pos.iter]. lia.
  - rewrite Pos.iter_succ, Pos2Z.inj_xO, IH, Pos2Z.inj_succ, Z.pow_succ_r by lia.
    lia.
Qed.

Lemma iter_xO_digits p d :
  digits2_pos (Pos.iter xO p d) = (digits2_pos p + d)%positive.
Proof.
  induction d as [|d IH] using Pos.peano_ind.
  - cbn [Pos.iter digits2_pos]. lia.
  - rewrite Pos.iter_succ. cbn [digits2_pos]. rewrite IH. lia.
Qed.

(** A mantissa of 53 bits is not rounded. *)
Lemma binary_round_aux_exact s m e :
  Z.pos (digits2_pos m) = 53 -> -1074 <= e <= 971 ->
  binary_round_aux prec emax s (Z.pos m) e loc_Exact = S754_finite s m e.
Proof.
  intros Hm He. unfold binary_round_aux, shr_fexp.
  cbn [Zdigits2 shr_record_of_loc]. rewrite Hm.
  assert (Hfexp : fexp prec emax (53 + e) - e = 0).
  { unfold fexp, emin, prec, emax. lia. }
  rewrite Hfexp. cbn [shr shr_m loc_of_shr_record round_nearest_even Zdigits2
                      shr_record_of_loc].
  rewrite Hm, Hfexp. cbn [shr shr_m].
  assert (Hle : (e <=? emax - prec)%Z = true)
    by (apply Z.leb_le; unfold emax, prec; lia).
  now rewrite Hle.
Qed.

Lemma digits2_pos_le p : Z.pos p < 2 ^ 53 -> Z.pos (digits2_pos p) <= 53.
Proof.
  intros Hp. pose proof (digits2_pos_bounds p) as [Hlo _].
  destruct (Z.le_gt_cases (Z.pos (digits2_pos p)) 53) as [H|H]; [exact H|].
  exfalso. assert (2 ^ 53 <= 2 ^ (Z.pos (digits2_pos p) - 1))
    by (apply Z.pow_le_mono_r; lia). lia.
Qed.

Lemma binary_round_integer s p :
  Z.pos p < 2 ^ 53 ->
  binary_round prec emax s p 0
  = S754_finite s (mantissa p) (Z.pos (digits2_pos p) - 53).
Proof.
  intros Hp. pose proof (digits2_pos_le p Hp) as Hd.
  unfold binary_round, shl_align, mantissa.
  assert (Hfexp : fexp prec emax (Z.pos (digits2_pos p) + 0)
                  = Z.pos (digits2_pos p) - 53).
  { unfold fexp, emin, prec, emax. lia. }
  rewrite Hfexp.
  replace (Z.pos (digits2_pos p) - 53 - 0) with (- (53 - Z.pos (digits2_pos p)))
    by lia.
  destruct (53 - Z.pos (digits2_pos p)) as [|d|d] eqn:Ed; [| |lia].
  - change (- 0) with 0. cbv beta iota.
    rewrite binary_round_aux_exact by lia. f_equal. lia.
  - change (- Z.pos d) with (Z.neg d). cbv beta iota.
    rewrite binary_round_aux_exact; [reflexivity| |lia].
    rewrite iter_xO_digits, Pos2Z.inj_add. lia.
Qed.

Lemma mantissa_value p :
  Z.pos p < 2 ^ 53 ->
  Z.pos (mantissa p) = Z.pos p * 2 ^ (53 - Z.pos (digits2_pos p)).
Proof.
  intros Hp. unfold mantissa.
  destruct (53 - Z.pos (digits2_pos p)) as [|d|d] eqn:Ed.
  - cbn. lia.
  - apply iter_xO_value.
  - pose proof (digits2_pos_le p Hp). lia.
Qed.

(** On the integers below [2^53] the order of the numbers is the order
    of the integers. *)
Lemma ltb_positive p q :
  Z.pos p < 2 ^ 53 -> Z.pos q < 2 ^ 53 ->
  ltb (binary_round prec emax false p 0) (binary_round prec emax false q 0)
  = (Z.pos p <? Z.pos q)%Z.
Proof.
  intros Hp Hq. rewrite !binary_round_integer by assumption.
  unfold ltb, SFltb, SFcompare.
  pose proof (digits2_pos_bounds p) as [Hplo Hphi].
  pose proof (digits2_pos_bounds q) as [Hqlo Hqhi].
  pose proof (mantissa_value p Hp) as Hmp.
  pose proof (mantissa_value q Hq) as Hmq.
  pose proof (digits2_pos_le p Hp) as Hdp.
  pose proof (digits2_pos_le q Hq) as Hdq.
  destruct (Z.compare_spec (Z.pos (digits2_pos p) - 53) (Z.pos (digits2_pos q) - 53))
    as [E|E|E].
  - assert (Ed : Z.pos (digits2_pos p) = Z.pos (digits2_pos q)) by lia.
    rewrite Ed in Hmp. change (Pos.compare_cont Eq (mantissa p) (mantissa q))
      with (Z.pos (mantissa p) ?= Z.pos (mantissa q))%Z.
    rewrite Hmp, Hmq.
    assert (0 < 2 ^ (53 - Z.pos (digits2_pos q))) by (apply Z.pow_pos_nonneg; lia).
    destruct (Z.compare_spec (Z.pos p * 2 ^ (53 - Z.pos (digits2_pos q)))
                             (Z.pos q * 2 ^ (53 - Z.pos (digits2_pos q))));
      symmetry; [apply Z.ltb_ge|apply Z.ltb_lt|apply Z.ltb_ge]; nia.
  - symmetry. apply Z.ltb_lt.
    assert (2 ^ Z.pos (digits2_pos p) <= 2 ^ (Z.pos (digits2_pos q) - 1))
      by (apply Z.pow_le_mono_r; lia). lia.
  - symmetry. apply Z.ltb_ge.
    assert (2 ^ Z.pos (digits2_pos q) <= 2 ^ (Z.pos (digits2_pos p) - 1))
      by (apply Z.pow_le_mono_r; lia). lia.
Qed.

Lemma ltb_number_of_Z a b :
  - 2 ^ 53 < a < 2 ^ 53 -> 0 < b < 2 ^ 53 ->
  ltb (number_of_Z a) (number_of_Z b) = (a <? b)%Z
  /\ ltb (number_of_Z b) (number_of_Z a) = (b <? a)%Z.
Proof.
  intros Ha Hb. destruct b as [|q|q]; try lia.
  destruct a as [|p|p]; unfold number_of_Z, binary_normalize.
  - rewrite binary_round_integer by lia. split; reflexivity.
  - split; apply ltb_positive; lia.
  - rewrite !binary_round_integer by lia. split; reflexivity.
Qed.

Lemma isInteger_number_of_Z z :
  - 2 ^ 53 < z < 2 ^ 53 -> isInteger (number_of_Z z) = true.
Proof.
  intros Hz. destruct z as [|p|p]; unfold number_of_Z, binary_normalize;
    [reflexivity| |]; rewrite binary_round_integer by lia; cbn [isInteger];
    (destruct (Z.leb_spec 0 (Z.pos (digits2_pos p) - 53)); [reflexivity|]);
    rewrite mantissa_value by lia;
    (replace (- (Z.pos (digits2_pos p) - 53)) with (53 - Z.pos (digits2_pos p))
      by lia);
    rewrite Z.mod_mul; [reflexivity| |reflexivity|];
    apply Z.pow_nonzero; lia.
Qed.

Lemma isNaN_number_of_Z z : - 2 ^ 53 < z < 2 ^ 53 -> isNaN (number_of_Z z) = false.
Proof.
  intros Hz. destruct z as [|p|p]; unfold number_of_Z, binary_normalize;
    [reflexivity| |]; now rewrite binary_round_integer by lia.
Qed.

(** X18: the rule of "Cust No'" on integers (below [2^53] in
    magnitude): an integer from 10000 to 99999 passes, a smaller one gets
    the message of the lower bound, a larger one that of the upper
    bound. *)
Theorem customer_number_rule schema z :
  assoc invoiceDataFormat "Cust No'" = Some schema ->
  - 2 ^ 53 < z < 2 ^ 53 ->
  Zod.safeParse schema (Some (VNum (number_of_Z z)))
  = if (z <? 10000)%Z
    then ["Number must be greater than or equal to 10000"]
    else if (99999 <? z)%Z
         then ["Number must be less than or equal to 99999"]
         else [].
Proof.
  intros [= <-] Hz. unfold Zod.safeParse.
  rewrite isNaN_number_of_Z by assumption.
  cbn [flat_map Zod.check_number app].
  rewrite isInteger_number_of_Z by assumption.
  destruct (ltb_number_of_Z z 10000 Hz) as [-> _]; [lia|].
  destruct (ltb_number_of_Z z 99999 Hz) as [_ ->]; [lia|].
  destruct (Z.ltb_spec z 10000), (Z.ltb_spec 99999 z); try lia; reflexivity.
Qed.

Lemma customer_number_rule_witness :
  Zod.safeParse
    (Zod.ZodNumber [Zod.CheckInt; Zod.CheckGte 10000; Zod.CheckLte 99999])
    (Some (VNum (number_of_Z 123456)))
  = ["Number must be less than or equal to 99999"].
Proof.
  apply (customer_number_rule _ 123456); [reflexivity|lia].
Defined.

Lemma toUpperCase_length s : String.length (toUpperCase s) = String.length s.
Proof. induction s as [|c s IH]; cbn; congruence. Qed.

(** X19: the rule of the two currency columns accepts exactly the
    strings of three characters, in any case: [toUpperCase] transforms
    the text, it does not check it. *)
Theorem currency_code_rule name schema s :
  name = "Item Price Currency" \/ name = "Invoice Currency" ->
  assoc invoiceDataFormat name = Some schema ->
  isAscii s = true ->
  Zod.safeParse schema (Some (VStr s)) = [] <-> String.length s = 3%nat.
Proof.
  intros [-> | ->] [= <-] _; unfold Zod.safeParse; cbn [Zod.check_string];
    rewrite toUpperCase_length;
    (destruct (Nat.eqb_spec (String.length s) 3) as [E|E];
     [now split|split; [discriminate|contradiction]]).
Qed.

Lemma currency_code_rule_witness :
  Zod.safeParse (Zod.ZodString [Zod.CheckToUpperCase; Zod.CheckLength 3])
    (Some (VStr "usd")) = []
  <-> String.length "usd" = 3%nat.
Proof.
  apply (currency_code_rule "Invoice Currency" _ "usd");
    [right; reflexivity|reflexivity|reflexivity].
Defined.

(** ** [calculateTotalInvoiceCurrency] *)

(** *** What the calculator leaves alone *)

(** X20: the total calculator writes the total of each record it is
    given under "Invoice Total" and changes nothing else: it creates and
    removes no object, changes no other key of such a record, and leaves
    every record outside the array as it was. *)
Theorem calculateTotalInvoiceCurrency_frame
    rates (heap : list record) (invoicesData : list nat) :
  let result := calculateTotalInvoiceCurrency rates heap invoicesData in
  List.length result.1 = List.length heap
  /\ forall address (invoiceData : record),
       heap !! address = Some invoiceData ->
       exists invoiceData' : record,
         result.1 !! address = Some invoiceData'
         /\ (forall k, k <> "Invoice Total" ->
                       invoiceData' !! k = invoiceData !! k)
         /\ (address ∈ invoicesData ->
             invoiceData' !! "Invoice Total"
             = Some (FValue (VStr (totalText rates invoiceData))))
         /\ (address ∉ invoicesData -> invoiceData' = invoiceData).
Proof.
  cbv zeta. unfold calculateTotalInvoiceCurrency. cbn [fst snd].
  split.
  - revert heap. induction invoicesData as [|a l IH]; intros heap; cbn [foldl];
      [reflexivity|].
    now rewrite IH, length_alter.
  - intros address invoiceData Hheap. rewrite calculate_lookup, Hheap.
    case_bool_decide as Hin; cbn [fmap option_fmap option_map].
    + exists (withTotal rates invoiceData). split; [reflexivity|].
      rewrite withTotal_insert. split; [|split].
      * intros k Hk. now apply lookup_insert_ne.
      * intros _. apply lookup_insert_eq.
      * intros Hout. contradiction.
    + exists invoiceData. split; [reflexivity|]. split; [reflexivity|].
      split; [intros; contradiction|reflexivity].
Qed.

Lemma calculate_total rates (heap : list record) (invoicesData : list nat)
    address (invoiceData : record) :
  address ∈ invoicesData ->
  heap !! address = Some invoiceData ->
  (calculateTotalInvoiceCurrency rates heap invoicesData).1 !! address
  = Some (<["Invoice Total" := FValue (VStr (totalText rates invoiceData))]>
            invoiceData).
Proof.
  intros Hin Hheap. unfold calculateTotalInvoiceCurrency. cbn [fst].
  rewrite calculate_lookup, Hheap, bool_decide_eq_true_2 by assumption.
  cbn [fmap option_fmap option_map]. now rewrite withTotal_insert.
Qed.

(** X21: a record whose currency is neither in the rate table nor the
    name of a member of [Object.prototype] gets the total "No such
    currency defined". *)
Theorem unknown_currency_gets_sentinel
    rates (heap : list record) (invoicesData : list nat)
    address (invoiceData : record) currency :
  address ∈ invoicesData ->
  heap !! address = Some invoiceData ->
  invoiceData !! "Invoice Currency" = Some (FValue (VStr currency)) ->
  rates !! currency = None ->
  assoc Object_prototype currency = None ->
  (calculateTotalInvoiceCurrency rates heap invoicesData).1 !! address
  = Some (<["Invoice Total" := FValue (VStr "No such currency defined")]>
            invoiceData).
Proof.
  intros Hin Hheap Hcur Hnone Hproto.
  rewrite (calculate_total _ _ _ _ _ Hin Hheap). do 4 f_equal.
  unfold totalText. rewrite (get_Own _ _ _ Hcur).
  cbn [property_text field_text value_to_string].
  unfold get. now rewrite Hnone, Hproto.
Qed.

Lemma unknown_currency_gets_sentinel_witness :
  (calculateTotalInvoiceCurrency ratesInUSD [invoiceInEUR] [0%nat]).1 !! 0%nat
  = Some (<["Invoice Total" := FValue (VStr "No such currency defined")]>
            invoiceInEUR).
Proof.
  apply (unknown_currency_gets_sentinel ratesInUSD [invoiceInEUR] [0%nat]
           0%nat invoiceInEUR "EUR").
  - apply list_elem_of_here.
  - reflexivity.
  - reflexivity.
  - reflexivity.
  - reflexivity.
Defined.

Lemma native_text_is_no_number name text :
  assoc Object_prototype name = Some text -> parseFloat text = NaN.
Proof.
  intros H. apply assoc_Some_In in H. cbn in H.
  repeat (destruct H as [[= <- <-]|H]; [vm_compute; reflexivity|]).
  destruct H.
Qed.

(** X22: a currency that is not in the rate table but is the name of a
    member of [Object.prototype] ("constructor", "toString", ...) counts
    as defined, and the total is "NaN". *)
Theorem inherited_name_counts_as_currency
    rates (heap : list record) (invoicesData : list nat)
    address (invoiceData : record) currency text :
  address ∈ invoicesData ->
  heap !! address = Some invoiceData ->
  invoiceData !! "Invoice Currency" = Some (FValue (VStr currency)) ->
  rates !! currency = None ->
  assoc Object_prototype currency = Some text ->
  (calculateTotalInvoiceCurrency rates heap invoicesData).1 !! address
  = Some (<["Invoice Total" := FValue (VStr "NaN")]> invoiceData).
Proof.
  intros Hin Hheap Hcur Hnone Hproto.
  rewrite (calculate_total _ _ _ _ _ Hin Hheap). do 4 f_equal.
  unfold totalText. rewrite (get_Own _ _ _ Hcur).
  cbn [property_text field_text value_to_string].
  unfold get at 1. rewrite Hnone, Hproto. cbn [property_text].
  rewrite (native_text_is_no_number _ _ Hproto).
  unfold mul, NaN. now destruct (number_of_int _).
Qed.

Lemma inherited_name_counts_as_currency_witness :
  (calculateTotalInvoiceCurrency ratesInUSD [invoiceInToString] [0%nat]).1
    !! 0%nat
  = Some (<["Invoice Total" := FValue (VStr "NaN")]> invoiceInToString).
Proof.
  apply (inherited_name_counts_as_currency ratesInUSD [invoiceInToString]
           [0%nat] 0%nat invoiceInToString "toString"
           "function toString() { [native code] }").
  - apply list_elem_of_here.
  - reflexivity.
  - reflexivity.
  - reflexivity.
  - reflexivity.
Defined.

(** ** The request handler, stage by stage *)

(** The request once the sheet has passed validation. *)
Lemma handler_validated (file : File) parameter dateString :
  validateSheetStructure file = Ok tt ->
  file_get file "A1" = Some (VStr dateString) ->
  handler file parameter
  = if bool_decide (Some (parseInvoicingDate dateString) = parameter)
    then rates ← parseCurrencyRates file;
         recs ← parseInvoicesData file;
         Ok {| InvoicingMonth := parseInvoicingDate dateString;
               currencyRates := rates;
               invoicesData := map (withTotal rates) recs |}
    else Throw (Error "Invoicing month param dont match file invoicing month").
Proof.
  intros Hvalid Hdate. unfold handler. rewrite Hvalid.
  cbn [mbind result_bind bind]. rewrite Hdate.
  case_bool_decide; [|reflexivity]. cbn [negb].
  destruct (parseCurrencyRates file) as [rates|]; [|reflexivity].
  cbn [mbind result_bind bind].
  destruct (parseInvoicesData file) as [recs|]; [|reflexivity].
  cbn [mbind result_bind bind]. pose proof (calculate_fresh rates recs) as Hfresh.
  cbv zeta in Hfresh.
  destruct (calculateTotalInvoiceCurrency rates recs (seq 0 (List.length recs)))
    as [heap addresses].
  cbn [fst snd] in Hfresh. now rewrite Hfresh.
Qed.

(** X23: the request succeeds exactly when the sheet passes structure
    validation, the parameter is the canonical form of the date in A1,
    and the rate table builder and the record extractor both return; the
    response holds that month, that rate table, and the extractor's
    records, each with its total for that rate table. *)
Theorem handler_Ok_iff (file : File) parameter (out : output) :
  handler file parameter = Ok out
  <-> exists dateString recs,
        validateSheetStructure file = Ok tt
        /\ file_get file "A1" = Some (VStr dateString)
        /\ parameter = Some (parseInvoicingDate dateString)
        /\ parseCurrencyRates file = Ok (currencyRates out)
        /\ parseInvoicesData file = Ok recs
        /\ InvoicingMonth out = parseInvoicingDate dateString
        /\ invoicesData out = map (withTotal (currencyRates out)) recs.
Proof.
  split.
  - intros H.
    destruct (validateSheetStructure file) as [[]|e] eqn:Hvalid.
    2:{ unfold handler in H. rewrite Hvalid in H. discriminate H. }
    destruct (validated_anchors file Hvalid) as (_ & _ & dateString & _ & _ & Hdate).
    rewrite (handler_validated file parameter dateString Hvalid Hdate) in H.
    case_bool_decide as Hmonth; [|discriminate].
    destruct (parseCurrencyRates file) as [rates|]; [|discriminate].
    destruct (parseInvoicesData file) as [recs|]; [|discriminate].
    injection H as <-. now exists dateString, recs.
  - intros (dateString & recs & Hvalid & Hdate & -> & Hrates & Hrecs & Hmonth & Hdata).
    rewrite (handler_validated file _ dateString Hvalid Hdate).
    rewrite bool_decide_eq_true_2 by reflexivity.
    rewrite Hrates, Hrecs. cbn [mbind result_bind bind].
    destruct out as [month rates data]. cbn in Hmonth, Hdata. now subst.
Qed.

Lemma validate_errors (file : File) e :
  validateSheetStructure file = Throw e ->
  In e [ Error "No 'Status' cell in sheet"; Error "No 'Invoice #' cell in sheet";
         Error "Wrong Invoice Date"; Error "Mandatory field is missing" ].
Proof.
  unfold validateSheetStructure.
  destruct (findCell "Status" (fileToEntries file)) as [statusEntry|];
    [|intros [= <-]; cbn; tauto].
  destruct (findCell "Invoice #" (fileToEntries file)) as [invoiceNoEntry|];
    [|intros [= <-]; cbn; tauto].
  destruct (file_get file "A1") as [[dateString|n]|];
    try (intros [= <-]; cbn; tauto).
  generalize mandatoryFields. intros fields.
  induction fields as [|field fields IH]; cbn [forEach]; [discriminate|].
  destruct (findCell field (fileToEntries file)) as [found|]; cbn [bind];
    [exact IH|intros [= <-]; cbn; tauto].
Qed.

Lemma parseCurrencyRates_error (file : File) e :
  parseCurrencyRates file = Throw e -> e = Error "Wrong column index".
Proof.
  unfold parseCurrencyRates.
  destruct (rate_loop file _ ∅ (rateCells_Forall file)) as [[E _]|[[rates E] _]];
    rewrite E; [now intros [= <-]|discriminate].
Qed.

Lemma parseCurrencyRates_total (file : File) :
  (forall k text, In (k, VStr text) file -> endsWith text "Rate" = true ->
                  leftOfLastColumn k = true) ->
  exists rates, parseCurrencyRates file = Ok rates.
Proof.
  intros Hall. unfold parseCurrencyRates.
  destruct (rate_loop file _ ∅ (rateCells_Forall file)) as [[_ H]|[H _]];
    [|exact H].
  exfalso. apply List.Exists_exists in H as (element & Hin & Hk).
  apply filter_In in Hin as [Hin Hrate].
  destruct (isRateCell_inv _ Hrate) as (k & text & -> & Hends).
  cbn in Hk. rewrite (Hall k text Hin Hends) in Hk. discriminate.
Qed.

(** X24: a request on a sparse sheet succeeds when the sheet passes
    structure validation, the parameter is the canonical form of the date
    in A1, every rate label lies in the columns A to Y, no cell holds the
    text "validationErrors", and the "Status" cell and the "Invoice #"
    cell lie in one-letter columns (A to Z) of the same row; the response
    then has one record per admitted entry, each with an "Invoice
    Total". *)
Theorem handler_succeeds (file : File) dateString sc ic h sv iv :
  sparseSheet file ->
  validateSheetStructure file = Ok tt ->
  file_get file "A1" = Some (VStr dateString) ->
  (forall k text, In (k, VStr text) file -> endsWith text "Rate" = true ->
                  leftOfLastColumn k = true) ->
  (forall k, ~ In (k, VStr "validationErrors") file) ->
  findCell "Status" file = Some (cell sc h, sv) ->
  findCell "Invoice #" file = Some (cell ic h, iv) ->
  exists (out : output) recs,
    handler file (Some (parseInvoicingDate dateString)) = Ok out
    /\ InvoicingMonth out = parseInvoicingDate dateString
    /\ parseCurrencyRates file = Ok (currencyRates out)
    /\ parseInvoicesData file = Ok recs
    /\ invoicesData out = map (withTotal (currencyRates out)) recs
    /\ List.length (invoicesData out)
       = List.length (rowsToProcess file (Some sc) (Some h) (Some ic))
    /\ Forall (fun rec : record => is_Some (rec !! "Invoice Total"))
              (invoicesData out).
Proof.
  intros _ Hvalid Hdate Hlabels Hnone Hstatus Hinvoice.
  pose proof (anchors_cells file sc ic h sv iv Hstatus Hinvoice) as Hanchors.
  destruct (parseCurrencyRates_total file Hlabels) as [rates Hrates].
  destruct (extractor_total file _ _ _ Hnone Hanchors) as (recs & Hrecs & Hall).
  exists {| InvoicingMonth := parseInvoicingDate dateString;
            currencyRates := rates;
            invoicesData := map (withTotal rates) recs |}, recs.
  cbn [InvoicingMonth currencyRates invoicesData].
  split.
  { rewrite (handler_validated file _ dateString Hvalid Hdate).
    rewrite bool_decide_eq_true_2 by reflexivity. now rewrite Hrates, Hrecs. }
  split; [reflexivity|]. split; [exact Hrates|]. split; [exact Hrecs|].
  split; [reflexivity|]. split.
  - rewrite length_map. symmetry. exact (Forall2_length _ _ _ Hall).
  - apply List.Forall_forall. intros rec Hin.
    apply in_map_iff in Hin as (rec0 & <- & _).
    rewrite withTotal_insert, lookup_insert_eq. now eexists.
Qed.

Lemma handler_succeeds_witness :
  exists (out : output) recs,
    handler invoiceSheet (Some (parseInvoicingDate "Sep 2023")) = Ok out
    /\ InvoicingMonth out = parseInvoicingDate "Sep 2023"
    /\ parseCurrencyRates invoiceSheet = Ok (currencyRates out)
    /\ parseInvoicesData invoiceSheet = Ok recs
    /\ invoicesData out = map (withTotal (currencyRates out)) recs
    /\ List.length (invoicesData out)
       = List.length (rowsToProcess invoiceSheet
                        (Some "E"%char) (Some 5) (Some "F"%char))
    /\ Forall (fun rec : record => is_Some (rec !! "Invoice Total"))
              (invoicesData out).
Proof.
  apply (handler_succeeds invoiceSheet "Sep 2023" "E" "F" 5
           (VStr "Status") (VStr "Invoice #")).
  - exact invoiceSheet_sparse.
  - vm_compute. reflexivity.
  - reflexivity.
  - intros k text Hin Hends. vm_compute in Hin.
    repeat (destruct Hin as [Hin|Hin];
            [first [discriminate Hin
                   |injection Hin as <- <-; first [reflexivity|discriminate Hends]]|]).
    destruct Hin.
  - no_such_cell.
  - reflexivity.
  - reflexivity.
Defined.

(** X25: when no cell holds the text "validationErrors", a request that
    fails throws one of seven errors: the four of structure validation,
    the mismatch of the invoicing month, "Wrong column index" or "Broken
    table"; it raises no run-time error. *)
Theorem handler_failures (file : File) parameter e :
  (forall k, ~ In (k, VStr "validationErrors") file) ->
  handler file parameter = Throw e ->
  In e [ Error "No 'Status' cell in sheet"; Error "No 'Invoice #' cell in sheet";
         Error "Wrong Invoice Date"; Error "Mandatory field is missing";
         Error "Invoicing month param dont match file invoicing month";
         Error "Wrong column index"; Error "Broken table" ].
Proof.
  intros Hnone H.
  destruct (validateSheetStructure file) as [[]|e'] eqn:Hvalid.
  2:{ unfold handler in H. rewrite Hvalid in H. injection H as <-.
      apply validate_errors in Hvalid. cbn in Hvalid |- *. tauto. }
  destruct (validated_anchors file Hvalid) as (st & inv & dateString & Hs & Hi & Hdate).
  rewrite (handler_validated file parameter dateString Hvalid Hdate) in H.
  case_bool_decide as Hmonth; [|injection H as <-; cbn; tauto].
  destruct (parseCurrencyRates file) as [rates|e'] eqn:Hrates.
  2:{ injection H as <-. apply parseCurrencyRates_error in Hrates as ->.
      cbn. tauto. }
  cbn [mbind result_bind bind] in H.
  destruct (anchors_found file st inv Hs Hi)
    as [Hanchors|(statusCol & headerRow & invoiceNoCol & Hanchors)].
  - assert (Hrecs : parseInvoicesData file = Throw (Error "Broken table")).
    { unfold parseInvoicesData. rewrite Hanchors. reflexivity. }
    rewrite Hrecs in H. injection H as <-. cbn. tauto.
  - destruct (extractor_total file _ _ _ Hnone Hanchors) as (recs & Hrecs & _).
    rewrite Hrecs in H. discriminate H.
Qed.

Lemma handler_failures_witness :
  In (Error "Wrong column index")
     [ Error "No 'Status' cell in sheet"; Error "No 'Invoice #' cell in sheet";
       Error "Wrong Invoice Date"; Error "Mandatory field is missing";
       Error "Invoicing month param dont match file invoicing month";
       Error "Wrong column index"; Error "Broken table" ].
Proof.
  apply (handler_failures sheetWithRateInZ (Some "2023-09")).
  - no_such_cell.
  - vm_compute. reflexivity.
Defined.

(** ** Requests with nothing to read *)

(** X27: a sheet without a rate label yields the empty rate table. *)
Theorem no_rate_label_empty_table (file : File) :
  (forall k text, In (k, VStr text) file -> endsWith text "Rate" = false) ->
  parseCurrencyRates file = Ok ∅.
Proof.
  intros Hnone. unfold parseCurrencyRates, fileToEntries.
  assert (E : List.filter isRateCell file = []).
  { induction file as [|[k v] file IH]; [reflexivity|]. cbn [List.filter].
    assert (Hv : isRateCell (k, v) = false).
    { destruct v as [text|n]; [|reflexivity]. apply (Hnone k text). now left. }
    rewrite Hv. apply IH. intros k' text' Hin. apply (Hnone k' text'). now right. }
  now rewrite E.
Qed.

Lemma no_rate_label_empty_table_witness :
  parseCurrencyRates headerCells = Ok ∅.
Proof.
  apply (no_rate_label_empty_table headerCells).
  intros k text Hin. cbn in Hin.
  repeat (destruct Hin as [[= <- <-]|Hin]; [reflexivity|]). destruct Hin.
Defined.

(** X28: on a sparse sheet whose "Status" cell and "Invoice #" cell lie
    in one-letter columns (A to Z) of the same row, the header row, and
    that has no cell of a one-letter column below that row, the extractor
    returns no record. *)
Theorem no_row_below_header_no_record (file : File) sc ic headerRow sv iv :
  sparseSheet file ->
  findCell "Status" file = Some (cell sc headerRow, sv) ->
  findCell "Invoice #" file = Some (cell ic headerRow, iv) ->
  (forall c row v, In (cell c row, v) file -> row <= headerRow) ->
  parseInvoicesData file = Ok [].
Proof.
  intros Hsheet Hstatus Hinvoice Habove.
  pose proof (anchors_cells file sc ic headerRow sv iv Hstatus Hinvoice)
    as Hanchors.
  rewrite (parseInvoicesData_anchored _ _ _ _ Hanchors).
  assert (E : rowsToProcess file (Some sc) (Some headerRow) (Some ic) = []).
  { destruct (rowsToProcess file (Some sc) (Some headerRow) (Some ic))
      as [|row rows] eqn:Hrows; [reflexivity|]. exfalso.
    assert (Hin : In row (rowsToProcess file (Some sc) (Some headerRow) (Some ic)))
      by (rewrite Hrows; now left).
    apply rowsToProcess_In in Hin as ([k v] & Hin & Hproc & _).
    unfold toProcess in Hproc.
    destruct (rowOf_cellName _ (sparseSheet_cell _ _ Hsheet Hin))
      as (c & r & _ & _ & [[E Hk]|E]); cbn [fst] in *; rewrite E in Hproc;
      cbn [gt] in Hproc; [|discriminate].
    subst k. apply Habove in Hin.
    destruct (Z.ltb_spec headerRow r); [lia|discriminate]. }
  now rewrite E.
Qed.

Lemma no_row_below_header_no_record_witness :
  parseInvoicesData headerCells = Ok [].
Proof.
  apply (no_row_below_header_no_record headerCells "E" "F" 5
           (VStr "Status") (VStr "Invoice #")).
  - sparse.
  - reflexivity.
  - reflexivity.
  - intros c row v Hin. cbn in Hin. rewrite cell_cons in Hin.
    repeat (destruct Hin as [Hin|Hin];
            [injection Hin as _ Hrow _;
             apply (f_equal parseInt) in Hrow;
             rewrite parseInt_Z_to_string in Hrow;
             injection Hrow as <-; lia|]).
    destruct Hin.
Defined.

(** X29: a request without the invoicing month never succeeds: it fails
    with the error of structure validation, or else with the mismatch of
    the invoicing month. *)
Theorem request_without_month_fails (file : File) :
  handler file None
  = match validateSheetStructure file with
    | Throw e => Throw e
    | Ok _ =>
        Throw (Error "Invoicing month param dont match file invoicing month")
    end.
Proof.
  destruct (validateSheetStructure file) as [[]|e] eqn:Hvalid.
  - destruct (validated_anchors file Hvalid) as (_ & _ & dateString & _ & _ & Hdate).
    rewrite (handler_validated file None dateString Hvalid Hdate).
    now rewrite bool_decide_eq_false_2.
  - unfold handler. now rewrite Hvalid.
Qed.
